(** * power-sensor-app: the connection facade, its two drivers, discovery,
      the unit-suffix parser and the polling pipeline, embedded in Rocq.

    Python objects are records, attribute updates are explicit state passing,
    raised exceptions are the [Raise] branch of a result type, and everything
    the program reaches through PyVISA (resource managers, sessions, the
    instrument on the other end) and through the random generator is an
    explicit [World] oracle, together with a trace of the calls made to it.
    A driver serialises its methods behind a lock; a method is therefore one
    step here, and threads only appear in the last model, [Threads].

    The text of the instrument layer is modelled as [string], and its
    character classes are the ASCII part of Python's, which is what
    instrument traffic and the commands of this program consist of. The
    parser of core/utils.py takes any text and is modelled on lists of
    Unicode code points. Floats are an abstract type with the three
    operations the program uses.

    The first half of the file holds the definitions, module by module of
    the program; the second half holds the proofs. *)

From Stdlib Require Import ZArith QArith Bool List Ascii String Lia.
From Stdlib Require Import Decimal DecimalString DecimalZ.
From stdpp Require Import base decidable option list gmap strings.

Import ListNotations.
Local Open Scope string_scope.
Local Open Scope Z_scope.
#[local] Set Warnings "-clear-no-such-hyp".

(** ** Python [str] methods used by the program *)

Module PyStr.

Definition in_range (lo hi : nat) (c : ascii) : bool :=
  (Nat.leb lo (nat_of_ascii c) && Nat.leb (nat_of_ascii c) hi)%bool.

(** [c.isspace()] on ASCII: TAB..CR, FS..US and the blank. *)
Definition is_space (c : ascii) : bool :=
  (in_range 9 13 c || in_range 28 32 c)%bool.

(** [\d] on ASCII. *)
Definition is_digit (c : ascii) : bool := in_range 48 57 c.

Definition is_upper (c : ascii) : bool := in_range 65 90 c.
Definition is_lower (c : ascii) : bool := in_range 97 122 c.

(** [[a-zA-Z]]. *)
Definition is_alpha (c : ascii) : bool := (is_upper c || is_lower c)%bool.

Definition upper_char (c : ascii) : ascii :=
  if is_lower c then ascii_of_nat (nat_of_ascii c - 32) else c.

Definition lower_char (c : ascii) : ascii :=
  if is_upper c then ascii_of_nat (nat_of_ascii c + 32) else c.

Fixpoint map_str (f : ascii -> ascii) (s : string) : string :=
  match s with
  | EmptyString => EmptyString
  | String c s' => String (f c) (map_str f s')
  end.

(** [s.upper()] and [s.lower()]. *)
Definition upper : string -> string := map_str upper_char.
Definition lower : string -> string := map_str lower_char.

Fixpoint all_str (p : ascii -> bool) (s : string) : bool :=
  match s with
  | EmptyString => true
  | String c s' => (p c && all_str p s')%bool
  end.

Fixpoint lstrip (s : string) : string :=
  match s with
  | EmptyString => EmptyString
  | String c s' => if is_space c then lstrip s' else s
  end.

Fixpoint rstrip (s : string) : string :=
  match s with
  | EmptyString => EmptyString
  | String c s' =>
      match rstrip s' with
      | EmptyString => if is_space c then EmptyString else String c EmptyString
      | r => String c r
      end
  end.

(** [s.strip()]. *)
Definition strip (s : string) : string := rstrip (lstrip s).

(** [s.startswith(p)]. *)
Definition startswith (s p : string) : bool := String.prefix p s.

(** [s.split()]: the maximal runs of non-blank characters. *)
Fixpoint split (s : string) : list string :=
  match s with
  | EmptyString => []
  | String c s' =>
      if is_space c then split s'
      else match s' with
           | EmptyString => [String c EmptyString]
           | String c' _ =>
               if is_space c' then String c EmptyString :: split s'
               else match split s' with
                    | w :: ws => String c w :: ws
                    | [] => [String c EmptyString]
                    end
           end
  end.

(** [xs[-1]]; [None] stands for the [IndexError] of an empty list. *)
Definition last_item (xs : list string) : option string := last xs.

(** [str(n)] for an [int]. *)
Definition str_of_int (n : Z) : string := NilZero.string_of_int (Z.to_int n).

(** The digit groups of an integer literal: digits, with single
    underscores allowed between two digits. *)
Fixpoint int_digits (s : string) : option uint :=
  match s with
  | EmptyString => None
  | String c s' =>
      match s' with
      | EmptyString => uint_of_char c (Some Nil)
      | String c' s'' =>
          if Ascii.eqb c' "_" then uint_of_char c (int_digits s'')
          else uint_of_char c (int_digits s')
      end
  end.

(** The blanks [int] skips around ASCII text: TAB..CR and the blank. *)
Definition is_int_space (c : ascii) : bool :=
  (in_range 9 13 c || Ascii.eqb c " ")%bool.

Fixpoint int_lstrip (s : string) : string :=
  match s with
  | EmptyString => EmptyString
  | String c s' => if is_int_space c then int_lstrip s' else s
  end.

Fixpoint int_rstrip (s : string) : string :=
  match s with
  | EmptyString => EmptyString
  | String c s' =>
      match int_rstrip s' with
      | EmptyString => if is_int_space c then EmptyString else String c EmptyString
      | r => String c r
      end
  end.

(** [sys.get_int_max_str_digits()] as the interpreter starts: the longest
    run of decimal digits that [int(s)] and [str(n)] convert. *)
Definition MAX_STR_DIGITS : nat := 4300.

(** The digits in a text, signs and underscores not counted. *)
Fixpoint count_digits (s : string) : nat :=
  match s with
  | EmptyString => O
  | String c s' => if is_digit c then S (count_digits s') else count_digits s'
  end.

(** [int(s)] in base 10; [None] stands for [ValueError], which is raised
    for a text that is not an integer literal and for one of more than
    [MAX_STR_DIGITS] digits. *)
Definition int_of_str (s : string) : option Z :=
  match int_rstrip (int_lstrip s) with
  | EmptyString => None
  | String c d =>
      if Nat.ltb MAX_STR_DIGITS (count_digits (String c d)) then None
      else if Ascii.eqb c "-" then option_map (fun u => Z.of_int (Neg u)) (int_digits d)
      else if Ascii.eqb c "+" then option_map (fun u => Z.of_int (Pos u)) (int_digits d)
      else option_map (fun u => Z.of_int (Pos u)) (int_digits (String c d))
  end.

(** Whether [str(n)] returns: it raises [ValueError] for an integer of
    more than [MAX_STR_DIGITS] digits. *)
Definition str_allowed (n : Z) : bool :=
  Nat.leb (count_digits (str_of_int n)) MAX_STR_DIGITS.

Definition not_space (c : ascii) : bool := negb (is_space c).

(** [not s]. *)
Definition is_empty (s : string) : bool :=
  match s with EmptyString => true | _ => false end.

(** The characters of a printed integer. *)
Definition int_char (c : ascii) : bool := (is_digit c || Ascii.eqb c "-")%bool.

End PyStr.

(** ** Exceptions, results and the world outside the program *)

Inductive exn :=
| RuntimeError (msg : string)    (* raised by this program *)
| LibraryError (msg : string)    (* any exception coming out of PyVISA *)
| ValueError (msg : string)      (* raised by a conversion of the language *)
| TypeError (msg : string).

(** [str(e)]. *)
Definition exn_text (e : exn) : string :=
  match e with
  | RuntimeError m | LibraryError m | ValueError m | TypeError m => m
  end.

Inductive result (A : Type) :=
| Ok (a : A)
| Raise (e : exn).
Arguments Ok {A} a.
Arguments Raise {A} e.

Definition is_ok {A} (r : result A) : bool :=
  match r with Ok _ => true | Raise _ => false end.

(** [str(n)] for an [int], with its error. *)
Definition str (n : Z) : result string :=
  if PyStr.str_allowed n then Ok (PyStr.str_of_int n)
  else Raise (ValueError
    "Exceeds the limit (4300 digits) for integer string conversion; use sys.set_int_max_str_digits() to increase the limit").

(** The session attributes assigned after a resource is opened. *)
Inductive attr :=
| Timeout (ms : Z)
| ReadTermination (t : string)
| WriteTermination (t : string).

(** One entry per call that leaves the program, with what came back;
    [None] is a normal return of a call without a value. [EvSimulator]
    records the construction of a simulator object. *)
Inductive event :=
| EvManager (be : string) (r : option exn)
| EvOpen (be addr : string) (r : option exn)
| EvSetAttr (be addr : string) (a : attr) (r : option exn)
| EvClear (be addr : string) (r : option exn)
| EvClose (be addr : string) (r : option exn)
| EvQuery (be addr cmd : string) (r : result string)
| EvWrite (be addr cmd : string) (r : option exn)
| EvList (be pattern : string) (r : result (list string))
| EvUniform (text : string)
| EvSimulator.

(** The trace of the calls made so far, oldest first. *)
Abbreviation trace := (list event).

Definition record (h : trace) (e : event) : trace := (h ++ [e])%list.

(** What PyVISA, the instruments and the random generator answer. Every
    answer may depend on all that happened before. [uniform] is the text of
    [f"{random.uniform(-50.0, -40.0):.3f}"]. *)
Record World := {
  HAS_VISA : bool;
  resource_manager : trace -> string -> option exn;
  open_resource : trace -> string -> string -> option exn;
  set_attr : trace -> string -> string -> attr -> option exn;
  clear : trace -> string -> string -> option exn;
  close_session : trace -> string -> string -> option exn;
  inst_query : trace -> string -> string -> string -> result string;
  inst_write : trace -> string -> string -> string -> option exn;
  list_resources : trace -> string -> string -> result (list string);
  uniform : trace -> string
}.

(** ** core/constants.py *)

Definition DEFAULT_BACKENDS : list string := ["@py"; ""].
Definition POLL_PERIOD_S : nat := 5.
Definition READ_TERM : string := String (ascii_of_nat 10) "".
Definition WRITE_TERM : string := String (ascii_of_nat 10) "".
Definition SCPI_QUERY_POWER : string := "MEAS:POW?".
Definition SCPI_ZERO : string := "SENS:POW:ZERO:IMM".
Definition SCPI_QUERY_FREQ : string := "SENS:FREQ?".

(** ["SENS:FREQ {freq}".format(freq=n)] for an [int], which is printed as
    [str] prints it. *)
Definition SCPI_SET_FREQ (freq : Z) : result string :=
  match str freq with
  | Ok s => Ok ("SENS:FREQ " ++ s)
  | Raise e => Raise e
  end.

(** ** drivers/fake_meter.py *)

Module FakeMeter.

Record t := {
  inst : bool;                 (* [True], or [None] once closed *)
  resource : string;
  backend_in_use : string;
  _freq_hz : Z
}.

(** [FakeMeter()]. *)
Definition new : t :=
  {| inst := true; resource := "FAKE"; backend_in_use := "FAKE";
     _freq_hz := 1000000000 |}.

Definition is_connected_to (self : t) (resource : string) : bool :=
  (inst self && String.eqb (PyStr.upper resource) "FAKE")%bool.

Definition connect (self : t) (resource : string) (timeout_ms : Z) : result unit :=
  if negb (String.eqb (PyStr.upper resource) "FAKE")
  then Raise (RuntimeError "FakeMeter: неверный ресурс (ожидалось 'FAKE')")
  else Ok tt.

Definition close (self : t) : t :=
  {| inst := false; resource := resource self;
     backend_in_use := backend_in_use self; _freq_hz := _freq_hz self |}.

(** [query] draws from the random generator for a power reading, which is
    the only way it touches the outside. *)
Definition query (w : World) (self : t) (cmd : string) (h : trace)
  : result string * trace :=
  let cmdu := PyStr.upper (PyStr.strip cmd) in
  if PyStr.startswith cmdu "*IDN?" then
    (Ok "FAKE,USB Power Sensor Simulator,0,1.0", h)
  else if (PyStr.startswith cmdu "MEAS:POW?" || PyStr.startswith cmdu "READ?"
           || PyStr.startswith cmdu "FETC:POW?")%bool then
    let x := uniform w h in (Ok x, record h (EvUniform x))
  else if (PyStr.startswith cmdu "SENS:FREQ?" || PyStr.startswith cmdu "FREQ?")%bool then
    (str (_freq_hz self), h)
  else (Ok "0", h).

Definition set_freq (self : t) (val : Z) : t :=
  {| inst := inst self; resource := resource self;
     backend_in_use := backend_in_use self; _freq_hz := val |}.

(** The body of the [try] in [write]: [None] when [parts[-1]] or [int]
    raises, which the [except] then swallows. *)
Definition parse_freq_arg (cmdu : string) : option Z :=
  match PyStr.last_item (PyStr.split cmdu) with
  | Some tok => PyStr.int_of_str tok
  | None => None
  end.

Definition write (self : t) (cmd : string) : result unit * t :=
  let cmdu := PyStr.upper (PyStr.strip cmd) in
  if (PyStr.startswith cmdu "SENS:POW:ZERO:IMM" || PyStr.startswith cmdu "CAL:ZERO")%bool then
    (Ok tt, self)
  else if (PyStr.startswith cmdu "SENS:FREQ " || PyStr.startswith cmdu "FREQ ")%bool then
    match parse_freq_arg cmdu with
    | Some val => (Ok tt, set_freq self val)
    | None => (Ok tt, self)
    end
  else (Ok tt, self).

Definition idn (self : t) : string := "Фейкметрон,USB Power Sensor Simulator,0,1.0".

(** What a command is, as [write] decides it. *)
Definition is_zero_cmd (cmd : string) : bool :=
  let cmdu := PyStr.upper (PyStr.strip cmd) in
  (PyStr.startswith cmdu "SENS:POW:ZERO:IMM" || PyStr.startswith cmdu "CAL:ZERO")%bool.

Definition is_freq_cmd (cmd : string) : bool :=
  let cmdu := PyStr.upper (PyStr.strip cmd) in
  (PyStr.startswith cmdu "SENS:FREQ " || PyStr.startswith cmdu "FREQ ")%bool.

(** The last blank-separated token of the command, as [write] sees it. *)
Definition trailing_token (cmd : string) : option string :=
  PyStr.last_item (PyStr.split (PyStr.upper (PyStr.strip cmd))).

End FakeMeter.



(** ** A state-and-exception monad for method bodies

    A method runs on a state [S] (the object it mutates and the trace) and
    either returns a value or raises; the state reached is kept in both
    cases, as Python keeps the side effects made before an exception. *)

Definition M (S A : Type) : Type := S -> result A * S.

Definition ret {S A} (a : A) : M S A := fun s => (Ok a, s).

Definition raise {S A} (e : exn) : M S A := fun s => (Raise e, s).

Definition bind {S A B} (c : M S A) (k : A -> M S B) : M S B :=
  fun s => match c s with
           | (Ok a, s') => k a s'
           | (Raise e, s') => (Raise e, s')
           end.

(** [try: c except Exception as e: handler(e)]. *)
Definition try_except {S A} (c : M S A) (handler : exn -> M S A) : M S A :=
  fun s => match c s with
           | (Ok a, s') => (Ok a, s')
           | (Raise e, s') => handler e s'
           end.

(** [x ← c; k] and [c;; k] are stdpp's notations for [bind]. *)
#[global] Instance M_ret {S} : MRet (M S) := fun A a => ret a.
#[global] Instance M_bind {S} : MBind (M S) := fun A B k c => bind c k.

(** A call without a value that leaves the program: ask the world, record
    the answer, raise if the answer is an exception. *)
Definition call {O} (ask : trace -> option exn) (ev : option exn -> event)
  : M (O * trace) unit :=
  fun '(self, h) =>
    let r := ask h in
    match r with
    | None => (Ok tt, (self, record h (ev r)))
    | Some e => (Raise e, (self, record h (ev r)))
    end.

(** The same for a call that returns a value. *)
Definition call_value {O A} (ask : trace -> result A) (ev : result A -> event)
  : M (O * trace) A :=
  fun '(self, h) => let r := ask h in (r, (self, record h (ev r))).

(** An update of the attributes of [self]. *)
Definition update {O} (f : O -> O) : M (O * trace) unit :=
  fun '(self, h) => (Ok tt, (f self, h)).

Definition self_ {O} : M (O * trace) O := fun '(self, h) => (Ok self, (self, h)).

(** A computation that only touches the trace. *)
Definition on_trace {O A} (f : trace -> result A * trace) : M (O * trace) A :=
  fun '(self, h) => let '(r, h') := f h in (r, (self, h')).

(** The outcome of a computation that touches nothing. *)
Definition now_ {S A} (r : result A) : M S A := fun s => (r, s).

(** ** drivers/visa_meter.py *)

Module VisaMeter.

(** An open PyVISA resource: the backend of its manager and its address. *)
Record session := { s_be : string; s_addr : string }.

Record t := {
  backend_order : list string;
  rm : option string;                 (* the resource manager, by its backend *)
  inst : option session;
  resource : option string;
  backend_in_use : option string;
  read_term : string;
  write_term : string
}.

Definition set_rm (v : option string) (self : t) : t :=
  {| backend_order := backend_order self; rm := v; inst := inst self;
     resource := resource self; backend_in_use := backend_in_use self;
     read_term := read_term self; write_term := write_term self |}.

Definition set_inst (v : option session) (self : t) : t :=
  {| backend_order := backend_order self; rm := rm self; inst := v;
     resource := resource self; backend_in_use := backend_in_use self;
     read_term := read_term self; write_term := write_term self |}.

Definition set_resource (v : option string) (self : t) : t :=
  {| backend_order := backend_order self; rm := rm self; inst := inst self;
     resource := v; backend_in_use := backend_in_use self;
     read_term := read_term self; write_term := write_term self |}.

Definition set_backend_in_use (v : option string) (self : t) : t :=
  {| backend_order := backend_order self; rm := rm self; inst := inst self;
     resource := resource self; backend_in_use := v;
     read_term := read_term self; write_term := write_term self |}.

Definition St : Type := t * trace.

(** [VisaMeter(backend_order, read_term, write_term)]. *)
Definition new (w : World) (order : list string) (rt wt : string) : result t :=
  if negb (HAS_VISA w) then Raise (RuntimeError "PyVISA не установлен")
  else Ok {| backend_order := order; rm := None; inst := None; resource := None;
             backend_in_use := None; read_term := rt; write_term := wt |}.

Definition _close_unlocked (w : World) : M St unit :=
  self ← self_;
  match inst self with
  | Some s =>
      try_except (call (fun h => close_session w h (s_be s) (s_addr s))
                       (EvClose (s_be s) (s_addr s)))
                 (fun _ => ret tt)
  | None => ret tt
  end ;;
  update (set_inst None) ;;
  update (set_rm None) ;;
  update (set_resource None) ;;
  update (set_backend_in_use None).

Definition is_connected_to (self : t) (res : string) : bool :=
  match inst self, resource self with
  | Some _, Some r => String.eqb r res
  | _, _ => false
  end.

(** [be or "default"]. *)
Definition backend_name (be : string) : string :=
  if String.eqb be "" then "default" else be.

(** The body of the [try] inside the loop of [connect], for one backend. *)
Definition open_with (w : World) (be res : string) (timeout_ms : Z) : M St unit :=
  call (fun h => resource_manager w h be) (EvManager be) ;;
  update (set_rm (Some be)) ;;
  call (fun h => open_resource w h be res) (EvOpen be res) ;;
  update (set_inst (Some {| s_be := be; s_addr := res |})) ;;
  call (fun h => set_attr w h be res (Timeout timeout_ms))
       (EvSetAttr be res (Timeout timeout_ms)) ;;
  self ← self_;
  call (fun h => set_attr w h be res (ReadTermination (read_term self)))
       (EvSetAttr be res (ReadTermination (read_term self))) ;;
  call (fun h => set_attr w h be res (WriteTermination (write_term self)))
       (EvSetAttr be res (WriteTermination (write_term self))) ;;
  try_except (call (fun h => clear w h be res) (EvClear be res))
             (fun _ => ret tt) ;;
  update (set_backend_in_use (Some (backend_name be))) ;;
  update (set_resource (Some res)).

(** The [for be in self.backend_order] loop with its [except] branch, and
    the [raise] after it. *)
Fixpoint try_backends (w : World) (bes : list string) (res : string)
    (timeout_ms : Z) (last_err : option exn) : M St unit :=
  match bes with
  | [] =>
      raise (match last_err with
             | Some e => e
             | None => RuntimeError "Не удалось открыть ресурс"
             end)
  | be :: rest =>
      fun s =>
        match open_with w be res timeout_ms s with
        | (Ok tt, s') => (Ok tt, s')
        | (Raise e, s') =>
            (update (set_rm None) ;;
             update (set_inst None) ;;
             try_backends w rest res timeout_ms (Some e)) s'
        end
  end.

Definition connect (w : World) (res : string) (timeout_ms : Z) : M St unit :=
  self ← self_;
  if is_connected_to self res then ret tt
  else
    _close_unlocked w ;;
    try_backends w (backend_order self) res timeout_ms None.

Definition close (w : World) : M St unit := _close_unlocked w.

Definition query (w : World) (cmd : string) : M St string :=
  self ← self_;
  match inst self with
  | None => raise (RuntimeError "Нет соединения")
  | Some s =>
      call_value (fun h => inst_query w h (s_be s) (s_addr s) cmd)
                 (EvQuery (s_be s) (s_addr s) cmd)
  end.

Definition write (w : World) (cmd : string) : M St unit :=
  self ← self_;
  match inst self with
  | None => raise (RuntimeError "Нет соединения")
  | Some s =>
      call (fun h => inst_write w h (s_be s) (s_addr s) cmd)
           (EvWrite (s_be s) (s_addr s) cmd)
  end.

Definition idn (w : World) : M St string :=
  try_except (query w "*IDN?") (fun _ => ret "").

(** The error of a connect without backends. *)
Definition default_error : exn := RuntimeError "Не удалось открыть ресурс".

(** The attributes after [_close_unlocked]. *)
Definition closed (self : t) : t :=
  set_backend_in_use None (set_resource None (set_rm None (set_inst None self))).

(** A driver as the facade constructs it. *)
Definition fresh (order : list string) : t :=
  {| backend_order := order; rm := None; inst := None; resource := None;
     backend_in_use := None; read_term := READ_TERM; write_term := WRITE_TERM |}.

End VisaMeter.


(** ** core/meter.py *)

Module Meter.

(** The object behind [_impl]. *)
Inductive impl :=
| Fake (m : FakeMeter.t)
| Visa (m : VisaMeter.t).

Record t := {
  backend_order : list string;
  backend_in_use : option string;
  _impl : option impl;
  resource : option string
}.

(** [Meter(backend_order)]. *)
Definition new (order : list string) : t :=
  {| backend_order := order; backend_in_use := None; _impl := None;
     resource := None |}.

Definition St : Type := t * trace.

Definition set_impl (v : option impl) (self : t) : t :=
  {| backend_order := backend_order self; backend_in_use := backend_in_use self;
     _impl := v; resource := resource self |}.

Definition set_backend_in_use (v : option string) (self : t) : t :=
  {| backend_order := backend_order self; backend_in_use := v;
     _impl := _impl self; resource := resource self |}.

Definition set_resource (v : option string) (self : t) : t :=
  {| backend_order := backend_order self; backend_in_use := backend_in_use self;
     _impl := _impl self; resource := v |}.

Definition is_connected_to (self : t) (res : string) : bool :=
  match _impl self, resource self with
  | Some _, Some r => String.eqb r res
  | _, _ => false
  end.

(** A method of the Real Driver run on an object [v] that [self] does not
    (or not yet) refer to; the object comes back with the result. *)
Definition on_visa {A} (v : VisaMeter.t) (c : M VisaMeter.St A)
  : M St (A * VisaMeter.t) :=
  fun '(self, h) =>
    match c (v, h) with
    | (Ok a, (v', h')) => (Ok (a, v'), (self, h'))
    | (Raise e, (v', h')) => (Raise e, (self, h'))
    end.

(** A method of the Real Driver run on the object [_impl] refers to. *)
Definition on_impl_visa {A} (v : VisaMeter.t) (c : M VisaMeter.St A) : M St A :=
  fun '(self, h) =>
    match c (v, h) with
    | (r, (v', h')) => (r, (set_impl (Some (Visa v')) self, h'))
    end.

(** [self._impl.close()] inside [try], then the [finally] block. Neither
    driver's [close] raises. *)
Definition close (w : World) : M St unit :=
  self ← self_;
  match _impl self with
  | Some (Fake m) => update (set_impl (Some (Fake (FakeMeter.close m))))
  | Some (Visa v) => on_impl_visa v (VisaMeter.close w)
  | None => ret tt
  end;;
  update (set_impl None);;
  update (set_backend_in_use None);;
  update (set_resource None).

Definition connect (w : World) (res : string) (timeout_ms : Z) : M St unit :=
  let res_upper := PyStr.upper (PyStr.strip res) in
  self ← self_;
  if is_connected_to self res then ret tt
  else
    close w;;
    if String.eqb res_upper "FAKE" then
      on_trace (fun h => (Ok tt, record h EvSimulator));;
      update (set_impl (Some (Fake FakeMeter.new)));;
      now_ (FakeMeter.connect FakeMeter.new "FAKE" 0);;
      update (set_backend_in_use (Some "FAKE"));;
      update (set_resource (Some "FAKE"))
    else
      impl ← now_ (VisaMeter.new w (backend_order self) READ_TERM WRITE_TERM);
      '(_, impl') ← on_visa impl (VisaMeter.connect w res timeout_ms);
      update (set_impl (Some (Visa impl')));;
      update (set_backend_in_use (VisaMeter.backend_in_use impl'));;
      update (set_resource (Some res)).

Definition query (w : World) (cmd : string) : M St string :=
  self ← self_;
  match _impl self with
  | None => raise (RuntimeError "Нет соединения")
  | Some (Fake m) => on_trace (FakeMeter.query w m cmd)
  | Some (Visa v) => on_impl_visa v (VisaMeter.query w cmd)
  end.

Definition write (w : World) (cmd : string) : M St unit :=
  self ← self_;
  match _impl self with
  | None => raise (RuntimeError "Нет соединения")
  | Some (Fake m) =>
      let '(r, m') := FakeMeter.write m cmd in
      update (set_impl (Some (Fake m')));;
      now_ r
  | Some (Visa v) => on_impl_visa v (VisaMeter.write w cmd)
  end.

Definition idn (w : World) : M St string :=
  self ← self_;
  match _impl self with
  | None => ret "Фейкометр 1.0"
  | Some (Fake m) => ret (FakeMeter.idn m)
  | Some (Visa v) => on_impl_visa v (VisaMeter.idn w)
  end.

(** The error of an operation without an active driver. *)
Definition NotConnected : exn := RuntimeError "Нет соединения".

(** The attributes after [close]. *)
Definition disconnected (self : t) : t :=
  set_resource None (set_backend_in_use None (set_impl None self)).

End Meter.

(** ** drivers/discovery.py *)

Module Discovery.

(** The inner loop [for r in res]: [addrs] grows at its end, [seen] is
    the set of what it holds. *)
Fixpoint add_new (res : list string) (addrs : list string) (seen : gset string)
  : list string * gset string :=
  match res with
  | [] => (addrs, seen)
  | r :: res' =>
      if decide (r ∈ seen) then add_new res' addrs seen
      else add_new res' (addrs ++ [r])%list ({[r]} ∪ seen)
  end.

(** The body of the [try] for one backend. *)
Definition list_backend (w : World) (be : string) : M (unit * trace) (list string) :=
  call (fun h => resource_manager w h be) (EvManager be);;
  call_value (fun h => list_resources w h be "USB?*::INSTR")
             (EvList be "USB?*::INSTR").

(** The loop [for be in backends], with [except Exception: pass]. *)
Fixpoint scan_loop (w : World) (backends : list string) (addrs : list string)
    (seen : gset string) (h : trace) : list string * trace :=
  match backends with
  | [] => (addrs, h)
  | be :: rest =>
      match list_backend w be (tt, h) with
      | (Ok res, (_, h')) =>
          let '(addrs', seen') := add_new res addrs seen in
          scan_loop w rest addrs' seen' h'
      | (Raise _, (_, h')) => scan_loop w rest addrs seen h'
      end
  end.

Definition scan_usb_usbtmc (w : World) (backends : list string) (h : trace)
  : list string * trace :=
  if negb (HAS_VISA w) then ([], h)
  else scan_loop w backends [] ∅ h.

End Discovery.

(** ** core/controller.py *)

Module MeasurementController.

(** [scan], which is also what [App.on_scan] computes before it fills the
    list of the window. *)
Definition scan (w : World) (h : trace) : list string * trace :=
  let '(addrs, h') := Discovery.scan_usb_usbtmc w DEFAULT_BACKENDS h in
  if decide ("FAKE" ∈ addrs) then (addrs, h')
  else ((addrs ++ ["FAKE"])%list, h').

End MeasurementController.


(** ** Reading a trace *)

Module Trace.

(** The exception a recorded call raised, if it raised. *)
Definition error (ev : event) : option exn :=
  match ev with
  | EvManager _ r | EvOpen _ _ r | EvSetAttr _ _ _ r | EvClear _ _ r
  | EvClose _ _ r | EvWrite _ _ _ r => r
  | EvQuery _ _ _ (Raise e) | EvList _ _ (Raise e) => Some e
  | _ => None
  end.

Definition is_manager (ev : event) : bool :=
  match ev with EvManager _ _ => true | _ => false end.

Definition is_clear (ev : event) : bool :=
  match ev with EvClear _ _ _ => true | _ => false end.



(** The exception of the last recorded call. *)
Definition last_error (evs : trace) : option exn :=
  match last evs with
  | Some ev => error ev
  | None => None
  end.

(** The number of times a driver was opened: a resource opened through
    PyVISA, or a simulator constructed. *)
Definition is_open (ev : event) : bool :=
  match ev with
  | EvOpen _ _ None => true
  | EvSimulator => true
  | _ => false
  end.

Definition opens (evs : trace) : nat := length (List.filter is_open evs).



Definition no_manager (evs : trace) : Prop :=
  forallb (fun ev => negb (is_manager ev)) evs = true.

Definition no_clear (evs : trace) : Prop :=
  forallb (fun ev => negb (is_clear ev)) evs = true.


End Trace.


(** ** Sample worlds *)

(** A bench with one sensor on the system backend: the pure-Python backend
    is not installed, the sensor does not support the buffer clear, and it
    answers every query with a fixed reading. *)
Definition bench_address : string := "USB0::0x2A8D::0x1234::MY1::INSTR".

Definition bench : World := {|
  HAS_VISA := true;
  resource_manager := fun _ be =>
    if String.eqb be "@py" then Some (LibraryError "no backend @py") else None;
  open_resource := fun _ _ addr =>
    if String.eqb addr bench_address then None
    else Some (LibraryError "VI_ERROR_RSRC_NFOUND");
  set_attr := fun _ _ _ _ => None;
  clear := fun _ _ _ => Some (LibraryError "VI_ERROR_NSUP_OPER");
  close_session := fun _ _ _ => None;
  inst_query := fun _ _ _ cmd =>
    if String.eqb cmd "*IDN?" then Ok "ACME,U2000,MY1,1.0" else Ok "-42.5 dBm";
  inst_write := fun _ _ _ _ => None;
  list_resources := fun _ _ _ => Ok [bench_address];
  uniform := fun _ => "-45.000"
|}.

(** A machine without PyVISA. *)
Definition bare : World := {|
  HAS_VISA := false;
  resource_manager := fun _ _ => Some (LibraryError "no pyvisa");
  open_resource := fun _ _ _ => Some (LibraryError "no pyvisa");
  set_attr := fun _ _ _ _ => Some (LibraryError "no pyvisa");
  clear := fun _ _ _ => Some (LibraryError "no pyvisa");
  close_session := fun _ _ _ => Some (LibraryError "no pyvisa");
  inst_query := fun _ _ _ _ => Raise (LibraryError "no pyvisa");
  inst_write := fun _ _ _ _ => Some (LibraryError "no pyvisa");
  list_resources := fun _ _ _ => Raise (LibraryError "no pyvisa");
  uniform := fun _ => "-45.000"
|}.

(** Two backends that both see the bench sensor, one of them failing in
    between. *)
Definition shared_bus : World := {|
  HAS_VISA := true;
  resource_manager := fun _ be =>
    if String.eqb be "@broken" then Some (LibraryError "no backend") else None;
  open_resource := fun _ _ _ => None;
  set_attr := fun _ _ _ _ => None;
  clear := fun _ _ _ => None;
  close_session := fun _ _ _ => None;
  inst_query := fun _ _ _ _ => Ok "0";
  inst_write := fun _ _ _ _ => None;
  list_resources := fun _ be _ =>
    if String.eqb be "@py" then Ok ["USB0::1::INSTR"; "USB0::2::INSTR"]
    else if String.eqb be "@ni" then Raise (LibraryError "VI_ERROR_SYSTEM_ERROR")
    else Ok ["USB0::2::INSTR"; "USB0::3::INSTR"; "USB0::1::INSTR"];
  uniform := fun _ => "-45.000"
|}.



(** ** Python text, by code point

    [parse_float] takes any [str], and [str.strip], [\s], [\d] and [float]
    go by the Unicode properties of its characters. A text is here the list
    of its code points; the tables are those of Unicode 14.0, which the
    interpreter carries in [unicodedata]. *)

Module PyUnicode.
Local Open Scope N_scope.

Definition text : Type := list N.

(** The text a string stands for. A string holds its text in UTF-8, as
    the literals of this file do: a lead byte announces up to three
    continuation bytes of six bits each. A byte that fits nowhere gives
    U+FFFD. [pending] is the number of continuation bytes still to come
    and the bits read so far. *)
Fixpoint decode (pending : option (nat * N)) (bytes : list N) : text :=
  match bytes with
  | [] => match pending with Some _ => [65533] | None => [] end
  | b :: rest =>
      let start :=
        if b <? 128 then b :: decode None rest
        else if b <? 192 then 65533 :: decode None rest
        else if b <? 224 then decode (Some (1%nat, b - 192)) rest
        else if b <? 240 then decode (Some (2%nat, b - 224)) rest
        else if b <? 248 then decode (Some (3%nat, b - 240)) rest
        else 65533 :: decode None rest in
      match pending with
      | None => start
      | Some (k, acc) =>
          if ((128 <=? b) && (b <? 192))%bool then
            match k with
            | S (S k') => decode (Some (S k', acc * 64 + (b - 128))) rest
            | _ => (acc * 64 + (b - 128)) :: decode None rest
            end
          else 65533 :: start
      end
  end.

Definition of_string (s : string) : text :=
  decode None (List.map N_of_ascii (list_ascii_of_string s)).

(** The characters with [c.isspace()], which are also those of [\s]:
    TAB..CR, FS..US, the blank, NEL, the no-break space and the blanks
    of the general punctuation block. *)
Definition spaces : list N :=
  [ 9; 10; 11; 12; 13; 28; 29; 30; 31; 32; 133; 160; 5760;
    8192; 8193; 8194; 8195; 8196; 8197; 8198; 8199; 8200; 8201; 8202;
    8232; 8233; 8239; 8287; 12288 ].

Definition is_space (c : N) : bool := existsb (N.eqb c) spaces.

(** The zero of every run of decimal digits (category Nd): the digits
    0 to 9 of a script follow each other. *)
Definition decimal_zeros : list N :=
  [
    48; 1632; 1776; 1984; 2406; 2534; 2662; 2790;
    2918; 3046; 3174; 3302; 3430; 3558; 3664; 3792;
    3872; 4160; 4240; 6112; 6160; 6470; 6608; 6784;
    6800; 6992; 7088; 7232; 7248; 42528; 43216; 43264;
    43472; 43504; 43600; 44016; 65296; 66720; 68912; 69734;
    69872; 69942; 70096; 70384; 70736; 70864; 71248; 71360;
    71472; 71904; 72016; 72784; 73040; 73120; 92768; 92864;
    93008; 120782; 120792; 120802; 120812; 120822; 123200; 123632;
    125264; 130032 ].

(** [unicodedata.decimal(c)]. *)
Definition decimal (c : N) : option Z :=
  option_map (fun z => Z.of_N (c - z))
             (List.find (fun z => (z <=? c) && (c <? z + 10))%bool decimal_zeros).

(** [\d], [c.isdecimal()]. *)
Definition is_digit (c : N) : bool :=
  match decimal c with Some _ => true | None => false end.

Definition is_upper (c : N) : bool := ((65 <=? c) && (c <=? 90))%bool.
Definition is_lower (c : N) : bool := ((97 <=? c) && (c <=? 122))%bool.

(** [[a-zA-Z]]. *)
Definition is_alpha (c : N) : bool := (is_upper c || is_lower c)%bool.

(** [s.lower()] on letters of [[a-zA-Z]], the only text the program
    lowers. *)
Definition lower_char (c : N) : N := if is_upper c then c + 32 else c.
Definition lower (s : text) : text := List.map lower_char s.

Fixpoint lstrip (s : text) : text :=
  match s with
  | [] => []
  | c :: s' => if is_space c then lstrip s' else s
  end.

Fixpoint rstrip (s : text) : text :=
  match s with
  | [] => []
  | c :: s' =>
      match rstrip s' with
      | [] => if is_space c then [] else [c]
      | r => c :: r
      end
  end.

(** [s.strip()]. *)
Definition strip (s : text) : text := rstrip (lstrip s).

Definition not_space (c : N) : bool := negb (is_space c).

Definition is_empty (s : text) : bool :=
  match s with [] => true | _ => false end.

(** [a == b]. *)
Fixpoint text_eqb (a b : text) : bool :=
  match a, b with
  | [], [] => true
  | x :: a', y :: b' => (N.eqb x y && text_eqb a' b')%bool
  | _, _ => false
  end.

End PyUnicode.

(** ** Regular expressions, as [re.search] runs them

    A backtracking matcher in continuation-passing style: an alternative
    that is written first is tried first, [?], [*] and [+] are greedy and
    give back what they took when the rest of the pattern fails, and the
    text of a capturing group is what was consumed inside it on the path
    that succeeds. *)

Module Re.
Import PyUnicode.

Inductive re :=
| Cls (p : N -> bool)          (* one character of a class *)
| Seq (a b : re)
| Opt (a : re)                 (* a? *)
| Star (p : N -> bool)         (* [class]* *)
| Plus (p : N -> bool)         (* [class]+ *)
| Group (n : nat) (a : re).    (* the n-th capturing group *)

(** The groups captured so far; [None] for a group that did not take part. *)
Definition caps : Type := nat -> option text.

Definition no_caps : caps := fun _ => None.

Definition set_cap (n : nat) (v : text) (c : caps) : caps :=
  fun k => if Nat.eqb k n then Some v else c k.

(** What was read between the text [s] and its suffix [s']. *)
Definition consumed (s s' : text) : text :=
  firstn (length s - length s') s.

Fixpoint star {R} (p : N -> bool) (s : text) (k : text -> option R)
  : option R :=
  match s with
  | c :: s' =>
      if p c then
        match star p s' k with
        | Some r => Some r
        | None => k s
        end
      else k s
  | [] => k s
  end.

Fixpoint run {R} (r : re) (s : text) (c : caps)
    (k : text -> caps -> option R) : option R :=
  match r with
  | Cls p =>
      match s with
      | a :: s' => if p a then k s' c else None
      | [] => None
      end
  | Seq a b => run a s c (fun s' c' => run b s' c' k)
  | Opt a =>
      match run a s c k with
      | Some x => Some x
      | None => k s c
      end
  | Star p => star p s (fun s' => k s' c)
  | Plus p =>
      match s with
      | a :: s' => if p a then star p s' (fun s'' => k s'' c) else None
      | [] => None
      end
  | Group n a => run a s c (fun s' c' => k s' (set_cap n (consumed s s') c'))
  end.

(** A match of [r] at the start of [s]: groups 1 and 2. *)
Definition match_here (r : re) (s : text) : option (option text * option text) :=
  run r s no_caps (fun _ c => Some (c 1%nat, c 2%nat)).

(** [re.search(r, s)]: the match at the leftmost position that has one. *)
Fixpoint search (r : re) (s : text) : option (option text * option text) :=
  match match_here r s with
  | Some m => Some m
  | None =>
      match s with
      | [] => None
      | _ :: s' => search r s'
      end
  end.

End Re.

(** ** Floating-point numbers

    The program only converts decimal text to a float, multiplies floats and
    compares them. These three operations of binary64 are taken as given;
    everything else about a float is left open. *)
Class PyFloat (F : Type) := {
  (** the float nearest to ±[m]·10^[e]; the sign is apart as -0.0 exists *)
  of_decimal : bool -> Z -> Z -> F;
  (** [x * y] *)
  fmul : F -> F -> F;
  (** [x > y] *)
  fgt : F -> F -> bool
}.

(** Exact arithmetic on rationals, to run the definitions on examples. *)
Definition Qpow10 (e : Z) : Q :=
  match e with
  | Z0 => 1%Q
  | Zpos p => inject_Z (10 ^ Zpos p)
  | Zneg p => Qmake 1 (Pos.pow 10 p)
  end.

#[global] Instance exact : PyFloat Q := {|
  of_decimal := fun neg m e =>
    Qred (inject_Z (if neg then - m else m) * Qpow10 e);
  fmul := fun x y => Qred (x * y);
  fgt := fun x y => negb (Qle_bool x y)
|}.

(** What the peak tracker needs of [>]: nothing is above itself, and above
    is transitive. Both hold of binary64, NaN included. *)
Class PyFloatOrder (F : Type) `{PyFloat F} := {
  fgt_irrefl : forall x : F, fgt x x = false;
  fgt_trans : forall x y z : F, fgt x y = true -> fgt y z = true -> fgt x z = true
}.

(** ** core/utils.py *)

Module Utils.
Import PyUnicode Re.
Local Open Scope list_scope.

Definition is_sign (c : N) : bool := (N.eqb c 45 || N.eqb c 43)%bool.   (* - + *)
Definition is_dot (c : N) : bool := N.eqb c 46.                        (* . *)
Definition is_e (c : N) : bool := (N.eqb c 101 || N.eqb c 69)%bool.     (* e E *)

(** [([-+]?\d*\.?\d+(?:[eE][-+]?\d+)?)\s*([a-zA-Z]+)?] *)
Definition number_re : re :=
  Seq (Group 1
         (Seq (Opt (Cls is_sign))
         (Seq (Star is_digit)
         (Seq (Opt (Cls is_dot))
         (Seq (Plus is_digit)
              (Opt (Seq (Cls is_e)
                   (Seq (Opt (Cls is_sign))
                        (Plus is_digit)))))))))
  (Seq (Star is_space)
       (Opt (Group 2 (Plus is_alpha)))).

(** The longest prefix of [s] in the class [p], and what follows it. *)
Fixpoint span (p : N -> bool) (s : text) : text * text :=
  match s with
  | [] => ([], [])
  | c :: s' =>
      if p c then let '(d, r) := span p s' in (c :: d, r)
      else ([], s)
  end.

(** The number a text of decimal digits writes, in whatever script. *)
Fixpoint digits_value (acc : Z) (s : text) : Z :=
  match s with
  | [] => acc
  | c :: s' => digits_value (10 * acc + default 0 (decimal c)) s'
  end.

Definition take_sign (s : text) : bool * text :=
  match s with
  | c :: r =>
      if N.eqb c 45 then (true, r)
      else if N.eqb c 43 then (false, r)
      else (false, s)
  | [] => (false, s)
  end.

Section WithFloat.
Context {F : Type} `{PyFloat F}.

Definition _UNIT : list (text * F) :=
  [ (of_string "hz", of_decimal false 10 (-1));
    (of_string "khz", of_decimal false 1 3);
    (of_string "mhz", of_decimal false 1 6);
    (of_string "ghz", of_decimal false 1 9) ].

(** [_UNIT.get(unit)]. *)
Fixpoint lookup_unit (units : list (text * F)) (unit : text) : option F :=
  match units with
  | [] => None
  | (k, v) :: rest => if text_eqb k unit then Some v else lookup_unit rest unit
  end.

(** [float(s)] on decimal text: sign, digits, point, digits, exponent,
    with blanks around; a digit of any script counts by its decimal
    value. [None] stands for [ValueError]. The other spellings [float]
    accepts (underscores, "inf", "nan") cannot come out of
    [number_re]. *)
Definition float_of_str (s : text) : option F :=
  let s := strip s in
  let '(neg, s1) := take_sign s in
  let '(ip, s2) := span is_digit s1 in
  let '(fp, s3) :=
    match s2 with
    | c :: r => if is_dot c then span is_digit r else ([], s2)
    | [] => ([], s2)
    end in
  let m := digits_value 0 (ip ++ fp) in
  let scale := - Z.of_nat (length fp) in
  if (is_empty ip && is_empty fp)%bool then None
  else
    match s3 with
    | [] => Some (of_decimal neg m scale)
    | c :: r =>
        if is_e c then
          let '(eneg, r1) := take_sign r in
          let '(ed, r2) := span is_digit r1 in
          if (is_empty ed || negb (is_empty r2))%bool then None
          else
            let e := digits_value 0 ed in
            Some (of_decimal neg m ((if eneg then - e else e) + scale))
        else None
    end.

Definition parse_float (text : PyUnicode.text) : result (option F) :=
  if is_empty text then Ok None
  else
    let t := strip text in
    match search number_re t with
    | None => Ok None
    | Some (g1, g2) =>
        match g1 with
        | None => Raise (TypeError "float() argument must be a string or a real number")
        | Some tok =>
            match float_of_str tok with
            | None => Raise (ValueError "could not convert string to float")
            | Some val =>
                let unit := lower (match g2 with Some u => u | None => [] end) in
                match lookup_unit _UNIT unit with
                | Some k => Ok (Some (fmul val k))
                | None => Ok (Some val)
                end
            end
        end
    end.

End WithFloat.

End Utils.


(** ** What [number_re] matches, read off deterministically

    [Tokens.direct] walks the text once, without backtracking; it is shown
    below to agree with the matcher on [Utils.number_re] at every text. *)

Module Tokens.
Import PyUnicode Utils.
Local Open Scope list_scope.

(** [[-+]?] *)
Definition opt_sign (s : text) : text * text :=
  match s with
  | c :: r => if is_sign c then ([c], r) else ([], s)
  | [] => ([], s)
  end.

(** [\d*\.?\d+]: digits, and a point with digits after it when there is
    one; a point without digits after it is left alone. *)
Definition mantissa (s : text) : option (text * text) :=
  let '(d1, r1) := span is_digit s in
  let plain := if is_empty d1 then None else Some (d1, r1) in
  match r1 with
  | c :: r2 =>
      if is_dot c then
        let '(d2, r3) := span is_digit r2 in
        if is_empty d2 then plain else Some (d1 ++ c :: d2, r3)
      else plain
  | [] => plain
  end.

(** [(?:[eE][-+]?\d+)?] *)
Definition exponent (s : text) : text * text :=
  match s with
  | c :: r =>
      if is_e c then
        let '(sg, r1) := opt_sign r in
        let '(d, r2) := span is_digit r1 in
        if is_empty d then ([], s) else (c :: sg ++ d, r2)
      else ([], s)
  | [] => ([], s)
  end.

(** [\s*([a-zA-Z]+)?] *)
Definition unit_of (s : text) : option text :=
  let '(_, s') := span is_space s in
  let '(u, _) := span is_alpha s' in
  if is_empty u then None else Some u.

Definition direct (s : text) : option (option text * option text) :=
  let '(sg, s1) := opt_sign s in
  match mantissa s1 with
  | None => None
  | Some (m, s2) =>
      let '(e, s3) := exponent s2 in
      Some (Some (sg ++ m ++ e), unit_of s3)
  end.

(** *** Numeric tokens

    A numeric token: an optional sign, digits, optionally a point followed
    by digits (then the digits before the point may be missing), and
    optionally an exponent. A digit is a decimal digit of any script. *)
Record numtok := {
  t_sign : option bool;                      (* [Some true] is "-" *)
  t_int : text;
  t_frac : option text;
  t_exp : option (N * option bool * text)    (* e or E, sign, digits *)
}.

Definition sign_text (sg : option bool) : text :=
  match sg with
  | None => []
  | Some true => [45%N]
  | Some false => [43%N]
  end.

Definition is_neg (sg : option bool) : bool :=
  match sg with Some true => true | _ => false end.

Definition frac_text (f : option text) : text :=
  match f with Some d => 46%N :: d | None => [] end.

Definition frac_digits (f : option text) : text :=
  match f with Some d => d | None => [] end.

Definition exp_text (e : option (N * option bool * text)) : text :=
  match e with
  | Some (c, sg, d) => c :: sign_text sg ++ d
  | None => []
  end.

Definition text_of (t : numtok) : text :=
  sign_text (t_sign t) ++ t_int t ++ frac_text (t_frac t) ++ exp_text (t_exp t).

Definition digits (d : text) : bool := forallb is_digit d.

Definition wf (t : numtok) : bool :=
  (digits (t_int t)
   && match t_frac t with
      | Some f => negb (is_empty f) && digits f
      | None => negb (is_empty (t_int t))
      end
   && match t_exp t with
      | Some (c, _, d) => is_e c && negb (is_empty d) && digits d
      | None => true
      end)%bool.

(** The number the token writes, as a decimal: sign, digits, power of ten. *)
Definition exp_value (e : option (N * option bool * text)) : Z :=
  match e with
  | Some (_, sg, d) => if is_neg sg then - digits_value 0 d else digits_value 0 d
  | None => 0
  end.

Definition value {F} `{PyFloat F} (t : numtok) : F :=
  of_decimal (is_neg (t_sign t))
             (digits_value 0 (t_int t ++ frac_digits (t_frac t)))
             (exp_value (t_exp t)
              - Z.of_nat (length (frac_digits (t_frac t)))).

Definition starts_with (p : N -> bool) (s : text) : bool :=
  match s with c :: _ => p c | [] => false end.

(** The text after a token does not go on with it: no further digit, no
    point-and-digit after a token without point and exponent, no exponent
    after a token without one. *)
Definition ends_token (t : numtok) (after : text) : bool :=
  (negb (starts_with is_digit after)
   && match after with
      | c :: r =>
          negb (is_dot c && starts_with is_digit r
                && negb (bool_decide (is_Some (t_frac t)))
                && negb (bool_decide (is_Some (t_exp t))))
          && negb (is_e c
                   && starts_with is_digit (snd (opt_sign r))
                   && negb (bool_decide (is_Some (t_exp t))))
      | [] => true
      end)%bool.

(** The last character of a text is in the class [p]. *)
Fixpoint ends_with (p : N -> bool) (s : text) : bool :=
  match s with
  | [] => false
  | c :: r => if is_empty r then p c else ends_with p r
  end.

(** The text before the first token: no digit in it, and it does not end
    in a sign or a point that the pattern would take in with the token.
    A sign is taken in by a token that has none; a point is taken in
    when a digit follows it. *)
Definition before (pre : text) (t : numtok) : bool :=
  (forallb (fun c => negb (is_digit c)) pre
   && (negb (ends_with is_sign pre) || bool_decide (is_Some (t_sign t)))
   && (negb (ends_with is_dot pre) || bool_decide (is_Some (t_sign t))
       || is_empty (t_int t)))%bool.

(** A character that cannot carry a number on. *)
Definition neutral (c : N) : bool :=
  negb (is_digit c || is_dot c || is_e c).

(** The first letter of a recognised suffix, in either case. *)
Definition unit_initial (c : N) : bool :=
  (N.eqb (lower_char c) 104 || N.eqb (lower_char c) 107
   || N.eqb (lower_char c) 109 || N.eqb (lower_char c) 103)%bool.   (* h k m g *)

(** The suffixes and their multipliers, as the spec lists them:
    hz 1.0, khz 1e3, mhz 1e6, ghz 1e9. *)
Definition multipliers {F} `{PyFloat F} : list (text * F) :=
  [ (of_string "hz", of_decimal false 10 (-1));
    (of_string "khz", of_decimal false 1 3);
    (of_string "mhz", of_decimal false 1 6);
    (of_string "ghz", of_decimal false 1 9) ].

Definition recognised : list text :=
  [of_string "hz"; of_string "khz"; of_string "mhz"; of_string "ghz"].

End Tokens.


(** ** ui_tk/app.py: the polling pipeline

    Of the window only what the polling pipeline reads and writes is kept:
    the facade, the queue, the stop flag, the thread handle, the peak and the
    status line. Widgets, fonts and message boxes are left out. *)

Module App.

Section WithFloat.
Context {F : Type} `{PyFloat F}.

(** What the worker puts on the queue: [("ok", val, peak)] or
    [("err", msg)]. *)
Inductive item :=
| ItemOk (val : F) (peak : option F)
| ItemErr (msg : string).

Record t := {
  meter : Meter.t;
  read_queue : list item;        (* oldest first *)
  stop_flag : bool;              (* [threading.Event]: set or not *)
  poll_thread : option nat;      (* the thread started last, by number *)
  peak_value : option F;
  status : string
}.

Definition St : Type := t * trace.

(** The fields as [__init__] leaves them. *)
Definition new : t :=
  {| meter := Meter.new DEFAULT_BACKENDS; read_queue := []; stop_flag := false;
     poll_thread := None; peak_value := None; status := "Ready" |}.

Definition set_meter (v : Meter.t) (self : t) : t :=
  {| meter := v; read_queue := read_queue self; stop_flag := stop_flag self;
     poll_thread := poll_thread self; peak_value := peak_value self;
     status := status self |}.

Definition put (x : item) (self : t) : t :=
  {| meter := meter self; read_queue := (read_queue self ++ [x])%list;
     stop_flag := stop_flag self; poll_thread := poll_thread self;
     peak_value := peak_value self; status := status self |}.

Definition set_stop_flag (v : bool) (self : t) : t :=
  {| meter := meter self; read_queue := read_queue self; stop_flag := v;
     poll_thread := poll_thread self; peak_value := peak_value self;
     status := status self |}.

Definition set_poll_thread (v : option nat) (self : t) : t :=
  {| meter := meter self; read_queue := read_queue self;
     stop_flag := stop_flag self; poll_thread := v;
     peak_value := peak_value self; status := status self |}.

Definition set_peak_value (v : option F) (self : t) : t :=
  {| meter := meter self; read_queue := read_queue self;
     stop_flag := stop_flag self; poll_thread := poll_thread self;
     peak_value := v; status := status self |}.

Definition set_status (v : string) (self : t) : t :=
  {| meter := meter self; read_queue := read_queue self;
     stop_flag := stop_flag self; poll_thread := poll_thread self;
     peak_value := peak_value self; status := v |}.

(** A method of the facade run on [self.meter]. *)
Definition on_meter {A} (c : M Meter.St A) : M St A :=
  fun '(self, h) =>
    match c (meter self, h) with
    | (r, (m', h')) => (r, (set_meter m' self, h'))
    end.

(** [if self.peak_value is None or val > self.peak_value:
       self.peak_value = val] *)
Definition track_peak (val : F) (peak : option F) : option F :=
  match peak with
  | None => Some val
  | Some p => if fgt val p then Some val else Some p
  end.

(** The body of the [try] in [_poll_loop]. *)
Definition sample (w : World) : M St unit :=
  raw ← on_meter (Meter.query w SCPI_QUERY_POWER);
  val ← now_ (Utils.parse_float (PyUnicode.of_string raw));
  match val with
  | Some v =>
      update (fun self => set_peak_value (track_peak v (peak_value self)) self);;
      update (fun self => put (ItemOk v (peak_value self)) self)
  | None => update (put (ItemErr ("Parse error: " ++ raw)))
  end.

(** One turn of the loop of [_poll_loop], without the test at its head
    and the sleep at its end. *)
Definition poll_once (w : World) : M St unit :=
  try_except (sample w)
             (fun e => update (put (ItemErr (exn_text e)))).

(** [on_zero]; the message box is left out. *)
Definition on_zero (w : World) : M St unit :=
  try_except
    (on_meter (Meter.write w SCPI_ZERO);;
     update (set_status "Zero sent");;
     update (set_peak_value None))
    (fun e => update (set_status ("Zero error: " ++ exn_text e))).

(** What [on_connect] does with the text of the entry before it stops
    the polling: nothing for an empty address, a status line for the
    address already connected, and otherwise it goes on with the
    stripped address. *)
Inductive entry :=
| NoAddress
| AlreadyConnected
| Proceed (res : string).

Definition on_connect_entry (text : string) (self : t) : entry :=
  let res := PyStr.strip text in
  if PyStr.is_empty res then NoAddress
  else if Meter.is_connected_to (meter self) res then AlreadyConnected
  else Proceed res.

(** The [try] block of [on_connect] up to [_start_polling], with its
    [except] branch. It returns whether [_start_polling] is reached;
    the message box of the [except] branch is left out. *)
Definition on_connect_try (w : World) (res : string) : M St bool :=
  try_except
    (on_meter (Meter.connect w res 5000);;
     idn ← on_meter (Meter.idn w);
     update (set_status ("Connected: " ++ res ++
                         (if PyStr.is_empty (PyStr.strip idn) then ""
                          else " | " ++ PyStr.strip idn)));;
     update (set_peak_value None);;
     ret true)
    (fun e => update (set_status ("Connect error: " ++ exn_text e));;
              ret false).

(** [n] turns of the loop, one after the other. *)
Fixpoint polls (w : World) (n : nat) : M St unit :=
  match n with
  | O => ret tt
  | S n' => poll_once w;; polls w n'
  end.

(** The readings among queue items, oldest first. *)
Fixpoint readings (items : list item) : list F :=
  match items with
  | [] => []
  | ItemOk v _ :: rest => v :: readings rest
  | ItemErr _ :: rest => readings rest
  end.





End WithFloat.

End App.

(** A simulator whose random draws are the given texts, in turn. *)
Definition replay (texts : list string) : World := {|
  HAS_VISA := false;
  resource_manager := fun _ _ => Some (LibraryError "no pyvisa");
  open_resource := fun _ _ _ => Some (LibraryError "no pyvisa");
  set_attr := fun _ _ _ _ => None;
  clear := fun _ _ _ => None;
  close_session := fun _ _ _ => None;
  inst_query := fun _ _ _ _ => Raise (LibraryError "no pyvisa");
  inst_write := fun _ _ _ _ => None;
  list_resources := fun _ _ _ => Raise (LibraryError "no pyvisa");
  uniform := fun h =>
    nth (length (List.filter (fun ev => match ev with EvUniform _ => true | _ => false end) h))
        texts "-50.000"
|}.

(** ** The threads of the polling pipeline

    Time is counted in ticks of one second. The worker thread is at one of
    the places of [_poll_loop]; the main thread is idle, inside the [join]
    of [_stop_polling], or between [_stop_polling] and the [try] block of
    [on_connect]. A step of a thread takes no time; a tick passes only when
    no thread has a step to take, and it brings every running wait one
    second nearer to its end. *)

Module Threads.

Section WithFloat.
Context {F : Type} `{PyFloat F}.

(** Where a worker is in [_poll_loop]. *)
Inductive worker :=
| AtLoopHead                 (* before [while not self.stop_flag.is_set()] *)
| InQuery (secs : nat)       (* in [self.meter.query], [secs] before it returns *)
| Sleeping (secs : nat)      (* in [time.sleep(POLL_PERIOD_S)], [secs] to go *)
| Exited.

(** Where the main thread is in [on_connect]. *)
Inductive main :=
| Idle
| Joining (tid : nat) (secs : nat) (res : string)
                             (* in [self.poll_thread.join(timeout=1.0)] *)
| Connecting (res : string). (* [_stop_polling] returned, before the [try] *)

(** What an observer sees, oldest first. *)
Inductive obs :=
| Put (tid : nat)                 (* [self.read_queue.put] by worker [tid] *)
| StopReturned (tid : option nat) (* [_stop_polling] returned; it was to stop [tid] *)
| Started (tid : nat).            (* [_start_polling] started worker [tid] *)

Record sys := {
  app : App.St (F := F);
  workers : list worker;     (* by thread number *)
  mainpc : main;
  seen : list obs
}.

(** The seconds a query to the instrument takes; a query that runs into
    the transport timeout of 5000 ms takes 5. *)
Variable latency : nat.

Definition JOIN_TIMEOUT_S : nat := 1.

Definition initial : sys :=
  {| app := (App.new, []); workers := []; mainpc := Idle; seen := [] |}.

(** [thread.is_alive()]. *)
Definition alive (ws : list worker) (tid : nat) : bool :=
  match ws !! tid with
  | Some Exited | None => false
  | Some _ => true
  end.

Definition with_app (a : App.St) (s : sys) : sys :=
  {| app := a; workers := workers s; mainpc := mainpc s; seen := seen s |}.

Definition with_worker (tid : nat) (v : worker) (s : sys) : sys :=
  {| app := app s; workers := <[tid := v]> (workers s); mainpc := mainpc s;
     seen := seen s |}.

Definition with_main (v : main) (s : sys) : sys :=
  {| app := app s; workers := workers s; mainpc := v; seen := seen s |}.

Definition observe (o : obs) (s : sys) : sys :=
  {| app := app s; workers := workers s; mainpc := mainpc s;
     seen := (seen s ++ [o])%list |}.

Definition run_app {A} (c : M (App.St (F := F)) A) (s : sys) : sys :=
  with_app (snd (c (app s))) s.

(** The next step of worker [tid], if it has one now. *)
Definition worker_step (w : World) (tid : nat) (s : sys) : option sys :=
  match workers s !! tid with
  | Some AtLoopHead =>
      if App.stop_flag (fst (app s)) then Some (with_worker tid Exited s)
      else Some (with_worker tid (InQuery latency) s)
  | Some (InQuery 0) =>
      Some (with_worker tid (Sleeping POLL_PERIOD_S)
              (observe (Put tid) (run_app (App.poll_once w) s)))
  | Some (Sleeping 0) => Some (with_worker tid AtLoopHead s)
  | _ => None
  end.

(** The end of [_stop_polling]: [self.poll_thread = None] and the
    return into [on_connect]. *)
Definition stop_return (tid : option nat) (res : string) (s : sys) : sys :=
  observe (StopReturned tid)
    (with_main (Connecting res)
       (run_app (update (App.set_poll_thread None)) s)).

(** [_stop_polling] up to the [join]. *)
Definition _stop_polling (res : string) (s : sys) : sys :=
  let s1 := run_app (update (App.set_stop_flag true)) s in
  match App.poll_thread (fst (app s1)) with
  | Some tid =>
      if alive (workers s1) tid
      then with_main (Joining tid JOIN_TIMEOUT_S res) s1
      else stop_return (Some tid) res s1
  | None => stop_return None res s1
  end.

(** [on_connect] up to the [join] of [_stop_polling]. *)
Definition on_connect (text : string) (s : sys) : option sys :=
  match mainpc s with
  | Idle =>
      match App.on_connect_entry text (fst (app s)) with
      | App.NoAddress => Some s
      | App.AlreadyConnected =>
          Some (run_app (update (App.set_status
                                   ("Already connected: " ++ PyStr.strip text))) s)
      | App.Proceed res => Some (_stop_polling res s)
      end
  | _ => None
  end.

(** The [join] returns, the worker being dead or the timeout over. *)
Definition join_return (s : sys) : option sys :=
  match mainpc s with
  | Joining tid secs res =>
      if (negb (alive (workers s) tid) || Nat.eqb secs 0)%bool
      then Some (stop_return (Some tid) res s)
      else None
  | _ => None
  end.

(** [_start_polling]. *)
Definition _start_polling (s : sys) : sys :=
  let tid := length (workers s) in
  let s1 := run_app (update (App.set_stop_flag false)) s in
  let s2 := {| app := app s1; workers := (workers s1 ++ [AtLoopHead])%list;
               mainpc := mainpc s1; seen := seen s1 |} in
  observe (Started tid) (run_app (update (App.set_poll_thread (Some tid))) s2).

Definition in_query (wk : worker) : bool :=
  match wk with InQuery _ => true | _ => false end.

(** The driver serialises its operations behind a lock, which a worker
    holds while its query is in flight. *)
Definition lock_free (s : sys) : bool := negb (existsb in_query (workers s)).

(** The [try] block of [on_connect], which waits for the lock. *)
Definition connect_try (w : World) (s : sys) : option sys :=
  match mainpc s with
  | Connecting res =>
      if lock_free s then
        let '(r, a) := App.on_connect_try w res (app s) in
        let s1 := with_main Idle (with_app a s) in
        match r with
        | Ok true => Some (_start_polling s1)
        | _ => Some s1
        end
      else None
  | _ => None
  end.

(** [on_zero], which waits for the lock as well. *)
Definition on_zero (w : World) (s : sys) : option sys :=
  match mainpc s with
  | Idle => if lock_free s then Some (run_app (App.on_zero w) s) else None
  | _ => None
  end.

Definition can_step (wk : worker) : bool :=
  match wk with
  | AtLoopHead | InQuery 0 | Sleeping 0 => true
  | _ => false
  end.

Definition age (wk : worker) : worker :=
  match wk with
  | InQuery (S n) => InQuery n
  | Sleeping (S n) => Sleeping n
  | _ => wk
  end.

(** Whether the main thread has a step to take now. *)
Definition main_can_step (s : sys) : bool :=
  match mainpc s with
  | Idle => false                       (* it waits for the user *)
  | Joining tid secs _ => (negb (alive (workers s) tid) || Nat.eqb secs 0)%bool
  | Connecting _ => lock_free s
  end.

(** A second passes. *)
Definition tick (s : sys) : option sys :=
  if (existsb can_step (workers s) || main_can_step s)%bool then None
  else
    Some {| app := app s; workers := List.map age (workers s);
            mainpc := match mainpc s with
                      | Joining tid secs res => Joining tid (secs - 1) res
                      | m => m
                      end;
            seen := seen s |}.

Inductive action :=
| Tick
| Work (tid : nat)              (* the next step of a worker *)
| OnConnect (text : string)     (* the user presses Connect *)
| JoinReturn
| ConnectTry
| OnZero.                       (* the user presses Zero *)

Definition step (w : World) (a : action) (s : sys) : option sys :=
  match a with
  | Tick => tick s
  | Work tid => worker_step w tid s
  | OnConnect text => on_connect text s
  | JoinReturn => join_return s
  | ConnectTry => connect_try w s
  | OnZero => on_zero w s
  end.

(** A schedule, run from left to right; [None] when one of its actions
    cannot be taken where it stands. *)
Fixpoint run (w : World) (sched : list action) (s : sys) : option sys :=
  match sched with
  | [] => Some s
  | a :: rest =>
      match step w a s with
      | Some s' => run w rest s'
      | None => None
      end
  end.

(** From [s] to [s'] worker [tid] has stayed out of its loop and has
    put nothing. *)
Definition quiet_since (tid : nat) (s s' : sys) : Prop :=
  workers s' !! tid = Some Exited
  /\ exists new, seen s' = (seen s ++ new)%list /\ ~ In (Put tid) new.

(** Whether worker [tid] put something on the queue after the
    [_stop_polling] that was to stop it had returned; [stopped] tells
    whether that return has been seen. *)
Fixpoint put_after_stop (tid : nat) (stopped : bool) (os : list obs) : bool :=
  match os with
  | [] => false
  | StopReturned (Some t) :: rest =>
      put_after_stop tid (stopped || Nat.eqb t tid) rest
  | Put t :: rest =>
      (stopped && Nat.eqb t tid) || put_after_stop tid stopped rest
  | _ :: rest => put_after_stop tid stopped rest
  end.

End WithFloat.

(** An instrument that is connected but never answers: every query runs
    into the transport timeout. *)
Definition silent : World := {|
  HAS_VISA := true;
  resource_manager := fun _ _ => None;
  open_resource := fun _ _ _ => None;
  set_attr := fun _ _ _ _ => None;
  clear := fun _ _ _ => None;
  close_session := fun _ _ _ => None;
  inst_query := fun _ _ _ _ => Raise (LibraryError "VI_ERROR_TMO");
  inst_write := fun _ _ _ _ => None;
  list_resources := fun _ _ _ => Ok [bench_address];
  uniform := fun _ => "-45.000"
|}.

(** The user connects to the silent instrument and, one second after the
    first query went out, asks for the simulator instead. The join gives
    up after one second, [_stop_polling] returns, the main thread waits
    for the lock, and the reply (a timeout) comes in three seconds
    later. *)
Definition late_reply : list action :=
  [ OnConnect bench_address; ConnectTry; Work 0; Tick;
    OnConnect "FAKE"; Tick; JoinReturn;
    Tick; Tick; Tick; Work 0 ].

(** The simulator is polled; two seconds into the sleep of the worker the
    user connects to the bench sensor. The join gives up after one second
    with the worker still asleep, the new connection starts a second
    worker and clears the flag, and the first worker wakes up two seconds
    later, finds the flag clear and goes on polling. *)
Definition restart : list action :=
  [ OnConnect "FAKE"; ConnectTry; Work 0; Work 0; Tick; Tick;
    OnConnect bench_address; Tick; JoinReturn; ConnectTry;
    Work 1; Work 1; Tick; Tick;
    Work 0; Work 0; Work 0 ].

End Threads.


(** ** Reading the calls of a connection *)

Module Calls.

Definition is_close (ev : event) : bool :=
  match ev with EvClose _ _ _ => true | _ => false end.

(** What [connect] of the Real Driver records for a backend that goes
    through: the resource manager, the session, its three attributes in
    the order of the assignments, and the buffer clear with whatever it
    answered. *)
Definition handshake (be res : string) (timeout_ms : Z) (rt wt : string)
    (cleared : option exn) : trace :=
  [ EvManager be None; EvOpen be res None;
    EvSetAttr be res (Timeout timeout_ms) None;
    EvSetAttr be res (ReadTermination rt) None;
    EvSetAttr be res (WriteTermination wt) None;
    EvClear be res cleared ].

(** The call that closes the session a Real Driver holds, if it holds
    one. *)
Definition closing (w : World) (v : VisaMeter.t) (h : trace) : trace :=
  match VisaMeter.inst v with
  | Some s =>
      [EvClose (VisaMeter.s_be s) (VisaMeter.s_addr s)
         (close_session w h (VisaMeter.s_be s) (VisaMeter.s_addr s))]
  | None => []
  end.

(** The same for whatever the facade holds. *)
Definition facade_closing (w : World) (m : Meter.t) (h : trace) : trace :=
  match Meter._impl m with
  | Some (Meter.Visa v) => closing w v h
  | _ => []
  end.

(** The facade over a Real Driver that has just connected. *)
Definition on_instrument (order : list string) (be res : string) : Meter.t :=
  {| Meter.backend_order := order;
     Meter.backend_in_use := Some (VisaMeter.backend_name be);
     Meter._impl := Some (Meter.Visa
       {| VisaMeter.backend_order := order;
          VisaMeter.rm := Some be;
          VisaMeter.inst := Some {| VisaMeter.s_be := be; VisaMeter.s_addr := res |};
          VisaMeter.resource := Some res;
          VisaMeter.backend_in_use := Some (VisaMeter.backend_name be);
          VisaMeter.read_term := READ_TERM;
          VisaMeter.write_term := WRITE_TERM |});
     Meter.resource := Some res |}.

(** The facade over a new simulator. *)
Definition on_simulator (order : list string) : Meter.t :=
  {| Meter.backend_order := order; Meter.backend_in_use := Some "FAKE";
     Meter._impl := Some (Meter.Fake FakeMeter.new); Meter.resource := Some "FAKE" |}.

End Calls.

(** A bench whose pure-Python backend opens the sensor but cannot set its
    timeout; the system backend works. *)
Definition half_open : World := {|
  HAS_VISA := true;
  resource_manager := fun _ _ => None;
  open_resource := fun _ _ _ => None;
  set_attr := fun _ be _ _ =>
    if String.eqb be "@py" then Some (LibraryError "VI_ERROR_NSUP_ATTR") else None;
  clear := fun _ _ _ => None;
  close_session := fun _ _ _ => None;
  inst_query := fun _ _ _ _ => Ok "-42.5 dBm";
  inst_write := fun _ _ _ _ => None;
  list_resources := fun _ _ _ => Ok [bench_address];
  uniform := fun _ => "-45.000"
|}.

(** ** Sequences of calls on the facade *)

Module Usage.

(** A call of a method of the facade, as its users make them. *)
Inductive call :=
| Connect (res : string) (timeout_ms : Z)
| Close
| Query (cmd : string)
| Write (cmd : string)
| Idn.

(** The state after a call, whether it returned or raised. *)
Definition perform (w : World) (c : call) (s : Meter.St) : Meter.St :=
  match c with
  | Connect res timeout_ms => snd (Meter.connect w res timeout_ms s)
  | Close => snd (Meter.close w s)
  | Query cmd => snd (Meter.query w cmd s)
  | Write cmd => snd (Meter.write w cmd s)
  | Idn => snd (Meter.idn w s)
  end.


Definition performs (w : World) (cs : list call) (s : Meter.St) : Meter.St :=
  fold_left (fun s c => perform w c s) cs s.

Definition same (a b : option string) : bool :=
  match a, b with
  | Some x, Some y => String.eqb x y
  | None, None => true
  | _, _ => false
  end.

(** A Real Driver holds a session together with its manager, its address
    and the name of its backend, or none of them. *)
Definition driver_consistent (v : VisaMeter.t) : bool :=
  match VisaMeter.inst v with
  | Some s =>
      (same (VisaMeter.rm v) (Some (VisaMeter.s_be s))
       && same (VisaMeter.resource v) (Some (VisaMeter.s_addr s))
       && same (VisaMeter.backend_in_use v)
               (Some (VisaMeter.backend_name (VisaMeter.s_be s))))%bool
  | None =>
      (same (VisaMeter.rm v) None && same (VisaMeter.resource v) None
       && same (VisaMeter.backend_in_use v) None)%bool
  end.

(** The attributes of the facade say what its driver is: nothing without
    a driver, "FAKE" twice over an open simulator, and over a Real Driver
    the address and backend of the session it holds. *)
Definition consistent (m : Meter.t) : bool :=
  match Meter._impl m with
  | None => (same (Meter.resource m) None && same (Meter.backend_in_use m) None)%bool
  | Some (Meter.Fake f) =>
      (FakeMeter.inst f && same (Meter.resource m) (Some "FAKE")
       && same (Meter.backend_in_use m) (Some "FAKE"))%bool
  | Some (Meter.Visa v) =>
      (driver_consistent v && bool_decide (is_Some (VisaMeter.inst v))
       && same (Meter.resource m) (VisaMeter.resource v)
       && same (Meter.backend_in_use m) (VisaMeter.backend_in_use v))%bool
  end.

End Usage.



(** ** ui_tk/app.py: the identification reply *)

Module Idn.
Import PyUnicode.
Local Open Scope list_scope.

(** [s.split(sep)] for a separator of one character: the pieces between
    the separators, empty ones included. *)
Fixpoint split_on (sep : N) (s : text) : list text :=
  match s with
  | [] => [[]]
  | c :: s' =>
      if N.eqb c sep then [] :: split_on sep s'
      else match split_on sep s' with
           | p :: ps => (c :: p) :: ps
           | [] => [[c]]
           end
  end.

(** The dict [_parse_idn_local] returns, which has these four keys in
    every case. *)
Record info := {
  vendor : text;
  model : text;
  serial : text;
  firmware : text
}.

(** [while len(parts) < 4: parts.append("")], by the number of turns
    left. *)
Fixpoint append_blanks (turns : nat) (parts : list text) : list text :=
  match turns with
  | O => parts
  | S k => append_blanks k (parts ++ [[]])
  end.

Definition pad (parts : list text) : list text :=
  append_blanks (4 - length parts) parts.

Definition comma : N := 44.

(** [_parse_idn_local]. The unpacking of [parts[:4]] into four names
    raises when the list has another length. *)
Definition _parse_idn_local (idn : text) : result info :=
  if is_empty idn then
    Ok {| vendor := []; model := []; serial := []; firmware := [] |}
  else
    let parts := pad (List.map strip (split_on comma idn)) in
    match firstn 4 parts with
    | [v; m; s; f] => Ok {| vendor := v; model := m; serial := s; firmware := f |}
    | _ => Raise (ValueError "not enough values to unpack (expected 4)")
    end.

(** [parse_idn]: [core.utils] has no [parse_idn], so the import at the
    top of the module fails, [_parse_idn_external] is [None] and the
    local parser is the one used. *)
Definition parse_idn (idn : text) : result info := _parse_idn_local idn.

(** [sep.join(fields)]. *)
Fixpoint join (sep : N) (fields : list text) : text :=
  match fields with
  | [] => []
  | [f] => f
  | f :: rest => f ++ sep :: join sep rest
  end.

Definition no_comma (s : text) : bool :=
  forallb (fun c => negb (N.eqb c comma)) s.

(** The [k]-th field of a reply, trimmed; blank when there is none. *)
Definition field (k : nat) (fields : list text) : text :=
  strip (nth k fields []).

End Idn.


(** ** More of Python's floats: [int(x)] *)

(** [int(x)]: the integer part, towards zero; it raises for an infinity
    and for a NaN. *)
Class PyFloatInt (F : Type) := { to_int : F -> result Z }.

#[global] Instance exact_int : PyFloatInt Q := {|
  to_int := fun q => Ok (Z.quot (Qnum q) (Zpos (Qden q)))
|}.

(** ** core/controller.py: the operations *)

Module Controller.

Record t := {
  meter : option Meter.t;        (* [None] once [close] has run *)
  resource : option string
}.

(** [MeasurementController()]. *)
Definition new : t :=
  {| meter := Some (Meter.new DEFAULT_BACKENDS); resource := None |}.

Definition St : Type := t * trace.

(** How a method ends. After [close] the field [meter] is [None], and a
    method that goes through it ends in an [AttributeError]. *)
Inductive outcome (A : Type) :=
| Returns (a : A)
| Raises (e : exn)
| AttributeError (msg : string).
Arguments Returns {A} a.
Arguments Raises {A} e.
Arguments AttributeError {A} msg.

Definition no_attribute (name : string) : string :=
  "'NoneType' object has no attribute '" ++ name ++ "'".

Definition set_meter (v : option Meter.t) (self : t) : t :=
  {| meter := v; resource := resource self |}.

Definition set_resource (v : option string) (self : t) : t :=
  {| meter := meter self; resource := v |}.

(** [self.meter.name(...)]: the attribute is looked up first, then the
    method runs on the facade. *)
Definition on_meter {A} (name : string) (c : M Meter.St A) (s : St)
  : outcome A * St :=
  let '(self, h) := s in
  match meter self with
  | None => (AttributeError (no_attribute name), (self, h))
  | Some m =>
      match c (m, h) with
      | (Ok a, (m', h')) => (Returns a, (set_meter (Some m') self, h'))
      | (Raise e, (m', h')) => (Raises e, (set_meter (Some m') self, h'))
      end
  end.

Definition connect (w : World) (resource : string) (s : St) : outcome string * St :=
  match on_meter "connect" (Meter.connect w resource 5000) s with
  | (Returns _, (self, h)) =>
      on_meter "idn" (Meter.idn w) (set_resource (Some resource) self, h)
  | (Raises e, s') => (Raises e, s')
  | (AttributeError msg, s') => (AttributeError msg, s')
  end.

Definition is_connected (self : t) : bool :=
  (bool_decide (is_Some (meter self)) && bool_decide (is_Some (resource self)))%bool.

(** [self.meter.backend_in_use or ""]. *)
Definition backend_in_use (self : t) : outcome string :=
  match meter self with
  | None => AttributeError (no_attribute "backend_in_use")
  | Some m => Returns (from_option id "" (Meter.backend_in_use m))
  end.

(** What [set_freq] is given: its parameter is typed [int | float | str]
    and goes through [str]; integers and texts are covered here. *)
Inductive hz_arg :=
| HzInt (n : Z)
| HzStr (s : string).

(** [str(hz)]. *)
Definition str_of_hz (hz : hz_arg) : result string :=
  match hz with
  | HzInt n => str n
  | HzStr s => Ok s
  end.

Section WithFloat.
Context {F : Type} `{PyFloat F} `{PyFloatInt F}.

Definition read_power (w : World) : St -> outcome F * St :=
  on_meter "query"
    (raw ← Meter.query w SCPI_QUERY_POWER;
     val ← now_ (Utils.parse_float (PyUnicode.of_string raw));
     match val with
     | None => raise (RuntimeError ("Parse error: " ++ raw))
     | Some v => ret v
     end).

Definition get_freq (w : World) : St -> outcome Z * St :=
  on_meter "query"
    (raw ← Meter.query w SCPI_QUERY_FREQ;
     val ← now_ (Utils.parse_float (F := F) (PyUnicode.of_string raw));
     match val with
     | None => raise (RuntimeError ("Parse error: " ++ raw))
     | Some v => now_ (to_int v)
     end).

(** [int(None)] is a [TypeError]. *)
Definition set_freq (w : World) (hz : hz_arg) : St -> outcome unit * St :=
  on_meter "write"
    (text ← now_ (str_of_hz hz);
     val ← now_ (Utils.parse_float (F := F) (PyUnicode.of_string text));
     match val with
     | None =>
         raise (TypeError
           "int() argument must be a string, a bytes-like object or a real number, not 'NoneType'")
     | Some v =>
         n ← now_ (to_int v);
         cmd ← now_ (SCPI_SET_FREQ n);
         Meter.write w cmd
     end).

End WithFloat.

Definition zero (w : World) : St -> outcome unit * St :=
  on_meter "write" (Meter.write w SCPI_ZERO).

(** [close]: [if self.meter:] holds for every facade object. *)
Definition close (w : World) (s : St) : outcome unit * St :=
  let '(self, h) := s in
  match meter self with
  | None => (Returns tt, (self, h))
  | Some _ =>
      match on_meter "close" (Meter.close w) (self, h) with
      | (Returns _, (self', h')) =>
          (Returns tt, (set_resource None (set_meter None self'), h'))
      | other => other
      end
  end.

End Controller.

(** ** Printed integers as text *)

Module Numbers.
Import PyUnicode Tokens.

(** The code points of a printed natural number. *)
Fixpoint uint_text (d : uint) : text :=
  match d with
  | Nil => []
  | D0 d => 48%N :: uint_text d
  | D1 d => 49%N :: uint_text d
  | D2 d => 50%N :: uint_text d
  | D3 d => 51%N :: uint_text d
  | D4 d => 52%N :: uint_text d
  | D5 d => 53%N :: uint_text d
  | D6 d => 54%N :: uint_text d
  | D7 d => 55%N :: uint_text d
  | D8 d => 56%N :: uint_text d
  | D9 d => 57%N :: uint_text d
  end.

(** The token a printed integer is. *)
Definition int_token (neg : bool) (p : positive) : numtok :=
  {| t_sign := if neg then Some true else None;
     t_int := uint_text (Pos.to_uint p); t_frac := None; t_exp := None |}.

End Numbers.


(** * Proofs *)

(** Unfolds the monad, so that a method body becomes a case analysis on the
    answers of the world. *)
Ltac run := unfold mbind, M_bind, mret, M_ret, bind, ret, raise, try_except,
              call, call_value, update, self_, on_trace, now_,
              Meter.on_visa, Meter.on_impl_visa, App.on_meter in *.

(** ** First runs *)

Example split_demo : PyStr.split "SENS:FREQ   12 34" = ["SENS:FREQ"; "12"; "34"].
Proof. reflexivity. Qed.

Example int_demo :
  (PyStr.int_of_str "2400000000", PyStr.int_of_str "-1_000", PyStr.int_of_str "1E9",
   PyStr.int_of_str "1__0", PyStr.int_of_str "007", PyStr.str_of_int (-42), PyStr.str_of_int 0)
  = (Some 2400000000, Some (-1000), None, None, Some 7, "-42", "0").
Proof. reflexivity. Qed.

Example fake_demo (w : World) :
  let m := snd (FakeMeter.write FakeMeter.new "sens:freq 2400000000") in
  fst (FakeMeter.query w m "SENS:FREQ?" []) = Ok "2400000000"
  /\ fst (FakeMeter.query w FakeMeter.new "freq?" []) = Ok "1000000000"
  /\ snd (FakeMeter.write m "FREQ 1e9") = m.
Proof. repeat split. Qed.

Example parse_float_demo :
  List.map (fun s => Utils.parse_float (F := Q) (PyUnicode.of_string s))
    ["2.4ghz"; "-45.123"; " 100 MHz "; "1.5e3 kHz"; "-42.5 dBm"; "n/a"; "";
     "+.5"; "1 2ghz"; "ch2: 5 ghz"; "5."; "2e"; "1e5hz"; "--5ghz"; "approx.-45.2 dBm"]
  = [Ok (Some (2400000000 # 1)); Ok (Some (-45123 # 1000)); Ok (Some (100000000 # 1));
     Ok (Some (1500000 # 1)); Ok (Some (-85 # 2)); Ok None; Ok None;
     Ok (Some (1 # 2)); Ok (Some (1 # 1)); Ok (Some (2 # 1)); Ok (Some (5 # 1));
     Ok (Some (2 # 1)); Ok (Some (100000 # 1)); Ok (Some (-5000000000 # 1));
     Ok (Some (-226 # 5))]%Q.
Proof. vm_compute. reflexivity. Qed.

(** Beyond ASCII: 2.4 GHz written with a no-break space, and 34.5 mhz
    written in Arabic-Indic digits with an em space, by code point and as
    literals. *)
Example parse_float_unicode :
  List.map (Utils.parse_float (F := Q))
    [ [50; 46; 52; 160; 71; 72; 122]%N;
      [1635; 1636; 46; 1637; 8195; 109; 104; 122]%N;
      PyUnicode.of_string "2.4 GHz";
      PyUnicode.of_string "٣٤.٥ mhz" ]
  = [Ok (Some (2400000000 # 1)); Ok (Some (34500000 # 1));
     Ok (Some (2400000000 # 1)); Ok (Some (34500000 # 1))]%Q.
Proof. vm_compute. reflexivity. Qed.

Example of_string_demo :
  PyUnicode.of_string "2.4 GHz ٣ 𝟎"
  = [50; 46; 52; 160; 71; 72; 122; 32; 1635; 32; 120782]%N.
Proof. reflexivity. Qed.


(** ** Facts about the string functions *)

Module PyStrFacts.
Import PyStr.

(** stdpp keeps [++] on strings from unfolding under [simpl]. *)
Lemma app_nil (t : string) : "" ++ t = t.
Proof. reflexivity. Qed.

Lemma app_cons c (s t : string) : String c s ++ t = String c (s ++ t).
Proof. reflexivity. Qed.

Lemma all_str_app p s1 s2 :
  all_str p (s1 ++ s2) = (all_str p s1 && all_str p s2)%bool.
Proof.
  induction s1 as [|c s1 IH]; [reflexivity|].
  rewrite app_cons. simpl. rewrite IH. apply andb_assoc.
Qed.

Lemma all_str_impl (p q : ascii -> bool) s :
  (forall c, p c = true -> q c = true) -> all_str p s = true -> all_str q s = true.
Proof.
  intros Hpq. induction s as [|c s IH]; simpl; [reflexivity|].
  intros [Hc Hs]%andb_prop. rewrite (Hpq _ Hc), (IH Hs). reflexivity.
Qed.

Lemma map_str_id (f : ascii -> ascii) (p : ascii -> bool) s :
  (forall c, p c = true -> f c = c) -> all_str p s = true -> map_str f s = s.
Proof.
  intros Hf. induction s as [|c s IH]; simpl; [reflexivity|].
  intros [Hc Hs]%andb_prop. rewrite (Hf _ Hc), (IH Hs). reflexivity.
Qed.

Lemma map_str_app f s1 s2 : map_str f (s1 ++ s2) = map_str f s1 ++ map_str f s2.
Proof.
  induction s1 as [|c s1 IH]; [reflexivity|].
  rewrite app_cons. simpl. now rewrite IH, app_cons.
Qed.

(** Facts about single characters are settled by enumeration of the 256
    bytes. *)
Lemma forall_ascii (P : ascii -> bool) :
  (forallb P (List.map ascii_of_nat (seq 0 256)) = true) -> forall c, P c = true.
Proof.
  intros H c. rewrite forallb_forall in H. apply H.
  rewrite <- (ascii_nat_embedding c). apply in_map, in_seq.
  pose proof (nat_ascii_bounded c). lia.
Qed.

Lemma ascii_impl (P Q : ascii -> bool) :
  forallb (fun c => implb (P c) (Q c)) (List.map ascii_of_nat (seq 0 256)) = true ->
  forall c, P c = true -> Q c = true.
Proof.
  intros H c Hc. pose proof (forall_ascii _ H c) as Hi.
  cbv beta in Hi. rewrite Hc in Hi. exact Hi.
Qed.

Ltac by_bytes := apply ascii_impl; vm_compute; reflexivity.

Lemma int_char_not_space c : int_char c = true -> not_space c = true.
Proof. revert c. by_bytes. Qed.

Lemma int_char_not_lower c : int_char c = true -> negb (is_lower c) = true.
Proof. revert c. by_bytes. Qed.

Lemma digit_int_char c : is_digit c = true -> int_char c = true.
Proof. revert c. by_bytes. Qed.

Lemma upper_char_id c : negb (is_lower c) = true -> upper_char c = c.
Proof.
  unfold upper_char. destruct (is_lower c); [discriminate | reflexivity].
Qed.

Lemma lstrip_not_space c s : is_space c = false -> lstrip (String c s) = String c s.
Proof. intros H. simpl. now rewrite H. Qed.

Lemma rstrip_not_space s : all_str not_space s = true -> rstrip s = s.
Proof.
  induction s as [|c s IH]; simpl; [reflexivity|].
  intros [Hc Hs]%andb_prop. rewrite (IH Hs).
  unfold not_space in Hc. apply negb_true_iff in Hc. rewrite Hc.
  destruct s; reflexivity.
Qed.

Lemma rstrip_app p s :
  s <> "" -> rstrip s = s -> rstrip (p ++ s) = p ++ s.
Proof.
  intros Hne Hs. induction p as [|a p IH].
  - exact Hs.
  - rewrite app_cons. simpl. rewrite IH. destruct (p ++ s) eqn:E; [|reflexivity].
    destruct p; [rewrite app_nil in E; congruence | discriminate].
Qed.

Lemma strip_not_space s : all_str not_space s = true -> strip s = s.
Proof.
  intros Hs. unfold strip. destruct s as [|c s]; [reflexivity|].
  pose proof Hs as Hs'. simpl in Hs'. apply andb_prop in Hs' as [Hc _].
  unfold not_space in Hc. apply negb_true_iff in Hc.
  rewrite (lstrip_not_space _ _ Hc). now apply rstrip_not_space.
Qed.

Lemma split_not_space s :
  s <> "" -> all_str not_space s = true -> split s = [s].
Proof.
  induction s as [|c s IH]; [congruence|].
  intros _ [Hc Hs]%andb_prop.
  unfold not_space in Hc. apply negb_true_iff in Hc.
  simpl. rewrite Hc. destruct s as [|c' s']; [reflexivity|].
  pose proof Hs as Hs'. simpl in Hs'. apply andb_prop in Hs' as [Hc' _].
  unfold not_space in Hc'. apply negb_true_iff in Hc'. rewrite Hc'.
  rewrite IH by (congruence || assumption). reflexivity.
Qed.

Lemma split_word w c s :
  w <> "" -> all_str not_space w = true -> is_space c = true ->
  split (w ++ String c s) = w :: split s.
Proof.
  intros Hne Hw Hc. induction w as [|a w IH]; [congruence|].
  simpl in Hw. apply andb_prop in Hw as [Ha Hw].
  unfold not_space in Ha. apply negb_true_iff in Ha.
  destruct w as [|b w'].
  - rewrite app_cons, app_nil. simpl. rewrite Ha, Hc. reflexivity.
  - pose proof Hw as Hw'. simpl in Hw'. apply andb_prop in Hw' as [Hb _].
    unfold not_space in Hb. apply negb_true_iff in Hb.
    specialize (IH ltac:(congruence) Hw).
    rewrite app_cons. rewrite app_cons in IH |- *.
    change (split (String a (String b (w' ++ String c s))))
      with (if is_space a then split (String b (w' ++ String c s))
            else if is_space b
                 then String a "" :: split (String b (w' ++ String c s))
                 else match split (String b (w' ++ String c s)) with
                      | x :: xs => String a x :: xs
                      | [] => [String a ""]
                      end).
    rewrite Ha, Hb, IH. reflexivity.
Qed.

Lemma startswith_app p s : startswith (p ++ s) p = true.
Proof.
  unfold startswith. induction p as [|a p IH].
  - rewrite app_nil. destruct s; reflexivity.
  - rewrite app_cons. simpl. destruct (ascii_dec a a); [exact IH | congruence].
Qed.

(** *** Printed integers *)

Lemma uint_digits d : all_str is_digit (NilEmpty.string_of_uint d) = true.
Proof. induction d; simpl; auto. Qed.

Lemma str_of_int_chars n : all_str int_char (str_of_int n) = true.
Proof.
  assert (Hu : forall d, all_str int_char (NilZero.string_of_uint d) = true).
  { intros d. destruct d; try reflexivity;
      (apply (all_str_impl is_digit); [apply digit_int_char | apply uint_digits]). }
  unfold str_of_int, NilZero.string_of_int.
  destruct (Z.to_int n); [apply Hu|]. simpl. apply Hu.
Qed.

Lemma str_of_int_nonempty n : str_of_int n <> "".
Proof.
  unfold str_of_int, NilZero.string_of_int.
  destruct (Z.to_int n) as [d|d]; [|discriminate].
  destruct d; discriminate.
Qed.

Lemma int_digits_of_uint d :
  d <> Nil -> int_digits (NilEmpty.string_of_uint d) = Some d.
Proof.
  induction d as [|d IH|d IH|d IH|d IH|d IH|d IH|d IH|d IH|d IH|d IH];
    intros Hne; [congruence|..];
    (destruct d; [reflexivity|..];
     specialize (IH ltac:(discriminate));
     cbn [NilEmpty.string_of_uint] in *;
     cbn [int_digits]; cbn [int_digits] in IH; rewrite IH; reflexivity).
Qed.

Lemma int_char_not_int_space c : int_char c = true -> negb (is_int_space c) = true.
Proof. revert c. by_bytes. Qed.

Lemma int_strip_id s :
  all_str (fun c => negb (is_int_space c)) s = true -> int_rstrip (int_lstrip s) = s.
Proof.
  intros Hs. assert (Hl : int_lstrip s = s).
  { destruct s as [|c s]; [reflexivity|]. simpl in *.
    apply andb_prop in Hs as [Hc _]. apply negb_true_iff in Hc. now rewrite Hc. }
  rewrite Hl. clear Hl. induction s as [|c s IH]; simpl; [reflexivity|].
  simpl in Hs. apply andb_prop in Hs as [Hc Hs]. rewrite (IH Hs).
  apply negb_true_iff in Hc. rewrite Hc. destruct s; reflexivity.
Qed.

(** *** The length of a printed integer *)

Lemma count_digits_uint d : count_digits (NilEmpty.string_of_uint d) = nb_digits d.
Proof. induction d; simpl; auto. Qed.

Lemma count_digits_pos (p : positive) :
  count_digits (str_of_int (Zpos p)) = nb_digits (Pos.to_uint p)
  /\ count_digits (str_of_int (Zneg p)) = nb_digits (Pos.to_uint p).
Proof.
  unfold str_of_int, NilZero.string_of_int. cbn [Z.to_int].
  pose proof (DecimalPos.Unsigned.to_uint_nonnil p) as Hnn.
  unfold NilZero.string_of_uint.
  destruct (Pos.to_uint p) eqn:E; try congruence;
    rewrite <- E, ?app_cons, ?app_nil; cbn [count_digits];
    change (is_digit "-") with false; cbv iota;
    split; apply count_digits_uint.
Qed.

(** Digits read from the left, after [acc]: the number lies in the
    decade the digits leave open. *)
Lemma of_uint_acc_bounds (d : uint) :
  forall acc : positive,
    (Zpos acc * 10 ^ Z.of_nat (nb_digits d) <= Zpos (Pos.of_uint_acc d acc)
     < (Zpos acc + 1) * 10 ^ Z.of_nat (nb_digits d))%Z.
Proof.
  induction d; intros acc; cbn [Pos.of_uint_acc nb_digits];
    [rewrite Z.pow_0_r; lia|..];
    rewrite Nat2Z.inj_succ, Z.pow_succ_r by lia;
    match goal with
    | |- context [Pos.of_uint_acc d ?a] => specialize (IHd a)
    end;
    assert (0 < 10 ^ Z.of_nat (nb_digits d))%Z by (apply Z.pow_pos_nonneg; lia);
    nia.
Qed.

(** A positive number has as many digits as its decade says. *)
Lemma nb_digits_pos (p : positive) :
  (10 ^ (Z.of_nat (nb_digits (Pos.to_uint p)) - 1) <= Zpos p
   < 10 ^ Z.of_nat (nb_digits (Pos.to_uint p)))%Z.
Proof.
  pose proof (DecimalPos.Unsigned.of_to p) as Hof.
  pose proof (DecimalPos.Unsigned.to_of (Pos.to_uint p)) as Hnorm.
  rewrite Hof in Hnorm. cbn [N.to_uint] in Hnorm.
  pose proof (DecimalPos.Unsigned.to_uint_nonzero p) as Hnz.
  destruct (Pos.to_uint p) as [|l|l|l|l|l|l|l|l|l|l] eqn:E.
  1: discriminate Hof.
  1: { exfalso. change (unorm (D0 l)) with (unorm l) in Hnorm.
       assert (Hl : l = Nil \/ l <> Nil) by (destruct l; [left | right..]; congruence).
       destruct Hl as [-> | Hl]; [now apply Hnz|].
       pose proof (DecimalFacts.nb_digits_unorm l Hl) as Hle.
       rewrite <- Hnorm in Hle. cbn [nb_digits] in Hle. lia. }
  all: cbn [Pos.of_uint] in Hof; injection Hof as Hof;
    cbn [nb_digits]; rewrite Nat2Z.inj_succ;
    replace (Z.succ (Z.of_nat (nb_digits l)) - 1)%Z with (Z.of_nat (nb_digits l)) by lia;
    rewrite Z.pow_succ_r by lia;
    match type of Hof with
    | Pos.of_uint_acc ?l0 ?k = _ => pose proof (of_uint_acc_bounds l0 k) as Hb
    end;
    rewrite Hof in Hb;
    assert (0 < 10 ^ Z.of_nat (nb_digits l))%Z by (apply Z.pow_pos_nonneg; lia);
    nia.
Qed.

(** [str(n)] returns exactly for the integers below 10^4300 in absolute
    value. *)
Lemma str_allowed_spec n : str_allowed n = true <-> (Z.abs n < 10 ^ 4300)%Z.
Proof.
  unfold str_allowed. rewrite Nat.leb_le.
  assert (Hpos : forall p k, count_digits k = nb_digits (Pos.to_uint p) ->
            ((count_digits k <= MAX_STR_DIGITS)%nat <-> (Zpos p < 10 ^ 4300)%Z)).
  { intros p k ->. pose proof (nb_digits_pos p) as [Hlo Hhi].
    unfold MAX_STR_DIGITS. split.
    - intros Hle. eapply Z.lt_le_trans; [exact Hhi|].
      apply Z.pow_le_mono_r; [reflexivity|]. clear Hlo Hhi. lia.
    - intros Hlt. apply Nat.nlt_ge. intros Hgt.
      assert (Hmono : (10 ^ 4300 <= 10 ^ (Z.of_nat (nb_digits (Pos.to_uint p)) - 1))%Z).
      { apply Z.pow_le_mono_r; [reflexivity|]. clear Hlo Hhi Hlt. lia. }
      eapply Z.lt_irrefl, Z.lt_le_trans; [exact Hlt|].
      eapply Z.le_trans; [exact Hmono | exact Hlo]. }
  destruct n as [|p|p].
  - split; intros _; [now apply Z.pow_pos_nonneg | apply Nat.leb_le; vm_compute; reflexivity].
  - apply (Hpos p), count_digits_pos.
  - change (Z.abs (Zneg p)) with (Zpos p). apply (Hpos p), count_digits_pos.
Qed.

(** [int] reads back what [str] printed, and refuses the decimal text of
    an integer that [str] would not print. *)
Lemma int_of_str_of_int n :
  int_of_str (str_of_int n) = if str_allowed n then Some n else None.
Proof.
  unfold int_of_str.
  rewrite int_strip_id
    by (eapply all_str_impl; [apply int_char_not_int_space | apply str_of_int_chars]).
  unfold str_allowed.
  destruct (str_of_int n) as [|c d] eqn:Es; [now apply str_of_int_nonempty in Es|].
  rewrite Nat.leb_antisym. destruct (Nat.ltb MAX_STR_DIGITS (count_digits (String c d)));
    [reflexivity|]. cbn [negb].
  rewrite <- (DecimalZ.of_to n) at 1.
  revert Es. unfold str_of_int, NilZero.string_of_int.
  destruct n as [|p|p]; [intros [= <- <-]; reflexivity|..]; simpl Z.to_int;
    pose proof (DecimalPos.Unsigned.to_uint_nonnil p) as Hnn;
    pose proof (int_digits_of_uint (Pos.to_uint p) Hnn) as Hd;
    destruct (Pos.to_uint p) as [|u|u|u|u|u|u|u|u|u|u] eqn:E; try congruence.
  all: unfold NilZero.string_of_uint.
  all: rewrite ?app_cons, ?app_nil.
  all: cbn [NilEmpty.string_of_uint] in *.
  all: intros [= <- <-].
  all: cbv [Ascii.eqb Bool.eqb].
  all: cbv iota.
  all: rewrite Hd; reflexivity.
Qed.

Lemma str_of_int_not_space n : all_str not_space (str_of_int n) = true.
Proof.
  eapply all_str_impl; [apply int_char_not_space | apply str_of_int_chars].
Qed.

Lemma upper_str_of_int n : upper (str_of_int n) = str_of_int n.
Proof.
  apply (map_str_id _ int_char); [|apply str_of_int_chars].
  intros c Hc. now apply upper_char_id, int_char_not_lower.
Qed.

(** A command made of an upper-case head without blanks, one blank and a
    printed integer is left alone by [strip] and [upper], and its last
    token is the integer. *)
Lemma command_with_int (head : string) (n : Z) :
  head <> "" -> all_str not_space head = true -> upper head = head ->
  let cmd := head ++ String " " (str_of_int n) in
  upper (strip cmd) = cmd /\ split cmd = [head; str_of_int n].
Proof.
  intros Hne Hns Hup cmd. split.
  - assert (Hstrip : strip cmd = cmd).
    { unfold strip, cmd. destruct head as [|c head']; [congruence|].
      pose proof Hns as Hc. simpl in Hc. apply andb_prop in Hc as [Hc _].
      unfold not_space in Hc. apply negb_true_iff in Hc.
      rewrite app_cons, (lstrip_not_space _ _ Hc), <- app_cons.
      apply rstrip_app; [discriminate|].
      simpl. rewrite (rstrip_not_space _ (str_of_int_not_space n)).
      destruct (str_of_int n) eqn:E; [|reflexivity].
      now apply str_of_int_nonempty in E. }
    rewrite Hstrip. unfold cmd, upper. rewrite map_str_app. fold upper.
    rewrite Hup. f_equal.
    change (upper (String " " (str_of_int n)))
      with (String " " (upper (str_of_int n))).
    now rewrite upper_str_of_int.
  - unfold cmd. rewrite split_word by auto.
    rewrite split_not_space;
      auto using str_of_int_nonempty, str_of_int_not_space.
Qed.
End PyStrFacts.


(** ** The simulator driver *)

Module FakeMeterFacts.
Import PyStr PyStrFacts.

Lemma query_freq (w : World) (self : FakeMeter.t) (h : trace) :
  FakeMeter.query w self "SENS:FREQ?" h = (str (FakeMeter._freq_hz self), h).
Proof. reflexivity. Qed.

Lemma parse_freq_arg_int (head : string) (n : Z) :
  head <> "" -> all_str not_space head = true -> upper head = head ->
  FakeMeter.parse_freq_arg (head ++ String " " (str_of_int n))
  = if str_allowed n then Some n else None.
Proof.
  intros Hne Hns Hup. unfold FakeMeter.parse_freq_arg.
  destruct (command_with_int head n Hne Hns Hup) as [_ ->].
  simpl. apply int_of_str_of_int.
Qed.

Lemma write_sens_freq (self : FakeMeter.t) (n : Z) :
  FakeMeter.write self ("SENS:FREQ " ++ str_of_int n)
  = (Ok tt, if str_allowed n then FakeMeter.set_freq self n else self).
Proof.
  unfold FakeMeter.write.
  change ("SENS:FREQ " ++ str_of_int n)
    with ("SENS:FREQ" ++ String " " (str_of_int n)).
  destruct (command_with_int "SENS:FREQ" n) as [-> _]; try easy.
  rewrite parse_freq_arg_int by easy.
  change ("SENS:FREQ" ++ String " " (str_of_int n))
    with ("SENS:FREQ " ++ str_of_int n).
  rewrite (startswith_app "SENS:FREQ "). now destruct (str_allowed n).
Qed.

Lemma write_freq (self : FakeMeter.t) (n : Z) :
  FakeMeter.write self ("FREQ " ++ str_of_int n)
  = (Ok tt, if str_allowed n then FakeMeter.set_freq self n else self).
Proof.
  unfold FakeMeter.write.
  change ("FREQ " ++ str_of_int n) with ("FREQ" ++ String " " (str_of_int n)).
  destruct (command_with_int "FREQ" n) as [-> _]; try easy.
  rewrite parse_freq_arg_int by easy.
  change ("FREQ" ++ String " " (str_of_int n)) with ("FREQ " ++ str_of_int n).
  rewrite (startswith_app "FREQ "), orb_true_r. now destruct (str_allowed n).
Qed.

Lemma str_refused (n : Z) : (10 ^ 4300 <= Z.abs n)%Z -> str_allowed n = false.
Proof.
  intros Hn. apply not_true_iff_false. intros Ha. apply str_allowed_spec in Ha.
  eapply Z.lt_irrefl, Z.lt_le_trans; [exact Ha | exact Hn].
Qed.

Lemma refused_10_4300 : str_allowed (10 ^ 4300) = false.
Proof.
  apply str_refused.
  generalize (10 ^ 4300)%Z (Z.pow_nonneg 10 4300 ltac:(discriminate)).
  intros N HN. rewrite Z.abs_eq by exact HN. apply Z.le_refl.
Qed.

(** C6, within the integers Python converts. A new simulator answers
    the frequency query with "1000000000". For every integer n of at
    most 4300 decimal digits, that is with |n| < 10^4300, and from any
    simulator state, a write of "SENS:FREQ n" or of "FREQ n" returns
    normally and the query "SENS:FREQ?" then answers the decimal text of
    n. For every longer n the write returns normally as well, but [int]
    has refused the text and the simulator is left as it was. *)
Theorem freq_roundtrip (w : World) (h : trace) :
  FakeMeter.query w FakeMeter.new "SENS:FREQ?" h = (Ok "1000000000", h)
  /\ (forall (self : FakeMeter.t) (n : Z),
        (Z.abs n < 10 ^ 4300)%Z ->
        let w1 := FakeMeter.write self ("SENS:FREQ " ++ str_of_int n) in
        let w2 := FakeMeter.write self ("FREQ " ++ str_of_int n) in
        fst w1 = Ok tt
        /\ FakeMeter.query w (snd w1) "SENS:FREQ?" h = (Ok (str_of_int n), h)
        /\ fst w2 = Ok tt
        /\ FakeMeter.query w (snd w2) "SENS:FREQ?" h = (Ok (str_of_int n), h))
  /\ (forall (self : FakeMeter.t) (n : Z),
        (10 ^ 4300 <= Z.abs n)%Z ->
        FakeMeter.write self ("SENS:FREQ " ++ str_of_int n) = (Ok tt, self)
        /\ FakeMeter.write self ("FREQ " ++ str_of_int n) = (Ok tt, self)).
Proof.
  split; [reflexivity|]. split.
  - intros self n Hn w1 w2. subst w1 w2.
    apply str_allowed_spec in Hn.
    rewrite write_sens_freq, write_freq, Hn, !query_freq. cbn [fst snd].
    unfold str. cbn [FakeMeter._freq_hz FakeMeter.set_freq]. rewrite Hn. auto.
  - intros self n Hn. apply str_refused in Hn.
    now rewrite write_sens_freq, write_freq, Hn.
Qed.

(** C6 as it is worded, for every integer: the decimal text of 10^4300
    has 4301 digits, [int] refuses it, the write is ignored, and the
    query still answers the initial frequency. *)
Lemma freq_roundtrip_unbounded_fails :
  ~ (forall (w : World) (h : trace) (self : FakeMeter.t) (n : Z),
       FakeMeter.query w (snd (FakeMeter.write self ("SENS:FREQ " ++ str_of_int n)))
         "SENS:FREQ?" h
       = (Ok (str_of_int n), h)).
Proof.
  intros Hall.
  assert (Hbig : exists n : Z, str_allowed n = false) by (exists (10 ^ 4300)%Z; apply refused_10_4300).
  destruct Hbig as [n Ha].
  specialize (Hall bench [] FakeMeter.new n).
  rewrite write_sens_freq, Ha in Hall. cbn [snd] in Hall.
  rewrite query_freq in Hall.
  change (str (FakeMeter._freq_hz FakeMeter.new)) with (Ok "1000000000"%string) in Hall.
  apply (f_equal (fun r => match fst r with Ok s => int_of_str s | Raise _ => None end))
    in Hall.
  cbv beta iota delta [fst] in Hall.
  rewrite int_of_str_of_int, Ha in Hall. vm_compute in Hall. discriminate Hall.
Qed.

Lemma freq_roundtrip_witness :
  let w1 := FakeMeter.write FakeMeter.new ("SENS:FREQ " ++ str_of_int 2400000000) in
  (Z.abs 2400000000 < 10 ^ 4300)%Z
  /\ fst w1 = Ok tt
  /\ FakeMeter.query bench (snd w1) "SENS:FREQ?" [] = (Ok "2400000000", [])
  /\ (10 ^ 4300 <= Z.abs (- 10 ^ 4300))%Z
  /\ FakeMeter.write FakeMeter.new ("FREQ " ++ str_of_int (- 10 ^ 4300))
     = (Ok tt, FakeMeter.new).
Proof.
  intros w1.
  destruct (freq_roundtrip bench []) as (_ & Hin & Hout).
  assert (H1 : (Z.abs 2400000000 < 10 ^ 4300)%Z) by (vm_compute; reflexivity).
  assert (H2 : (10 ^ 4300 <= Z.abs (- 10 ^ 4300))%Z) by (vm_compute; discriminate).
  destruct (Hin FakeMeter.new 2400000000%Z H1) as (Ha & Hb & _).
  destruct (Hout FakeMeter.new (- 10 ^ 4300)%Z H2) as (_ & Hc).
  exact (conj H1 (conj Ha (conj Hb (conj H2 Hc)))).
Defined.

Example freq_2400000000 (w : World) :
  let m := snd (FakeMeter.write FakeMeter.new "SENS:FREQ 2400000000") in
  fst (FakeMeter.query w m "SENS:FREQ?" []) = Ok "2400000000"
  /\ fst (FakeMeter.query w m "freq?" []) = Ok "2400000000".
Proof. split; reflexivity. Qed.

Lemma write_cases (self : FakeMeter.t) (cmd : string) :
  fst (FakeMeter.write self cmd) = Ok tt
  /\ (snd (FakeMeter.write self cmd) = self
      \/ exists tok n,
           FakeMeter.is_zero_cmd cmd = false /\ FakeMeter.is_freq_cmd cmd = true
           /\ FakeMeter.trailing_token cmd = Some tok /\ int_of_str tok = Some n
           /\ snd (FakeMeter.write self cmd) = FakeMeter.set_freq self n).
Proof.
  unfold FakeMeter.write, FakeMeter.is_zero_cmd, FakeMeter.is_freq_cmd, FakeMeter.trailing_token,
    FakeMeter.parse_freq_arg.
  set (cmdu := upper (strip cmd)).
  destruct (startswith cmdu "SENS:POW:ZERO:IMM" || startswith cmdu "CAL:ZERO")%bool;
    [simpl; auto|].
  destruct (startswith cmdu "SENS:FREQ " || startswith cmdu "FREQ ")%bool;
    [|simpl; auto].
  destruct (last_item (split cmdu)) as [tok|]; [|simpl; auto].
  destruct (int_of_str tok) as [n|] eqn:E; [|simpl; auto].
  simpl. split; [reflexivity|]. right. exists tok, n. auto.
Qed.

(** C9. [write] on the simulator never raises. The zero command and its
    synonym change nothing; a frequency-set command whose trailing token
    is not an integer literal changes nothing, the stored frequency
    included; every command that is neither changes nothing. No write
    touches anything but the stored frequency. *)
Theorem write_frame (self : FakeMeter.t) (cmd : string) :
  fst (FakeMeter.write self cmd) = Ok tt
  /\ (FakeMeter.is_zero_cmd cmd = true -> snd (FakeMeter.write self cmd) = self)
  /\ (FakeMeter.is_freq_cmd cmd = true ->
      (forall tok, FakeMeter.trailing_token cmd = Some tok -> int_of_str tok = None) ->
      snd (FakeMeter.write self cmd) = self)
  /\ (FakeMeter.is_zero_cmd cmd = false -> FakeMeter.is_freq_cmd cmd = false ->
      snd (FakeMeter.write self cmd) = self)
  /\ FakeMeter.inst (snd (FakeMeter.write self cmd)) = FakeMeter.inst self
  /\ FakeMeter.resource (snd (FakeMeter.write self cmd)) = FakeMeter.resource self
  /\ FakeMeter.backend_in_use (snd (FakeMeter.write self cmd))
     = FakeMeter.backend_in_use self.
Proof.
  destruct (write_cases self cmd) as [Hok Hst]. split; [exact Hok|].
  repeat split.
  - intros Hz. destruct Hst as [H | (tok & n & Hz' & _)]; [exact H | congruence].
  - intros _ Hbad. destruct Hst as [H | (tok & n & _ & _ & Ht & Hn & _)];
      [exact H|]. rewrite (Hbad _ Ht) in Hn. discriminate.
  - intros _ Hf. destruct Hst as [H | (tok & n & _ & Hf' & _)]; [exact H | congruence].
  - destruct Hst as [-> | (tok & n & _ & _ & _ & _ & ->)]; reflexivity.
  - destruct Hst as [-> | (tok & n & _ & _ & _ & _ & ->)]; reflexivity.
  - destruct Hst as [-> | (tok & n & _ & _ & _ & _ & ->)]; reflexivity.
Qed.

Lemma write_frame_witness :
  let m := FakeMeter.set_freq FakeMeter.new 2400000000 in
  snd (FakeMeter.write m "sens:pow:zero:imm") = m
  /\ snd (FakeMeter.write m "CAL:ZERO") = m
  /\ snd (FakeMeter.write m "SENS:FREQ 1e9") = m
  /\ snd (FakeMeter.write m "freq 2.4 GHz") = m
  /\ snd (FakeMeter.write m "*RST") = m.
Proof.
  intros m.
  destruct (write_frame m "sens:pow:zero:imm") as (_ & Hz1 & _).
  destruct (write_frame m "CAL:ZERO") as (_ & Hz2 & _).
  destruct (write_frame m "SENS:FREQ 1e9") as (_ & _ & Hf1 & _).
  destruct (write_frame m "freq 2.4 GHz") as (_ & _ & Hf2 & _).
  destruct (write_frame m "*RST") as (_ & _ & _ & Ho & _).
  refine (conj _ (conj _ (conj _ (conj _ _)))).
  - apply Hz1. reflexivity.
  - apply Hz2. reflexivity.
  - apply Hf1; [reflexivity|]. intros tok [= <-]. reflexivity.
  - apply Hf2; [reflexivity|]. intros tok [= <-]. reflexivity.
  - apply Ho; reflexivity.
Defined.

End FakeMeterFacts.


(** ** The real driver *)

Module VisaMeterFacts.
Import VisaMeter.
Local Open Scope list_scope.

Lemma record_app (h : trace) (ev : event) (evs : trace) :
  (record h ev ++ evs = h ++ ev :: evs)%list.
Proof. unfold record. now rewrite <- app_assoc. Qed.






(** [_close_unlocked] never raises, whatever closing the session does. *)
Lemma close_unlocked_spec (w : World) (self : t) (h : trace) :
  exists evs,
    _close_unlocked w (self, h) = (Ok tt, (closed self, h ++ evs))
    /\ Trace.no_manager evs /\ Trace.no_clear evs /\ Trace.opens evs = 0%nat.
Proof.
  unfold _close_unlocked. run. destruct (inst self) as [s|]; cbn.
  - destruct (close_session w h (s_be s) (s_addr s)) eqn:E; cbn;
      eexists [_]; repeat split.
  - exists []. rewrite app_nil_r. repeat split.
Qed.


(** On the bench the pure-Python backend fails, the system backend opens
    the sensor although the buffer clear raises, and a third backend in
    the list is never asked. *)
Example connect_on_bench :
  connect bench bench_address 5000 (fresh ["@py"; ""; "@sim"]%string, [])
  = (Ok tt,
     ({| backend_order := ["@py"; ""; "@sim"]%string; rm := Some ""%string;
         inst := Some {| s_be := ""; s_addr := bench_address |};
         resource := Some bench_address;
         backend_in_use := Some "default"%string;
         read_term := READ_TERM; write_term := WRITE_TERM |},
      [ EvManager "@py" (Some (LibraryError "no backend @py"));
        EvManager "" None;
        EvOpen "" bench_address None;
        EvSetAttr "" bench_address (Timeout 5000) None;
        EvSetAttr "" bench_address (ReadTermination READ_TERM) None;
        EvSetAttr "" bench_address (WriteTermination WRITE_TERM) None;
        EvClear "" bench_address (Some (LibraryError "VI_ERROR_NSUP_OPER")) ])).
Proof. reflexivity. Qed.

Example connect_nowhere :
  fst (connect bench "USB0::9::9::INSTR" 5000 (fresh ["@py"; ""]%string, []))
  = Raise (LibraryError "VI_ERROR_RSRC_NFOUND")
  /\ fst (connect bench bench_address 5000 (fresh [], []))
     = Raise (RuntimeError "Не удалось открыть ресурс").
Proof. split; reflexivity. Qed.


End VisaMeterFacts.


(** ** The connection facade *)

Module MeterFacts.
Import Meter.
Local Open Scope list_scope.

(** [close] never raises and always ends disconnected. *)
Lemma close_spec (w : World) (self : t) (h : trace) :
  exists evs,
    close w (self, h) = (Ok tt, (disconnected self, h ++ evs))
    /\ Trace.opens evs = 0%nat.
Proof.
  unfold close. run. destruct (_impl self) as [[m|v]|]; cbn.
  - exists []. rewrite app_nil_r. split; reflexivity.
  - destruct (VisaMeterFacts.close_unlocked_spec w v h) as (evs & Hc & _ & _ & Ho).
    unfold VisaMeter.close. rewrite Hc. cbn. exists evs. split; [reflexivity | exact Ho].
  - exists []. rewrite app_nil_r. split; reflexivity.
Qed.

Lemma ops_without_driver (w : World) (self : t) (h : trace) (cmd : string) :
  _impl self = None ->
  query w cmd (self, h) = (Raise NotConnected, (self, h))
  /\ write w cmd (self, h) = (Raise NotConnected, (self, h))
  /\ idn w (self, h) = (Ok "Фейкометр 1.0"%string, (self, h)).
Proof.
  intros Hnone. unfold query, write, idn. run. rewrite Hnone. repeat split.
Qed.

Lemma visa_idn_swallows (w : World) (v : VisaMeter.t) (h : trace) (e : exn)
    (s' : VisaMeter.St) :
  VisaMeter.query w "*IDN?" (v, h) = (Raise e, s') ->
  VisaMeter.idn w (v, h) = (Ok ""%string, s').
Proof. intros Hq. unfold VisaMeter.idn. run. now rewrite Hq. Qed.

(** C7. Without an active driver, [query] and [write] raise the
    not-connected error for every command and change nothing, while [idn]
    returns normally with a fixed text. That text is not the empty string,
    which is what the Real Driver's [idn] returns whenever its
    identification query raises. *)
Theorem no_driver (w : World) (self : t) (h : trace) (cmd : string) :
  _impl self = None ->
  query w cmd (self, h) = (Raise NotConnected, (self, h))
  /\ write w cmd (self, h) = (Raise NotConnected, (self, h))
  /\ idn w (self, h) = (Ok "Фейкометр 1.0"%string, (self, h))
  /\ "Фейкометр 1.0"%string <> ""%string
  /\ forall (v : VisaMeter.t) (h0 : trace) (e : exn) (s' : VisaMeter.St),
       VisaMeter.query w "*IDN?" (v, h0) = (Raise e, s') ->
       VisaMeter.idn w (v, h0) = (Ok ""%string, s').
Proof.
  intros Hnone.
  destruct (ops_without_driver w self h cmd Hnone) as (Hq & Hw & Hi).
  refine (conj Hq (conj Hw (conj Hi (conj _ _)))); [discriminate|].
  intros v h0 e s'. apply visa_idn_swallows.
Qed.

Lemma no_driver_witness :
  _impl (new DEFAULT_BACKENDS) = None
  /\ query bench "MEAS:POW?" (new DEFAULT_BACKENDS, [])
     = (Raise NotConnected, (new DEFAULT_BACKENDS, []))
  /\ write bench "SENS:POW:ZERO:IMM" (new DEFAULT_BACKENDS, [])
     = (Raise NotConnected, (new DEFAULT_BACKENDS, []))
  /\ idn bench (new DEFAULT_BACKENDS, [])
     = (Ok "Фейкометр 1.0"%string, (new DEFAULT_BACKENDS, []))
  /\ VisaMeter.idn bench (VisaMeter.fresh DEFAULT_BACKENDS, [])
     = (Ok ""%string, (VisaMeter.fresh DEFAULT_BACKENDS, [])).
Proof.
  split; [reflexivity|].
  destruct (no_driver bench (new DEFAULT_BACKENDS) [] "MEAS:POW?" eq_refl)
    as (Hq & _ & Hi & _ & Hv).
  destruct (no_driver bench (new DEFAULT_BACKENDS) [] "SENS:POW:ZERO:IMM" eq_refl)
    as (_ & Hw & _).
  refine (conj Hq (conj Hw (conj Hi _))).
  apply (Hv _ _ (RuntimeError "Нет соединения")). reflexivity.
Defined.

(** C10. A [connect] that raises leaves the facade disconnected: no
    driver, no resource, no backend in use, so [is_connected_to] is false
    for every address and [query] and [write] raise the not-connected
    error. Whatever was connected before is closed and stays closed. *)
Theorem failed_connect_disconnects (w : World) (self self' : t) (res : string)
    (tmo : Z) (h h' : trace) (e : exn) :
  connect w res tmo (self, h) = (Raise e, (self', h')) ->
  self' = disconnected self
  /\ _impl self' = None /\ resource self' = None /\ backend_in_use self' = None
  /\ (forall a, is_connected_to self' a = false)
  /\ (forall cmd h2, query w cmd (self', h2) = (Raise NotConnected, (self', h2)))
  /\ (forall cmd h2, write w cmd (self', h2) = (Raise NotConnected, (self', h2))).
Proof.
  intros Hc.
  assert (Hself : self' = disconnected self).
  { unfold connect in Hc. run.
    destruct (is_connected_to self res); [discriminate|].
    destruct (close_spec w self h) as (evs & Hcl & _). run. rewrite Hcl in Hc.
    destruct (String.eqb (PyStr.upper (PyStr.strip res)) "FAKE").
    - cbn in Hc. discriminate.
    - destruct (VisaMeter.new w (backend_order self) READ_TERM WRITE_TERM)
        as [v|e0]; cbn in Hc; [|congruence].
      destruct (VisaMeter.connect w res tmo (v, h ++ evs)) as [[[]|e1] [v' h1]];
        cbn in Hc; [discriminate | congruence]. }
  subst self'. split; [reflexivity|].
  repeat split; intros;
    try (apply (ops_without_driver w (disconnected self) _ _ eq_refl)).
Qed.

(** The sensor is unplugged while the facade is connected to the bench:
    a connect to an address nobody answers fails and the bench connection
    is gone. *)
Lemma failed_connect_disconnects_witness :
  let s1 := snd (connect bench bench_address 5000 (new DEFAULT_BACKENDS, [])) in
  let r2 := connect bench "USB0::9::9::INSTR" 5000 s1 in
  is_connected_to (fst s1) bench_address = true
  /\ fst r2 = Raise (LibraryError "VI_ERROR_RSRC_NFOUND")
  /\ _impl (fst (snd r2)) = None
  /\ is_connected_to (fst (snd r2)) bench_address = false
  /\ fst (query bench "MEAS:POW?" (snd r2)) = Raise NotConnected.
Proof.
  intros s1 r2.
  assert (Hr2 : r2 = (Raise (LibraryError "VI_ERROR_RSRC_NFOUND"),
                      (fst (snd r2), snd (snd r2)))) by reflexivity.
  destruct (failed_connect_disconnects bench (fst s1) (fst (snd r2))
              "USB0::9::9::INSTR" 5000 (snd s1) (snd (snd r2)) _ Hr2)
    as (_ & Hi & _ & _ & Hc & Hq & _).
  refine (conj eq_refl (conj eq_refl (conj Hi (conj (Hc _) _)))).
  destruct (snd r2) as [m2 h2] eqn:E. simpl in Hq. rewrite Hq. reflexivity.
Defined.

(** *** Connecting twice *)

(** A second [connect] is a no-op exactly when [is_connected_to] accepts
    the address as given. *)
Lemma connect_again (w : World) (self : t) (res : string) (tmo : Z) (h : trace) :
  is_connected_to self res = true ->
  connect w res tmo (self, h) = (Ok tt, (self, h)).
Proof. intros H. unfold connect. run. now rewrite H. Qed.

(** What a successful [connect] stores: the literal "FAKE" for any
    spelling of the reserved address, the address as given otherwise. *)
Lemma connect_stores (w : World) (self self' : t) (res : string) (tmo : Z)
    (h h' : trace) :
  is_connected_to self res = false ->
  connect w res tmo (self, h) = (Ok tt, (self', h')) ->
  _impl self' <> None
  /\ resource self'
     = Some (if String.eqb (PyStr.upper (PyStr.strip res)) "FAKE"
             then "FAKE"%string else res).
Proof.
  intros Hn Hc. unfold connect in Hc. run. rewrite Hn in Hc.
  destruct (close_spec w self h) as (evs & Hcl & _). run. rewrite Hcl in Hc.
  destruct (String.eqb (PyStr.upper (PyStr.strip res)) "FAKE").
  - cbn in Hc. injection Hc as <- _. split; [discriminate | reflexivity].
  - destruct (VisaMeter.new w (backend_order self) READ_TERM WRITE_TERM)
      as [v|e0]; cbn in Hc; [|discriminate].
    destruct (VisaMeter.connect w res tmo (v, h ++ evs)) as [[[]|e1] [v' h1]];
      cbn in Hc; [|discriminate].
    injection Hc as <- _. split; [discriminate | reflexivity].
Qed.

(** For the literal "FAKE" itself and for every address of a real
    instrument, a second [connect] after a successful one changes neither
    the facade nor the trace: nothing is opened again. *)
Lemma connect_idempotent (w : World) (self : t) (res : string) (tmo : Z)
    (h : trace) (s1 : St) :
  res = "FAKE"%string \/ String.eqb (PyStr.upper (PyStr.strip res)) "FAKE" = false ->
  connect w res tmo (self, h) = (Ok tt, s1) ->
  connect w res tmo s1 = (Ok tt, s1).
Proof.
  intros Hres Hc. destruct s1 as [self' h'].
  destruct (is_connected_to self res) eqn:Hn.
  - rewrite connect_again in Hc by exact Hn. injection Hc as <- <-.
    now apply connect_again.
  - destruct (connect_stores _ _ _ _ _ _ _ Hn Hc) as [Hi Hr].
    apply connect_again. unfold is_connected_to. rewrite Hr.
    destruct (_impl self'); [|congruence].
    destruct Hres as [-> | ->]; [reflexivity | apply String.eqb_refl].
Qed.

(** C1 at the address "fake". The first [connect] constructs a simulator
    and stores the resource "FAKE"; the second one, with the very same
    address, is not recognised as connected, closes the simulator and
    constructs another: two opens instead of one, and a frequency set in
    between is lost. *)
Theorem connect_twice_lowercase (w : World) :
  let s0 := (new DEFAULT_BACKENDS, []) in
  let s1 := snd (connect w "fake" 5000 s0) in
  let s2 := snd (connect w "fake" 5000 s1) in
  let s1' := snd (write w "SENS:FREQ 2400000000" s1) in
  let s2' := snd (connect w "fake" 5000 s1') in
  fst (connect w "fake" 5000 s0) = Ok tt
  /\ fst (connect w "fake" 5000 s1) = Ok tt
  /\ resource (fst s1) = Some "FAKE"%string
  /\ is_connected_to (fst s1) "fake" = false
  /\ Trace.opens (snd s1) = 1%nat
  /\ Trace.opens (snd s2) = 2%nat
  /\ fst (query w "SENS:FREQ?" s1') = Ok "2400000000"%string
  /\ fst (query w "SENS:FREQ?" s2') = Ok "1000000000"%string.
Proof. repeat split. Qed.

(** With the literal "FAKE" the same two calls open once. *)
Example connect_twice_literal (w : World) :
  let s0 := (new DEFAULT_BACKENDS, []) in
  let s1 := snd (connect w "FAKE" 5000 s0) in
  connect w "FAKE" 5000 s1 = (Ok tt, s1) /\ Trace.opens (snd s1) = 1%nat.
Proof. split; reflexivity. Qed.

Example connect_twice_bench :
  let s0 := (new DEFAULT_BACKENDS, []) in
  let s1 := snd (connect bench bench_address 5000 s0) in
  connect bench bench_address 5000 s1 = (Ok tt, s1)
  /\ Trace.opens (snd s1) = 1%nat.
Proof. split; reflexivity. Qed.

End MeterFacts.


(** ** Discovery *)

Module DiscoveryFacts.
Import Discovery.
Local Open Scope list_scope.








Example scan_shared_bus :
  fst (scan_usb_usbtmc shared_bus ["@py"; "@broken"; "@ni"; ""]%string [])
  = ["USB0::1::INSTR"; "USB0::2::INSTR"; "USB0::3::INSTR"]%string
  /\ fst (MeasurementController.scan shared_bus [])
     = ["USB0::1::INSTR"; "USB0::2::INSTR"; "USB0::3::INSTR"; "FAKE"]%string
  /\ fst (MeasurementController.scan bare []) = ["FAKE"%string].
Proof. repeat split; vm_compute; reflexivity. Qed.

End DiscoveryFacts.


(** ** The matcher on [number_re] *)

Module ReFacts.
Import PyUnicode Re Utils Tokens.
Local Open Scope list_scope.

Lemma text_app_cons (c : N) (a b : text) : (c :: a) ++ b = c :: (a ++ b).
Proof. reflexivity. Qed.

Lemma text_app_nil (b : text) : [] ++ b = b.
Proof. reflexivity. Qed.

(** *** The character classes *)

Lemma sign_cases c : is_sign c = true -> c = 45%N \/ c = 43%N.
Proof.
  unfold is_sign. intros [E|E]%orb_prop; apply N.eqb_eq in E; auto.
Qed.

Lemma dot_case c : is_dot c = true -> c = 46%N.
Proof. apply N.eqb_eq. Qed.

Lemma e_cases c : is_e c = true -> c = 101%N \/ c = 69%N.
Proof.
  unfold is_e. intros [E|E]%orb_prop; apply N.eqb_eq in E; auto.
Qed.

Lemma space_cases c : is_space c = true -> In c spaces.
Proof.
  unfold is_space. intros (x & Hx & E)%existsb_exists.
  apply N.eqb_eq in E. now subst x.
Qed.

(** A property that holds of every blank. *)
Lemma spaces_all (p : N -> bool) :
  forallb p spaces = true -> forall c, is_space c = true -> p c = true.
Proof.
  intros Hp c Hc. apply space_cases in Hc.
  rewrite forallb_forall in Hp. now apply Hp.
Qed.

Lemma span_app p s d r : span p s = (d, r) -> s = d ++ r.
Proof.
  revert d r. induction s as [|c s IH]; intros d r; simpl.
  - now intros [= <- <-].
  - destruct (p c).
    + destruct (span p s) as [d' r']. intros [= <- <-].
      rewrite text_app_cons. f_equal. now apply IH.
    + now intros [= <- <-].
Qed.

Lemma span_all p s d r : span p s = (d, r) -> forallb p d = true.
Proof.
  revert d r. induction s as [|c s IH]; intros d r; simpl.
  - now intros [= <- <-].
  - destruct (p c) eqn:E.
    + destruct (span p s) as [d' r']. intros [= <- <-].
      simpl. rewrite E. now apply (IH d' r').
    + now intros [= <- <-].
Qed.

Lemma span_stop p s d r : span p s = (d, r) -> starts_with p r = false.
Proof.
  revert d r. induction s as [|c s IH]; intros d r; simpl.
  - now intros [= <- <-].
  - destruct (p c) eqn:E.
    + destruct (span p s) as [d' r']. intros [= <- <-]. now apply (IH d' r').
    + intros [= <- <-]. exact E.
Qed.

Lemma span_intro p d r :
  forallb p d = true -> starts_with p r = false -> span p (d ++ r) = (d, r).
Proof.
  intros Hd Hr. induction d as [|c d IH].
  - rewrite text_app_nil. destruct r as [|c r]; [reflexivity|].
    simpl in *. now rewrite Hr.
  - simpl in Hd. apply andb_prop in Hd as [Hc Hd].
    rewrite text_app_cons. simpl. now rewrite Hc, (IH Hd).
Qed.

(** [star] gives back as little as the continuation asks for. *)
Lemma star_greedy {R} p s (k : text -> option R) d r x :
  span p s = (d, r) -> k r = Some x -> star p s k = Some x.
Proof.
  revert d. induction s as [|c s IH]; intros d; simpl.
  - intros [= <- <-]. auto.
  - destruct (p c).
    + destruct (span p s) as [d' r'] eqn:E. intros [= <- <-] Hk.
      now rewrite (IH d' eq_refl Hk).
    + intros [= <- <-]. auto.
Qed.

Lemma star_empty {R} p s (k : text -> option R) :
  starts_with p s = false -> star p s k = k s.
Proof. destruct s as [|c s]; simpl; [reflexivity|]. now intros ->. Qed.

(** When the continuation fails after all of the run but goes through
    with its last character given back. *)
Lemma star_back {R} p (k : text -> option R) d c r x :
  forallb p d = true -> p c = true -> starts_with p r = false ->
  k r = None -> k (c :: r) = Some x ->
  star p (d ++ (c :: r)) k = Some x.
Proof.
  intros Hd Hc Hr Hk0 Hk1. induction d as [|a d IH].
  - rewrite text_app_nil. simpl. rewrite Hc, (star_empty _ _ _ Hr), Hk0. exact Hk1.
  - simpl in Hd. apply andb_prop in Hd as [Ha Hd].
    rewrite text_app_cons. simpl. now rewrite Ha, (IH Hd).
Qed.

Lemma plus_greedy {R} p s c (k : text -> caps -> option R) d r x :
  span p s = (d, r) -> is_empty d = false -> k r c = Some x ->
  run (Plus p) s c k = Some x.
Proof.
  destruct s as [|a s]; simpl; [now intros [= <- <-]|].
  destruct (p a); [|now intros [= <- <-]].
  destruct (span p s) as [d' r'] eqn:E. intros [= <- <-] _ Hk.
  eapply star_greedy; eauto.
Qed.

Lemma plus_fail {R} p s c (k : text -> caps -> option R) :
  starts_with p s = false -> run (Plus p) s c k = None.
Proof. destruct s as [|a s]; simpl; [reflexivity|]. now intros ->. Qed.

Lemma cls_fail {R} p s c (k : text -> caps -> option R) :
  starts_with p s = false -> run (Cls p) s c k = None.
Proof. destruct s as [|a s]; simpl; [reflexivity|]. now intros ->. Qed.

Lemma app_assoc_str (a b c : text) : (a ++ b) ++ c = a ++ b ++ c.
Proof. symmetry. apply List.app_assoc. Qed.

Lemma app_nil_r_str (a : text) : a ++ [] = a.
Proof. apply List.app_nil_r. Qed.

Lemma consumed_app (a b : text) : consumed (a ++ b) b = a.
Proof.
  unfold consumed.
  assert (Hlen : (length (a ++ b) - length b = length a)%nat)
    by (rewrite List.length_app; lia).
  rewrite Hlen. clear Hlen. induction a as [|c a IH].
  - destruct b; reflexivity.
  - simpl. now rewrite IH.
Qed.

Lemma run_seq {R} a b s c (k : text -> caps -> option R) :
  run (Seq a b) s c k = run a s c (fun s' c' => run b s' c' k).
Proof. reflexivity. Qed.

Lemma run_opt {R} a s c (k : text -> caps -> option R) :
  run (Opt a) s c k
  = match run a s c k with Some x => Some x | None => k s c end.
Proof. reflexivity. Qed.

Lemma run_star {R} p s c (k : text -> caps -> option R) :
  run (Star p) s c k = star p s (fun s' => k s' c).
Proof. reflexivity. Qed.

Lemma run_group {R} n a s c (k : text -> caps -> option R) :
  run (Group n a) s c k
  = run a s c (fun s' c' => k s' (set_cap n (consumed s s') c')).
Proof. reflexivity. Qed.

Lemma run_cls {R} p a s c (k : text -> caps -> option R) :
  p a = true -> run (Cls p) (a :: s) c k = k s c.
Proof. simpl. now intros ->. Qed.

Lemma is_empty_true s : is_empty s = true -> s = [].
Proof. destruct s; [reflexivity | discriminate]. Qed.

(** [\s*([a-zA-Z]+)?] never fails. *)
Lemma run_unit {R} s c (k : text -> caps -> option R) :
  (forall s' c', is_Some (k s' c')) ->
  exists s',
    run (Seq (Star is_space) (Opt (Group 2 (Plus is_alpha)))) s c k
    = k s' (match unit_of s with Some u => set_cap 2 u c | None => c end).
Proof.
  intros Hk. unfold unit_of. rewrite run_seq, run_star.
  destruct (span is_space s) as [ws s1] eqn:E1.
  destruct (span is_alpha s1) as [u s2] eqn:E2.
  destruct (is_empty u) eqn:Eu.
  - apply is_empty_true in Eu. subst u. exists s1.
    destruct (Hk s1 c) as [x Hx].
    erewrite star_greedy; [symmetry; exact Hx | exact E1 |].
    rewrite run_opt, run_group, plus_fail; [exact Hx|].
    pose proof (span_app _ _ _ _ E2) as ->. rewrite text_app_nil.
    apply (span_stop _ _ _ _ E2).
  - exists s2. destruct (Hk s2 (set_cap 2 u c)) as [x Hx].
    erewrite star_greedy; [symmetry; exact Hx | exact E1 |].
    rewrite run_opt, run_group.
    erewrite plus_greedy; [reflexivity | exact E2 | exact Eu |].
    pose proof (span_app _ _ _ _ E2) as Hs1. rewrite Hs1 at 1.
    rewrite consumed_app. exact Hx.
Qed.

Lemma sign_not_digit c : is_sign c = true -> negb (is_digit c) = true.
Proof.
  intros [-> | ->]%sign_cases; reflexivity.
Qed.

Lemma sign_not_dot c : is_sign c = true -> negb (is_dot c) = true.
Proof.
  intros [-> | ->]%sign_cases; reflexivity.
Qed.

Lemma dot_not_digit c : is_dot c = true -> negb (is_digit c) = true.
Proof.
  intros ->%dot_case. reflexivity.
Qed.

Lemma digit_not_dot c : is_digit c = true -> negb (is_dot c) = true.
Proof.
  intros Hd. destruct (is_dot c) eqn:E; [|reflexivity].
  apply dot_case in E. subst c. discriminate Hd.
Qed.

Lemma opt_sign_app s sg r : opt_sign s = (sg, r) -> s = sg ++ r.
Proof.
  destruct s as [|a s]; simpl; [now intros [= <- <-]|].
  destruct (is_sign a); now intros [= <- <-].
Qed.

Lemma exponent_app s e r : exponent s = (e, r) -> s = e ++ r.
Proof.
  unfold exponent. destruct s as [|a s]; [now intros [= <- <-]|].
  destruct (is_e a); [|now intros [= <- <-]].
  destruct (opt_sign s) as [sg r1] eqn:E1.
  destruct (span is_digit r1) as [d r2] eqn:E2.
  destruct (is_empty d); intros [= <- <-]; [reflexivity|].
  rewrite text_app_cons. f_equal.
  rewrite (opt_sign_app _ _ _ E1), (span_app _ _ _ _ E2).
  now rewrite app_assoc_str.
Qed.

Lemma mantissa_app s m r : mantissa s = Some (m, r) -> s = m ++ r.
Proof.
  unfold mantissa. destruct (span is_digit s) as [d1 r1] eqn:E1.
  pose proof (span_app _ _ _ _ E1) as Hs.
  assert (Hplain : (if is_empty d1 then None else Some (d1, r1)) = Some (m, r)
                   -> s = m ++ r).
  { destruct (is_empty d1); [discriminate|]. now intros [= <- <-]. }
  destruct r1 as [|c r2]; [exact Hplain|].
  destruct (is_dot c); [|exact Hplain].
  destruct (span is_digit r2) as [d2 r3] eqn:E2.
  destruct (is_empty d2); [exact Hplain|]. intros [= <- <-].
  rewrite Hs, (span_app _ _ _ _ E2), app_assoc_str. reflexivity.
Qed.

(** [(?:[eE][-+]?\d+)?] before a continuation that cannot fail. *)
Lemma run_exponent {R} s c (k : text -> caps -> option R) :
  (forall s' c', is_Some (k s' c')) ->
  run (Opt (Seq (Cls is_e) (Seq (Opt (Cls is_sign)) (Plus is_digit)))) s c k
  = k (snd (exponent s)) c.
Proof.
  intros Hk. rewrite run_opt, run_seq. unfold exponent.
  destruct s as [|a s]; [reflexivity|].
  destruct (is_e a) eqn:Ea; [|rewrite cls_fail by exact Ea; reflexivity].
  rewrite run_cls by exact Ea. rewrite run_seq, run_opt.
  unfold opt_sign. destruct s as [|b s'].
  - simpl. reflexivity.
  - destruct (is_sign b) eqn:Eb.
    + rewrite run_cls by exact Eb.
      destruct (span is_digit s') as [d r2] eqn:E2.
      destruct (is_empty d) eqn:Ed.
      * apply is_empty_true in Ed. subst d.
        pose proof (span_app _ _ _ _ E2) as Hs'. rewrite text_app_nil in Hs'. subst r2.
        rewrite plus_fail by apply (span_stop _ _ _ _ E2).
        rewrite plus_fail; [reflexivity|].
        simpl. apply negb_true_iff. now apply sign_not_digit.
      * destruct (Hk r2 c) as [x Hx].
        erewrite plus_greedy; [|exact E2 | exact Ed | exact Hx].
        simpl. now rewrite Hx.
    + rewrite cls_fail by exact Eb.
      destruct (span is_digit (b :: s')) as [d r2] eqn:E2.
      destruct (is_empty d) eqn:Ed.
      * apply is_empty_true in Ed. subst d.
        pose proof (span_app _ _ _ _ E2) as Hs'. rewrite text_app_nil in Hs'. subst r2.
        rewrite plus_fail by apply (span_stop _ _ _ _ E2). reflexivity.
      * destruct (Hk r2 c) as [x Hx].
        erewrite plus_greedy; [|exact E2 | exact Ed | exact Hx].
        simpl. now rewrite Hx.
Qed.

Lemma snoc_cases (d : text) :
  is_empty d = false -> exists d' a, d = d' ++ [a].
Proof.
  induction d as [|c d IH]; [discriminate|]. intros _.
  destruct d as [|c' d'].
  - now exists [], c.
  - destruct (IH eq_refl) as (d0 & a & ->). now exists (c :: d0), a.
Qed.

(** [\d*\.?\d+] before a rest of the pattern that cannot fail. *)
Lemma run_mantissa {R} X s c (k : text -> caps -> option R) :
  (forall r c', is_Some (run X r c' k)) ->
  run (Seq (Star is_digit) (Seq (Opt (Cls is_dot)) (Seq (Plus is_digit) X))) s c k
  = match mantissa s with
    | Some (_, r) => run X r c k
    | None => None
    end.
Proof.
  intros HX. rewrite run_seq, run_star. unfold mantissa.
  destruct (span is_digit s) as [d1 r1] eqn:E1.
  pose proof (span_app _ _ _ _ E1) as Hs.
  pose proof (span_all _ _ _ _ E1) as Hd1.
  pose proof (span_stop _ _ _ _ E1) as Hr1.
  set (K := fun s' => run (Seq (Opt (Cls is_dot)) (Seq (Plus is_digit) X)) s' c k).
  (* the plain case: the continuation fails right after the digits *)
  assert (Hplain : K r1 = None ->
            star is_digit s K
            = match (if is_empty d1 then None else Some (d1, r1)) with
              | Some (_, r) => run X r c k
              | None => None
              end).
  { intros HK. destruct (is_empty d1) eqn:Ed.
    - apply is_empty_true in Ed. subst d1. rewrite text_app_nil in Hs. subst s.
      now rewrite star_empty.
    - destruct (snoc_cases d1 Ed) as (d' & a & ->).
      rewrite forallb_app in Hd1. apply andb_prop in Hd1 as [Hd' Ha].
      simpl in Ha. rewrite andb_true_r in Ha.
      rewrite Hs, app_assoc_str, text_app_cons, text_app_nil.
      destruct (HX r1 c) as [x Hx]. rewrite Hx.
      apply star_back; auto. unfold K.
      rewrite run_seq, run_opt, cls_fail
        by (simpl; apply negb_true_iff; now apply digit_not_dot).
      rewrite run_seq. simpl. rewrite Ha. now rewrite star_empty. }
  assert (Hnodot : forall s', starts_with is_digit s' = false ->
            run (Seq (Plus is_digit) X) s' c k = None).
  { intros s' Hs'. rewrite run_seq. now apply plus_fail. }
  destruct r1 as [|a r2].
  - apply Hplain. unfold K. rewrite run_seq, run_opt, cls_fail by reflexivity.
    now apply Hnodot.
  - destruct (is_dot a) eqn:Ea.
    + destruct (span is_digit r2) as [d2 r3] eqn:E2.
      destruct (is_empty d2) eqn:Ed2.
      * apply Hplain. unfold K. rewrite run_seq, run_opt, run_cls by exact Ea.
        apply is_empty_true in Ed2. subst d2.
        pose proof (span_app _ _ _ _ E2) as Hr2. rewrite text_app_nil in Hr2. subst r3.
        rewrite Hnodot by apply (span_stop _ _ _ _ E2).
        now apply Hnodot.
      * destruct (HX r3 c) as [x Hx]. rewrite Hx.
        eapply star_greedy; [exact E1|]. unfold K.
        rewrite run_seq, run_opt, run_cls by exact Ea.
        rewrite run_seq.
        erewrite plus_greedy; [reflexivity | exact E2 | exact Ed2 | exact Hx].
    + apply Hplain. unfold K. rewrite run_seq, run_opt, cls_fail by exact Ea.
      now apply Hnodot.
Qed.

Lemma mantissa_sign a s : is_sign a = true -> mantissa (a :: s) = None.
Proof.
  intros Ha. unfold mantissa. simpl.
  pose proof (sign_not_digit _ Ha) as Hd. apply negb_true_iff in Hd. rewrite Hd.
  pose proof (sign_not_dot _ Ha) as Hp. apply negb_true_iff in Hp. rewrite Hp.
  reflexivity.
Qed.

(** The matcher and the deterministic reading agree everywhere. *)
Theorem match_here_direct (s : text) : match_here number_re s = direct s.
Proof.
  unfold match_here, number_re, direct.
  rewrite run_seq, run_group, run_seq.
  set (K1 := fun s' c' =>
         run (Seq (Star is_space) (Opt (Group 2 (Plus is_alpha)))) s'
             (set_cap 1 (consumed s s') c')
             (fun _ c0 => Some (c0 1%nat, c0 2%nat))).
  assert (HK1 : forall s' c', is_Some (K1 s' c')).
  { intros s' c'. unfold K1.
    destruct (run_unit s' (set_cap 1 (consumed s s') c')
                (fun _ c0 => Some (c0 1%nat, c0 2%nat))) as [s'' ->]; eauto. }
  set (X := Opt (Seq (Cls is_e) (Seq (Opt (Cls is_sign)) (Plus is_digit)))).
  assert (HX : forall r c', is_Some (run X r c' K1)).
  { intros r c'. unfold X. rewrite run_exponent by exact HK1. apply HK1. }
  assert (Hend : forall s3, s = consumed s s3 ++ s3 ->
             K1 s3 no_caps = Some (Some (consumed s s3), unit_of s3)).
  { intros s3 _. unfold K1.
    destruct (run_unit s3 (set_cap 1 (consumed s s3) no_caps)
                (fun _ c0 => Some (c0 1%nat, c0 2%nat))) as [s'' ->]; [eauto|].
    destruct (unit_of s3); reflexivity. }
  assert (Hman : forall sg s1, s = sg ++ s1 ->
            run (Seq (Star is_digit) (Seq (Opt (Cls is_dot)) (Seq (Plus is_digit) X)))
                s1 no_caps K1
            = match mantissa s1 with
              | Some (m, s2) =>
                  let '(e, s3) := exponent s2 in
                  Some (Some (sg ++ m ++ e), unit_of s3)
              | None => None
              end).
  { intros sg s1 Hs. rewrite run_mantissa by exact HX.
    destruct (mantissa s1) as [[m s2]|] eqn:Em; [|reflexivity].
    unfold X. rewrite run_exponent by exact HK1.
    destruct (exponent s2) as [e s3] eqn:Ee. simpl.
    assert (Hc : consumed s s3 = sg ++ m ++ e).
    { rewrite Hs, (mantissa_app _ _ _ Em), (exponent_app _ _ _ Ee).
      rewrite <- (app_assoc_str m e s3), <- (app_assoc_str sg (m ++ e) s3).
      apply consumed_app. }
    rewrite Hend by (rewrite Hc, Hs, (mantissa_app _ _ _ Em), (exponent_app _ _ _ Ee);
                     now rewrite !app_assoc_str).
    now rewrite Hc. }
  rewrite run_opt. unfold opt_sign. destruct s as [|a s'].
  - rewrite cls_fail by reflexivity. now apply (Hman [] []).
  - destruct (is_sign a) eqn:Ea.
    + rewrite run_cls by exact Ea.
      rewrite (Hman [a] s') by reflexivity.
      destruct (mantissa s') as [[m s2]|]; [now destruct (exponent s2)|].
      rewrite (Hman [] (a :: s')) by reflexivity.
      now rewrite mantissa_sign.
    + rewrite cls_fail by exact Ea. now apply (Hman [] (a :: s')).
Qed.
End ReFacts.


(** ** Numeric tokens and [parse_float] *)

Module UtilsFacts.
Import PyUnicode Re Utils Tokens ReFacts.
Local Open Scope list_scope.

Lemma e_not_digit c : is_e c = true -> negb (is_digit c) = true.
Proof. intros [-> | ->]%e_cases; reflexivity. Qed.

Lemma e_not_dot c : is_e c = true -> negb (is_dot c) = true.
Proof. intros [-> | ->]%e_cases; reflexivity. Qed.

Lemma e_not_sign c : is_e c = true -> negb (is_sign c) = true.
Proof. intros [-> | ->]%e_cases; reflexivity. Qed.

Lemma digit_not_sign c : is_digit c = true -> negb (is_sign c) = true.
Proof.
  intros Hd. destruct (is_sign c) eqn:E; [|reflexivity].
  apply sign_cases in E as [-> | ->]; discriminate Hd.
Qed.

Lemma space_not_digit c : is_space c = true -> negb (is_digit c) = true.
Proof. apply (spaces_all (fun c => negb (is_digit c))). vm_compute. reflexivity. Qed.

Lemma digit_not_space c : is_digit c = true -> not_space c = true.
Proof.
  intros Hd. unfold not_space. destruct (is_space c) eqn:E; [|reflexivity].
  apply space_not_digit in E. now rewrite Hd in E.
Qed.

Lemma e_not_space c : is_e c = true -> not_space c = true.
Proof. intros [-> | ->]%e_cases; reflexivity. Qed.

Lemma forallb_impl (p q : N -> bool) (s : text) :
  (forall c, p c = true -> q c = true) -> forallb p s = true -> forallb q s = true.
Proof.
  intros Hpq. induction s as [|c s IH]; simpl; [reflexivity|].
  intros [Hc Hs]%andb_prop. now rewrite (Hpq c Hc), IH.
Qed.

Lemma text_rstrip_not_space s : forallb not_space s = true -> rstrip s = s.
Proof.
  induction s as [|c s IH]; simpl; [reflexivity|].
  intros [Hc Hs]%andb_prop. rewrite (IH Hs).
  apply negb_true_iff in Hc. rewrite Hc. now destruct s.
Qed.

Lemma text_strip_not_space s : forallb not_space s = true -> strip s = s.
Proof.
  intros Hs. unfold strip.
  assert (Hl : lstrip s = s).
  { destruct s as [|c s]; [reflexivity|]. simpl in *.
    apply andb_prop in Hs as [Hc _]. apply negb_true_iff in Hc. now rewrite Hc. }
  rewrite Hl. now apply text_rstrip_not_space.
Qed.

Lemma starts_with_app p (a b : text) :
  starts_with p (a ++ b)
  = if is_empty a then starts_with p b else starts_with p a.
Proof. destruct a; reflexivity. Qed.

Lemma digits_nonempty_start d :
  digits d = true -> is_empty d = false -> starts_with is_digit d = true.
Proof.
  destruct d as [|c d]; [discriminate|]. unfold digits. simpl.
  now intros [-> _]%andb_prop.
Qed.

Lemma starts_false p q s :
  (forall c, p c = true -> negb (q c) = true) ->
  starts_with p s = true -> starts_with q s = false.
Proof.
  intros Hpq. destruct s as [|c s]; simpl; [discriminate|].
  intros Hc. apply negb_true_iff. now apply Hpq.
Qed.

Lemma opt_sign_text sg s :
  starts_with is_sign s = false ->
  opt_sign (sign_text sg ++ s) = (sign_text sg, s).
Proof.
  intros Hs. destruct sg as [[|]|]; try reflexivity.
  simpl. rewrite ?text_app_nil. destruct s as [|c s]; [reflexivity|].
  simpl in *. now rewrite Hs.
Qed.

Lemma take_sign_text sg s :
  starts_with is_sign s = false ->
  take_sign (sign_text sg ++ s) = (is_neg sg, s).
Proof.
  intros Hs. destruct sg as [[|]|]; try reflexivity.
  simpl. rewrite ?text_app_nil. destruct s as [|c s]; [reflexivity|].
  simpl in *. unfold is_sign in Hs. apply orb_false_elim in Hs as [-> ->].
  reflexivity.
Qed.

(** The parts of a well-formed token. *)
Lemma wf_parts t :
  wf t = true ->
  digits (t_int t) = true
  /\ match t_frac t with
     | Some f => is_empty f = false /\ digits f = true
     | None => is_empty (t_int t) = false
     end
  /\ match t_exp t with
     | Some (c, _, d) => is_e c = true /\ is_empty d = false /\ digits d = true
     | None => True
     end.
Proof.
  unfold wf. intros [[Hi Hf]%andb_prop He]%andb_prop. split; [exact Hi|]. split.
  - destruct (t_frac t); [|now apply negb_true_iff].
    apply andb_prop in Hf as [Hf1 Hf2]. now apply negb_true_iff in Hf1.
  - destruct (t_exp t) as [[[c sg] d]|]; [|exact I].
    apply andb_prop in He as [[He1 He2]%andb_prop He3].
    now apply negb_true_iff in He2.
Qed.

(** After the sign a token starts with a digit or with the point. *)
Lemma body_not_sign t rest :
  wf t = true ->
  starts_with is_sign (t_int t ++ frac_text (t_frac t) ++ rest) = false.
Proof.
  intros (Hi & Hf & _)%wf_parts. rewrite starts_with_app.
  destruct (is_empty (t_int t)) eqn:Ei.
  - destruct (t_frac t); [reflexivity | discriminate].
  - apply (starts_false is_digit); [apply digit_not_sign|].
    now apply digits_nonempty_start.
Qed.

Lemma exp_not_digit e rest :
  match e with Some (c, _, _) => is_e c = true | None => True end ->
  starts_with is_digit rest = false ->
  starts_with is_digit (exp_text e ++ rest) = false.
Proof.
  destruct e as [[[c sg] d]|]; simpl; [|now rewrite ?text_app_nil].
  intros Hc _. apply negb_true_iff. now apply e_not_digit.
Qed.

(** [direct] reads a token that ends where it stands, whole. *)
Lemma direct_token t after :
  wf t = true -> ends_token t after = true ->
  direct (text_of t ++ after) = Some (Some (text_of t), unit_of after).
Proof.
  intros Hwf Hend. pose proof (wf_parts t Hwf) as (Hi & Hf & He).
  unfold ends_token in Hend. apply andb_prop in Hend as [Hnd Hend].
  apply negb_true_iff in Hnd.
  unfold direct, text_of. rewrite !app_assoc_str.
  rewrite opt_sign_text by now apply body_not_sign.
  assert (Hexp : exponent (exp_text (t_exp t) ++ after) = (exp_text (t_exp t), after)).
  { destruct (t_exp t) as [[[c sg] d]|] eqn:Ee.
    - destruct He as (Hc & Hd1 & Hd2). unfold exp_text. rewrite text_app_cons.
      unfold exponent. rewrite Hc, app_assoc_str.
      rewrite opt_sign_text.
      + rewrite span_intro by assumption. now rewrite Hd1.
      + rewrite starts_with_app, Hd1.
        apply (starts_false is_digit); [apply digit_not_sign|].
        now apply digits_nonempty_start.
    - simpl. rewrite ?text_app_nil. unfold exponent.
      destruct after as [|c r]; [reflexivity|].
      destruct (is_e c) eqn:Ec; [|reflexivity].
      simpl in Hend. rewrite andb_true_r in Hend.
      apply andb_prop in Hend as [_ Hend].
      apply negb_true_iff in Hend. rewrite andb_true_r in Hend.
      destruct (opt_sign r) as [sg r1]. simpl in Hend.
      destruct r1 as [|c1 r1']; [reflexivity|]. simpl in *. now rewrite Hend. }
  assert (Hman : mantissa (t_int t ++ frac_text (t_frac t) ++ exp_text (t_exp t) ++ after)
                 = Some (t_int t ++ frac_text (t_frac t),
                         exp_text (t_exp t) ++ after)).
  { unfold mantissa.
    assert (Hx : starts_with is_digit (exp_text (t_exp t) ++ after) = false).
    { apply exp_not_digit; [|exact Hnd].
      destruct (t_exp t) as [[[c sg] d]|]; [apply He | exact I]. }
    destruct (t_frac t) as [f|] eqn:Efr.
    - destruct Hf as [Hf1 Hf2]. unfold frac_text. rewrite text_app_cons.
      rewrite span_intro; [|exact Hi | reflexivity].
      change (is_dot 46) with true. cbv iota.
      rewrite span_intro by assumption. now rewrite Hf1.
    - unfold frac_text. rewrite ?text_app_nil.
      rewrite span_intro by assumption. rewrite Hf, app_nil_r_str.
      destruct (exp_text (t_exp t) ++ after) as [|c r] eqn:Er; [reflexivity|].
      destruct (is_dot c) eqn:Ec; [|reflexivity].
      destruct (t_exp t) as [[[c0 sg] d]|] eqn:Ee.
      + exfalso. destruct He as (Hc0 & _). simpl in Er.
        injection Er as -> _. apply e_not_dot in Hc0. rewrite Ec in Hc0. discriminate.
      + simpl in Er. rewrite ?text_app_nil in Er. subst after. simpl in Hend.
        rewrite Ec in Hend. rewrite !andb_true_r in Hend.
        apply andb_prop in Hend as [Hend _]. apply negb_true_iff in Hend.
        destruct r as [|c1 r']; [reflexivity|]. simpl in *. now rewrite Hend. }
  rewrite Hman, Hexp. now rewrite !app_assoc_str.
Qed.
(** *** Before the first token *)

Lemma mantissa_none s :
  starts_with is_digit s = false ->
  (starts_with is_dot s = true -> starts_with is_digit (tl s) = false) ->
  mantissa s = None.
Proof.
  intros Hs Hdot. unfold mantissa. destruct s as [|a s']; [reflexivity|].
  simpl in Hs. simpl. rewrite Hs. destruct (is_dot a) eqn:Ea; [|reflexivity].
  specialize (Hdot Ea). destruct s' as [|b s'']; [reflexivity|].
  simpl in *. now rewrite Hdot.
Qed.

Lemma starts_span p s d r :
  span p s = (d, r) -> starts_with p s = negb (is_empty d).
Proof.
  destruct s as [|c s]; simpl; [now intros [= <- <-]|].
  destruct (p c); [destruct (span p s)|]; now intros [= <- <-].
Qed.

(** A token starts with a digit only when it has no sign and has digits
    before the point; it starts with the point only when it has no
    sign. *)
Lemma token_start_digit t after :
  wf t = true -> starts_with is_digit (text_of t ++ after) = true ->
  t_sign t = None /\ is_empty (t_int t) = false.
Proof.
  intros (_ & Hf & _)%wf_parts. unfold text_of.
  destruct (t_sign t) as [[|]|]; [discriminate | discriminate |].
  destruct (t_int t) as [|c d]; [|auto].
  destruct (t_frac t); [discriminate | discriminate].
Qed.

Lemma token_start_dot t after :
  starts_with is_dot (text_of t ++ after) = true -> t_sign t = None.
Proof.
  unfold text_of. now destruct (t_sign t) as [[|]|].
Qed.

Lemma starts_digit_app r tail :
  forallb (fun c => negb (is_digit c)) r = true ->
  starts_with is_digit (r ++ tail) = true ->
  r = [] /\ starts_with is_digit tail = true.
Proof.
  destruct r as [|c r]; simpl; [auto|].
  intros [Hc _]%andb_prop E. rewrite E in Hc. discriminate.
Qed.

Lemma before_tail c r t : before (c :: r) t = true -> before r t = true.
Proof.
  destruct r as [|c2 r']; [reflexivity|]. unfold before.
  change (ends_with is_sign (c :: c2 :: r')) with (ends_with is_sign (c2 :: r')).
  change (ends_with is_dot (c :: c2 :: r')) with (ends_with is_dot (c2 :: r')).
  cbn [forallb]. intros [[[_ H1]%andb_prop H2]%andb_prop H3]%andb_prop.
  now rewrite H1, H2, H3.
Qed.

(** No match starts inside the text before the token. *)
Lemma direct_before c r t after :
  before (c :: r) t = true -> wf t = true ->
  direct ((c :: r) ++ text_of t ++ after) = None.
Proof.
  intros Hb Hwf. unfold before in Hb.
  apply andb_prop in Hb as [[Hnd Hs]%andb_prop Hp].
  cbn [forallb] in Hnd. apply andb_prop in Hnd as [Hc Hr].
  apply negb_true_iff in Hc.
  set (T := text_of t ++ after) in *.
  assert (HT : starts_with is_digit T = true ->
               t_sign t = None /\ is_empty (t_int t) = false)
    by (now apply token_start_digit).
  unfold direct. rewrite text_app_cons. unfold opt_sign.
  destruct (is_sign c) eqn:Es.
  - rewrite mantissa_none; [reflexivity | |].
    + destruct (starts_with is_digit (r ++ T)) eqn:E; [|reflexivity].
      apply starts_digit_app in E as [-> E]; [|exact Hr].
      destruct (HT E) as [Hsg _]. rewrite Hsg in Hs. cbn in Hs.
      rewrite Es in Hs. discriminate.
    + intros Hdot. destruct r as [|c2 r'].
      * apply token_start_dot in Hdot. rewrite Hdot in Hs. cbn in Hs.
        rewrite Es in Hs. discriminate.
      * cbn in Hdot. cbn [tl app]. cbn [forallb] in Hr.
        apply andb_prop in Hr as [_ Hr'].
        destruct (starts_with is_digit (r' ++ T)) eqn:E; [|reflexivity].
        apply starts_digit_app in E as [-> E]; [|exact Hr'].
        destruct (HT E) as [Hsg Hint]. rewrite Hsg, Hint in Hp. cbn in Hp.
        rewrite Hdot in Hp. discriminate.
  - rewrite mantissa_none; [reflexivity | exact Hc |].
    cbn. intros Hdot.
    destruct (starts_with is_digit (r ++ T)) eqn:E; [|reflexivity].
    apply starts_digit_app in E as [-> E]; [|exact Hr].
    destruct (HT E) as [Hsg Hint]. rewrite Hsg, Hint in Hp. cbn in Hp.
    rewrite Hdot in Hp. discriminate.
Qed.

Lemma search_direct s :
  search number_re s
  = match direct s with
    | Some m => Some m
    | None => match s with
              | _ :: s' => search number_re s'
              | [] => None
              end
    end.
Proof. destruct s; cbn [search]; now rewrite match_here_direct. Qed.

(** The search passes over the text before the token. *)
Lemma search_before pre t after :
  before pre t = true -> wf t = true ->
  search number_re (pre ++ text_of t ++ after)
  = search number_re (text_of t ++ after).
Proof.
  induction pre as [|c r IH]; intros Hb Hwf; [reflexivity|].
  rewrite search_direct, direct_before by assumption.
  rewrite text_app_cons. apply IH; [|exact Hwf]. now apply before_tail with c.
Qed.

Lemma all_not_digit_quiet_search s :
  forallb (fun c => negb (is_digit c)) s = true -> search number_re s = None.
Proof.
  induction s as [|c s IH]; intros Hs.
  - reflexivity.
  - simpl in Hs. apply andb_prop in Hs as [Hc Hs].
    rewrite search_direct.
    assert (Hd : direct (c :: s) = None).
    { unfold direct, opt_sign, mantissa. apply negb_true_iff in Hc.
      assert (Hspan : forall x, forallb (fun c => negb (is_digit c)) x = true ->
                span is_digit x = ([], x)).
      { intros [|a x]; [reflexivity|]. simpl.
        intros [Ha _]%andb_prop. apply negb_true_iff in Ha. now rewrite Ha. }
      destruct (is_sign c).
      - rewrite (Hspan s Hs). destruct s as [|a s']; [reflexivity|].
        destruct (is_dot a); [|reflexivity].
        simpl in Hs. apply andb_prop in Hs as [_ Hs]. now rewrite (Hspan s' Hs).
      - rewrite (Hspan (c :: s)) by (simpl; now rewrite Hc, Hs).
        destruct (is_dot c); [|reflexivity]. now rewrite (Hspan s Hs). }
    rewrite Hd. now apply IH.
Qed.

Lemma opt_sign_cases s sg r : opt_sign s = (sg, r) -> exists b, sg = sign_text b.
Proof.
  unfold opt_sign. destruct s as [|c s]; [intros [= <- <-]; now exists None|].
  destruct (is_sign c) eqn:Ec; [|intros [= <- <-]; now exists None].
  intros [= <- <-]. apply sign_cases in Ec as [-> | ->];
    [now exists (Some true) | now exists (Some false)].
Qed.

(** Whatever [direct] captures is a well-formed token, taken whole. *)
Lemma direct_is_token s g1 g2 :
  direct s = Some (g1, g2) ->
  exists t after,
    wf t = true /\ g1 = Some (text_of t) /\ s = text_of t ++ after
    /\ g2 = unit_of after /\ ends_token t after = true.
Proof.
  unfold direct. destruct (opt_sign s) as [sg s1] eqn:Es.
  destruct (mantissa s1) as [[m s2]|] eqn:Em; [|discriminate].
  destruct (exponent s2) as [e s3] eqn:Ee. intros [= <- <-].
  destruct (opt_sign_cases _ _ _ Es) as [b ->].
  (* the mantissa *)
  assert (Hm : exists ip fp,
             m = ip ++ frac_text fp /\ digits ip = true
             /\ match fp with
                | Some f => is_empty f = false /\ digits f = true
                | None => is_empty ip = false
                end
             /\ starts_with is_digit s2 = false
             /\ (fp = None -> forall c r, s2 = c :: r -> is_dot c = true ->
                 starts_with is_digit r = false)).
  { unfold mantissa in Em. destruct (span is_digit s1) as [d1 r1] eqn:E1.
    pose proof (span_all _ _ _ _ E1) as Hd1.
    pose proof (span_stop _ _ _ _ E1) as Hr1.
    assert (Hplain :
              (forall c r, r1 = c :: r -> is_dot c = true ->
                           starts_with is_digit r = false) ->
              (if is_empty d1 then None else Some (d1, r1)) = Some (m, s2) ->
               exists ip fp,
                 m = ip ++ frac_text fp /\ digits ip = true
                 /\ match fp with
                    | Some f => is_empty f = false /\ digits f = true
                    | None => is_empty ip = false
                    end
                 /\ starts_with is_digit s2 = false
                 /\ (fp = None -> forall c r, s2 = c :: r -> is_dot c = true ->
                     starts_with is_digit r = false)).
    { intros Hdot. destruct (is_empty d1) eqn:Ed; [discriminate|]. intros [= <- <-].
      exists d1, None. simpl. rewrite app_nil_r_str. repeat split; auto. }
    destruct r1 as [|c r2]; [apply Hplain; [intros; discriminate | exact Em]|].
    destruct (is_dot c) eqn:Ec;
      [|apply Hplain; [intros c0 r0 [= <- <-]; congruence | exact Em]].
    destruct (span is_digit r2) as [d2 r3] eqn:E2.
    destruct (is_empty d2) eqn:Ed2.
    - apply Hplain; [|exact Em]. intros c0 r0 [= <- <-] _.
      now rewrite (starts_span _ _ _ _ E2), Ed2.
    - injection Em as <- <-. apply dot_case in Ec. subst c.
      exists d1, (Some d2). repeat split; auto.
      + apply (span_all _ _ _ _ E2).
      + apply (span_stop _ _ _ _ E2).
      + discriminate. }
  destruct Hm as (ip & fp & -> & Hip & Hfp & Hs2 & Hdot).
  (* the exponent *)
  assert (He : exists ep,
             e = exp_text ep
             /\ match ep with
                | Some (c, _, d) => is_e c = true /\ is_empty d = false /\ digits d = true
                | None => True
                end
             /\ match ep with
                | Some _ => starts_with is_digit s3 = false
                | None => s3 = s2
                          /\ forall c r, s2 = c :: r -> is_e c = true ->
                             starts_with is_digit (snd (opt_sign r)) = false
                end).
  { unfold exponent in Ee.
    destruct s2 as [|c r];
      [injection Ee as <- <-; exists None; repeat split; intros; discriminate|].
    destruct (is_e c) eqn:Ec;
      [|injection Ee as <- <-; exists None; repeat split;
        intros c0 r0 [= <- <-]; congruence].
    destruct (opt_sign r) as [sg' r1] eqn:Es'.
    destruct (span is_digit r1) as [d r2] eqn:Ed.
    destruct (is_empty d) eqn:Ede; injection Ee as <- <-.
    - exists None. repeat split. intros c0 r0 [= <- <-] _.
      rewrite Es'. cbn [snd]. now rewrite (starts_span _ _ _ _ Ed), Ede.
    - destruct (opt_sign_cases _ _ _ Es') as [b' ->].
      exists (Some (c, b', d)). repeat split; auto.
      + apply (span_all _ _ _ _ Ed).
      + apply (span_stop _ _ _ _ Ed). }
  destruct He as (ep & -> & Hep & Hs3).
  exists {| t_sign := b; t_int := ip; t_frac := fp; t_exp := ep |}, s3.
  split; [|split; [|split; [|split; [reflexivity|]]]].
  - unfold wf. simpl. rewrite Hip. simpl.
    apply andb_true_intro. split.
    + destruct fp; [destruct Hfp as [-> ->] | rewrite Hfp]; reflexivity.
    + destruct ep as [[[c sg'] d]|]; [|reflexivity].
      destruct Hep as (-> & -> & ->). reflexivity.
  - unfold text_of. simpl. now rewrite !app_assoc_str.
  - rewrite (opt_sign_app _ _ _ Es), (mantissa_app _ _ _ Em), (exponent_app _ _ _ Ee).
    unfold text_of. simpl. now rewrite !app_assoc_str.
  - unfold ends_token. cbn [t_frac t_exp].
    assert (Hnd : starts_with is_digit s3 = false).
    { destruct ep; [exact Hs3 | destruct Hs3 as [-> _]; exact Hs2]. }
    rewrite Hnd. cbn [negb andb]. destruct s3 as [|c r]; [reflexivity|].
    apply andb_true_intro. split; apply negb_true_iff.
    + destruct fp as [f|]; [cbn; now rewrite andb_false_r|].
      destruct ep as [x|]; [cbn; now rewrite andb_false_r|].
      destruct Hs3 as [Heq _].
      destruct (is_dot c) eqn:Ec; [|reflexivity].
      now rewrite (Hdot eq_refl c r (eq_sym Heq) Ec).
    + destruct ep as [x|]; [cbn; now rewrite andb_false_r|].
      destruct Hs3 as [Heq Hexp].
      destruct (is_e c) eqn:Ec; [|reflexivity].
      now rewrite (Hexp c r (eq_sym Heq) Ec).
Qed.

Lemma token_not_space t : wf t = true -> forallb not_space (text_of t) = true.
Proof.
  intros (Hi & Hf & He)%wf_parts. unfold text_of. rewrite !forallb_app.
  assert (Hd : forall d, digits d = true -> forallb not_space d = true)
    by (intros d; apply forallb_impl, digit_not_space).
  assert (Hs : forall sg, forallb not_space (sign_text sg) = true)
    by (intros [[|]|]; reflexivity).
  rewrite Hs, (Hd _ Hi). simpl.
  apply andb_true_intro. split.
  - destruct (t_frac t); [|reflexivity]. simpl. now apply Hd.
  - destruct (t_exp t) as [[[c sg] d]|]; [|reflexivity].
    destruct He as (Hc & _ & Hdd). simpl.
    rewrite forallb_app, Hs, (Hd _ Hdd), (e_not_space _ Hc). reflexivity.
Qed.

Section WithFloat.
Context {F : Type} `{PyFloat F}.

(** [float] of a token is the number the token writes. *)
Lemma float_of_token t : wf t = true -> float_of_str (text_of t) = Some (value t).
Proof.
  intros Hwf. pose proof (wf_parts t Hwf) as (Hi & Hf & He).
  unfold float_of_str. rewrite text_strip_not_space by now apply token_not_space.
  unfold text_of.
  rewrite take_sign_text by now apply body_not_sign.
  assert (Hx : starts_with is_digit (exp_text (t_exp t)) = false).
  { rewrite <- (app_nil_r_str (exp_text (t_exp t))). apply exp_not_digit; [|reflexivity].
    destruct (t_exp t) as [[[c sg] d]|]; [apply He | exact I]. }
  assert (Hspan : span is_digit (t_int t ++ frac_text (t_frac t) ++ exp_text (t_exp t))
                  = (t_int t, frac_text (t_frac t) ++ exp_text (t_exp t))).
  { apply span_intro; [exact Hi|].
    destruct (t_frac t); [reflexivity|]. simpl. now rewrite ?text_app_nil. }
  rewrite Hspan.
  assert (Hfrac :
    match frac_text (t_frac t) ++ exp_text (t_exp t) with
    | (c :: r) =>
        if is_dot c then span is_digit r
        else ([], frac_text (t_frac t) ++ exp_text (t_exp t))
    | [] => ([], frac_text (t_frac t) ++ exp_text (t_exp t))
    end = (frac_digits (t_frac t), exp_text (t_exp t))).
  { destruct (t_frac t) as [f|].
    - destruct Hf as [_ Hf]. simpl. now apply span_intro.
    - simpl. rewrite ?text_app_nil. destruct (t_exp t) as [[[c sg] d]|]; [|reflexivity].
      destruct He as (Hc & _). simpl.
      apply e_not_dot, negb_true_iff in Hc. now rewrite Hc. }
  unfold text in *. rewrite Hfrac.
  assert (Hne : (is_empty (t_int t) && is_empty (frac_digits (t_frac t)))%bool = false).
  { destruct (t_frac t); simpl.
    - destruct Hf as [-> _]. apply andb_false_r.
    - now rewrite Hf. }
  rewrite Hne. unfold value.
  destruct (t_exp t) as [[[c sg] d]|].
  - destruct He as (Hc & Hd1 & Hd2). simpl exp_text. cbv iota. rewrite Hc.
    rewrite take_sign_text
      by (apply (starts_false is_digit); [apply digit_not_sign|];
          now apply digits_nonempty_start).
    rewrite <- (app_nil_r_str d) at 1.
    rewrite span_intro by (exact Hd2 || reflexivity).
    rewrite Hd1. reflexivity.
  - reflexivity.
Qed.

End WithFloat.

Lemma forallb_lstrip p s : forallb p s = true -> forallb p (lstrip s) = true.
Proof.
  induction s as [|c s IH]; simpl; [reflexivity|].
  intros [Hc Hs]%andb_prop. destruct (is_space c); [now apply IH|].
  simpl. now rewrite Hc, Hs.
Qed.

Lemma forallb_rstrip p s : forallb p s = true -> forallb p (rstrip s) = true.
Proof.
  induction s as [|c s IH]; simpl; [reflexivity|].
  intros [Hc Hs]%andb_prop. specialize (IH Hs).
  destruct (rstrip s) as [|c' r].
  - destruct (is_space c); simpl; [reflexivity | now rewrite Hc].
  - simpl in *. now rewrite Hc, IH.
Qed.

(** Stripping takes away blanks only. *)
Lemma existsb_lstrip (p : N -> bool) s :
  (forall c, is_space c = true -> p c = false) ->
  existsb p (lstrip s) = existsb p s.
Proof.
  intros Hp. induction s as [|c s IH]; simpl; [reflexivity|].
  destruct (is_space c) eqn:Ec; [|reflexivity]. now rewrite (Hp c Ec).
Qed.

Lemma existsb_rstrip (p : N -> bool) s :
  (forall c, is_space c = true -> p c = false) ->
  existsb p (rstrip s) = existsb p s.
Proof.
  intros Hp. induction s as [|c s IH]; simpl; [reflexivity|].
  destruct (rstrip s) as [|c' r].
  - simpl in IH. rewrite <- IH.
    destruct (is_space c) eqn:Ec; simpl; [now rewrite (Hp c Ec) | reflexivity].
  - cbn [existsb] in *. now rewrite IH.
Qed.

Lemma existsb_digit_strip s : existsb is_digit (strip s) = existsb is_digit s.
Proof.
  assert (Hp : forall c, is_space c = true -> is_digit c = false)
    by (intros c Hc; apply negb_true_iff; now apply space_not_digit).
  unfold strip. now rewrite existsb_rstrip, existsb_lstrip.
Qed.

Lemma forallb_not_existsb (p : N -> bool) s :
  forallb (fun c => negb (p c)) s = negb (existsb p s).
Proof.
  induction s as [|c s IH]; simpl; [reflexivity|].
  rewrite IH. now destruct (p c).
Qed.

Lemma search_some s m :
  search number_re s = Some m -> exists s', direct s' = Some m.
Proof.
  induction s as [|c s IH]; rewrite search_direct.
  - destruct (direct []) eqn:E; [intros [= <-]; eauto | discriminate].
  - destruct (direct (c :: s)) eqn:E; [intros [= <-]; eauto | exact IH].
Qed.

Lemma token_nonempty t : wf t = true -> is_empty (text_of t) = false.
Proof.
  intros (Hi & Hf & _)%wf_parts. unfold text_of.
  destruct (t_sign t) as [[|]|]; try reflexivity. simpl.
  destruct (t_int t) as [|c d]; [|reflexivity].
  destruct (t_frac t); [reflexivity | discriminate].
Qed.

Lemma is_empty_app (a b : text) : is_empty (a ++ b) = (is_empty a && is_empty b)%bool.
Proof. destruct a; reflexivity. Qed.

Lemma space_neutral c : is_space c = true -> neutral c = true.
Proof. apply (spaces_all neutral). vm_compute. reflexivity. Qed.

Lemma lower_char_cases c x :
  lower_char c = x -> c = x \/ (c + 32 = x)%N.
Proof. unfold lower_char. destruct (is_upper c); auto. Qed.

Lemma unit_initial_neutral c : unit_initial c = true -> neutral c = true.
Proof.
  unfold unit_initial. rewrite !orb_true_iff, !N.eqb_eq.
  intros [[[E|E]|E]|E]; apply lower_char_cases in E as [-> | E];
    try reflexivity;
    match type of E with
    | (c + 32 = ?x)%N => assert (c = x - 32)%N as -> by lia
    end; reflexivity.
Qed.

Lemma alpha_not_space c : is_alpha c = true -> negb (is_space c) = true.
Proof.
  intros Ha. destruct (is_space c) eqn:E; [|reflexivity].
  assert (Hn : negb (is_alpha c) = true)
    by (revert E; apply (spaces_all (fun c => negb (is_alpha c))); vm_compute; reflexivity).
  now rewrite Ha in Hn.
Qed.

Lemma alpha_of_lower c : is_alpha (lower_char c) = true -> is_alpha c = true.
Proof.
  unfold lower_char, is_alpha. destruct (is_upper c) eqn:E; [reflexivity|].
  now rewrite E.
Qed.

Lemma all_alpha_of_lower s : forallb is_alpha (lower s) = true -> forallb is_alpha s = true.
Proof.
  induction s as [|c s IH]; simpl; [reflexivity|].
  intros [Hc Hs]%andb_prop. now rewrite (alpha_of_lower _ Hc), IH.
Qed.

Lemma ends_token_neutral t after :
  starts_with neutral after = true -> ends_token t after = true.
Proof.
  destruct after as [|c r]; [discriminate|]. simpl. unfold neutral.
  intros Hn. apply negb_true_iff in Hn.
  apply orb_false_elim in Hn as [Hn He]. apply orb_false_elim in Hn as [Hd Hp].
  unfold ends_token. simpl. now rewrite Hd, Hp, He.
Qed.

Lemma unit_of_suffix ws suf rest :
  forallb is_space ws = true -> forallb is_alpha suf = true ->
  is_empty suf = false -> starts_with is_alpha rest = false ->
  unit_of (ws ++ suf ++ rest) = Some suf.
Proof.
  intros Hws Hsuf Hne Hrest. unfold unit_of.
  rewrite span_intro; [|exact Hws|].
  - rewrite span_intro by assumption. now rewrite Hne.
  - destruct suf as [|c s]; [discriminate|]. simpl.
    simpl in Hsuf. apply andb_prop in Hsuf as [Hc _].
    apply negb_true_iff. now apply alpha_not_space.
Qed.

(** *** Every text with a digit has a first token *)

Lemma direct_digit c s : is_digit c = true -> direct (c :: s) <> None.
Proof.
  intros Hc. unfold direct, opt_sign.
  pose proof (digit_not_sign _ Hc) as Hs. apply negb_true_iff in Hs. rewrite Hs.
  unfold mantissa. cbn [span]. rewrite Hc.
  destruct (span is_digit s) as [d r]. cbn [is_empty].
  destruct r as [|a r2];
    [|destruct (is_dot a);
      [destruct (span is_digit r2) as [d2 r3]; destruct (is_empty d2)|]];
    now destruct (exponent _).
Qed.

Lemma direct_dot_digit s :
  starts_with is_digit s = true -> direct (46%N :: s) <> None.
Proof.
  intros Hs. unfold direct, opt_sign. change (is_sign 46) with false. cbv iota.
  unfold mantissa. cbn [span]. change (is_digit 46) with false. cbv iota.
  change (is_dot 46) with true. cbv iota.
  destruct (span is_digit s) as [d2 r3] eqn:E2.
  rewrite (starts_span _ _ _ _ E2) in Hs. apply negb_true_iff in Hs. rewrite Hs.
  now destruct (exponent _).
Qed.

Lemma first_token s :
  existsb is_digit s = true ->
  exists pre t after,
    s = pre ++ text_of t ++ after
    /\ before pre t = true /\ wf t = true /\ ends_token t after = true.
Proof.
  induction s as [|c s IH]; [discriminate|]. intros Hex.
  destruct (direct (c :: s)) as [[g1 g2]|] eqn:D.
  - destruct (direct_is_token _ _ _ D) as (t & after & Hwf & _ & Hs & _ & Hend).
    now exists [], t, after.
  - assert (Hc : is_digit c = false).
    { destruct (is_digit c) eqn:E; [|reflexivity]. now apply direct_digit in D. }
    cbn [existsb] in Hex. rewrite Hc in Hex.
    destruct (IH Hex) as (pre & t & after & Hs & Hb & Hwf & Hend).
    exists (c :: pre), t, after. rewrite text_app_cons, <- Hs.
    split; [reflexivity|]. split; [|auto].
    destruct pre as [|c2 r].
    + unfold before. cbn. rewrite Hc. cbn.
      apply andb_true_intro. split.
      * destruct (is_sign c) eqn:Es; [|reflexivity].
        destruct (t_sign t) as [b|] eqn:Et; [reflexivity|]. exfalso.
        set (t' := {| t_sign := Some (N.eqb c 45); t_int := t_int t;
                      t_frac := t_frac t; t_exp := t_exp t |}).
        assert (Ht' : text_of t' = c :: text_of t).
        { unfold text_of, t'. cbn. rewrite Et.
          apply sign_cases in Es as [-> | ->]; reflexivity. }
        pose proof (direct_token t' after Hwf Hend) as Hd.
        change ([] ++ text_of t ++ after) with (text_of t ++ after) in Hs.
        rewrite Ht', text_app_cons, <- Hs in Hd. congruence.
      * destruct (is_dot c) eqn:Ed; [|reflexivity].
        destruct (t_sign t) as [b|] eqn:Et; [reflexivity|].
        destruct (is_empty (t_int t)) eqn:Ei; [reflexivity|]. exfalso.
        apply dot_case in Ed. subst c. revert D. apply direct_dot_digit.
        change ([] ++ text_of t ++ after) with (text_of t ++ after) in Hs.
        rewrite Hs. unfold text_of. rewrite Et.
        pose proof (wf_parts t Hwf) as (Hi & _). unfold digits in Hi.
        destruct (t_int t) as [|x d]; [discriminate|].
        cbn [forallb] in Hi. apply andb_prop in Hi as [Hx _]. exact Hx.
    + unfold before in *.
      change (ends_with is_sign (c :: c2 :: r)) with (ends_with is_sign (c2 :: r)).
      change (ends_with is_dot (c :: c2 :: r)) with (ends_with is_dot (c2 :: r)).
      cbn [forallb] in *. now rewrite Hc.
Qed.

Lemma text_eqb_eq (a b : text) : text_eqb a b = true <-> a = b.
Proof.
  revert b. induction a as [|x a IH]; intros [|y b]; simpl; try easy.
  rewrite andb_true_iff, N.eqb_eq, IH. split; [now intros [-> ->] | now intros [= -> ->]].
Qed.

Section Spec.
Context {F : Type} `{PyFloat F}.

Lemma lookup_recognised u :
  lookup_unit _UNIT u = None <-> ~ In u recognised.
Proof.
  unfold _UNIT, recognised. split.
  - intros Hl Hin. simpl in Hin.
    destruct Hin as [<-|[<-|[<-|[<-|[]]]]]; discriminate Hl.
  - intros Hn. cbn [lookup_unit].
    repeat match goal with
           | |- context [text_eqb ?a u] =>
               destruct (text_eqb a u) eqn:E;
                 [apply text_eqb_eq in E; exfalso; apply Hn; rewrite <- E;
                  simpl; tauto|clear E]
           end.
    reflexivity.
Qed.

(** What [parse_float] returns once the first token of the stripped
    text is known. *)
Lemma parse_float_token text pre t after :
  strip text = pre ++ text_of t ++ after ->
  before pre t = true -> wf t = true -> ends_token t after = true ->
  parse_float text
  = match lookup_unit _UNIT
            (lower (match unit_of after with Some u => u | None => [] end)) with
    | Some k => Ok (Some (fmul (value t) k))
    | None => Ok (Some (value t))
    end.
Proof.
  intros Hs Hq Hwf Hend. unfold parse_float.
  assert (Hne : is_empty text = false).
  { destruct text; [|reflexivity]. exfalso.
    assert (E : is_empty (pre ++ text_of t ++ after) = true) by now rewrite <- Hs.
    rewrite !is_empty_app, (token_nonempty t Hwf) in E.
    now rewrite andb_false_l, andb_false_r in E. }
  rewrite Hne, Hs, search_before by assumption.
  rewrite search_direct, direct_token by assumption.
  now rewrite float_of_token by exact Hwf.
Qed.

(** C8, for the first token. [parse_float] never raises, and it gives
    no value exactly when the text holds no decimal digit (the empty
    text included). Otherwise the stripped text has a first numeric
    token (sign, digits, point, exponent, all but one digit optional),
    taken as long as it goes and with the sign or the point before it
    when the pattern can take them in. When this token is followed,
    after optional blanks, by a run of letters that reads hz, khz, mhz
    or ghz in any case, the result is the float of the token times 1.0,
    1e3, 1e6 or 1e9; when it is followed by no letters or by other
    letters, it is the float of the token. What comes after is not
    looked at. Digits and blanks are those of Unicode. *)
Theorem parse_float_spec (text : PyUnicode.text) :
  (exists v, parse_float text = Ok v)
  /\ (parse_float text = Ok None <-> existsb is_digit text = false)
  /\ (forall pre t ws suf rest k,
        strip text = pre ++ text_of t ++ ws ++ suf ++ rest ->
        before pre t = true -> wf t = true ->
        forallb is_space ws = true -> starts_with is_alpha rest = false ->
        In (lower suf, k) multipliers ->
        parse_float text = Ok (Some (fmul (value t) k)))
  /\ (forall pre t after,
        strip text = pre ++ text_of t ++ after ->
        before pre t = true -> wf t = true -> ends_token t after = true ->
        match unit_of after with
        | Some u => ~ In (lower u) recognised
        | None => True
        end ->
        parse_float text = Ok (Some (value t)))
  /\ (existsb is_digit text = true ->
      exists pre t after,
        strip text = pre ++ text_of t ++ after
        /\ before pre t = true /\ wf t = true /\ ends_token t after = true).
Proof.
  assert (Hfirst : existsb is_digit text = true ->
            exists pre t after,
              strip text = pre ++ text_of t ++ after
              /\ before pre t = true /\ wf t = true /\ ends_token t after = true).
  { intros Hex. apply first_token. now rewrite existsb_digit_strip. }
  split; [|split; [|split; [|split; [|exact Hfirst]]]].
  - unfold parse_float. destruct (is_empty text); [eauto|].
    destruct (search number_re (strip text)) as [[g1 g2]|] eqn:E; [|eauto].
    destruct (search_some _ _ E) as [s' Hd].
    destruct (direct_is_token _ _ _ Hd) as (t & after & Hwf & -> & _ & _).
    rewrite float_of_token by exact Hwf.
    destruct (lookup_unit _ _); eauto.
  - split.
    + intros Hnone. destruct (existsb is_digit text) eqn:Hex; [|reflexivity].
      destruct (Hfirst eq_refl) as (pre & t & after & Hs & Hb & Hwf & Hend).
      rewrite (parse_float_token text pre t after) in Hnone by assumption.
      now destruct (lookup_unit _ _).
    + intros Hnd. unfold parse_float. destruct (is_empty text); [reflexivity|].
      rewrite all_not_digit_quiet_search; [reflexivity|].
      unfold strip. apply forallb_rstrip, forallb_lstrip.
      now rewrite forallb_not_existsb, Hnd.
  - intros pre t ws suf rest k Hs Hq Hwf Hws Hrest Hin.
    assert (Hsuf : forallb is_alpha suf = true /\ starts_with unit_initial suf = true
                   /\ lookup_unit _UNIT (lower suf) = Some k).
    { unfold multipliers in Hin. simpl in Hin.
      destruct Hin as [E|[E|[E|[E|[]]]]]; injection E as E <-;
        (split; [apply all_alpha_of_lower; now rewrite <- E|]);
        (split; [|now rewrite <- E]);
        (destruct suf as [|c s]; [discriminate|]); cbn in E;
        injection E as Ec _; unfold starts_with, unit_initial; rewrite <- Ec;
        reflexivity. }
    destruct Hsuf as (Halpha & Hinit & Hk).
    assert (Hne : is_empty suf = false) by (destruct suf; [discriminate | reflexivity]).
    rewrite (parse_float_token text pre t (ws ++ suf ++ rest)); auto.
    + rewrite unit_of_suffix by assumption. now rewrite Hk.
    + apply ends_token_neutral. rewrite starts_with_app.
      destruct ws as [|c ws'].
      * simpl. rewrite starts_with_app, Hne.
        destruct suf as [|c s]; [discriminate|]. simpl in *.
        now apply unit_initial_neutral.
      * simpl in *. apply andb_prop in Hws as [Hc _]. now apply space_neutral.
  - intros pre t after Hs Hq Hwf Hend Hu.
    rewrite (parse_float_token text pre t after) by assumption.
    destruct (unit_of after) as [u|].
    + apply lookup_recognised in Hu. now rewrite Hu.
    + reflexivity.
Qed.

End Spec.
End UtilsFacts.

(** C8 as it is worded, for a numeric token anywhere in the text: the text
    "1 2ghz" holds the token 2 followed by ghz, and parses to 1. *)
Lemma parse_float_any_token_fails :
  ~ (forall (text pre : PyUnicode.text) (t : Tokens.numtok)
            (ws suf rest : PyUnicode.text) (k : Q),
       text = (pre ++ Tokens.text_of t ++ ws ++ suf ++ rest)%list ->
       Tokens.wf t = true ->
       forallb PyUnicode.is_space ws = true ->
       In (PyUnicode.lower suf, k) Tokens.multipliers ->
       Utils.parse_float text = Ok (Some (fmul (Tokens.value t) k))).
Proof.
  intros Hall.
  specialize (Hall (PyUnicode.of_string "1 2ghz") (PyUnicode.of_string "1 ")
                {| Tokens.t_sign := None; Tokens.t_int := PyUnicode.of_string "2";
                   Tokens.t_frac := None; Tokens.t_exp := None |}
                [] (PyUnicode.of_string "ghz") [] (of_decimal false 1 9)
                eq_refl eq_refl eq_refl).
  assert (Hin : In (PyUnicode.lower (PyUnicode.of_string "ghz"), of_decimal false 1 9)
                   (Tokens.multipliers (F := Q))) by (simpl; tauto).
  specialize (Hall Hin). vm_compute in Hall. discriminate Hall.
Qed.

(** The readings of a bench session, in exact arithmetic: a frequency with
    its suffix, a power reading, a text without number, a token that keeps
    one of two signs, a token after a point, a reading written with a
    no-break space, and the first token of "1 2ghz". *)
Lemma parse_float_spec_witness :
  Utils.parse_float (F := Q) (PyUnicode.of_string " f=2.4 GHz; ")
  = Ok (Some (2400000000 # 1)%Q)
  /\ Utils.parse_float (F := Q) (PyUnicode.of_string "-45.123 dBm")
     = Ok (Some (-45123 # 1000)%Q)
  /\ Utils.parse_float (F := Q) (PyUnicode.of_string "n/a") = Ok None
  /\ Utils.parse_float (F := Q) (PyUnicode.of_string "--5ghz")
     = Ok (Some (-5000000000 # 1)%Q)
  /\ Utils.parse_float (F := Q) (PyUnicode.of_string "approx.-45.2 dBm")
     = Ok (Some (-226 # 5)%Q)
  /\ Utils.parse_float (F := Q) [50; 46; 52; 160; 71; 72; 122]%N
     = Ok (Some (2400000000 # 1)%Q)
  /\ (exists pre t after,
        PyUnicode.strip (PyUnicode.of_string "1 2ghz")
        = (pre ++ Tokens.text_of t ++ after)%list
        /\ Tokens.before pre t = true /\ Tokens.wf t = true
        /\ Tokens.ends_token t after = true).
Proof.
  destruct (UtilsFacts.parse_float_spec (F := Q) (PyUnicode.of_string " f=2.4 GHz; "))
    as (_ & _ & Hs & _).
  destruct (UtilsFacts.parse_float_spec (F := Q) (PyUnicode.of_string "-45.123 dBm"))
    as (_ & _ & _ & Hu & _).
  destruct (UtilsFacts.parse_float_spec (F := Q) (PyUnicode.of_string "n/a"))
    as (_ & Hn & _).
  destruct (UtilsFacts.parse_float_spec (F := Q) (PyUnicode.of_string "--5ghz"))
    as (_ & _ & Hs2 & _).
  destruct (UtilsFacts.parse_float_spec (F := Q) (PyUnicode.of_string "approx.-45.2 dBm"))
    as (_ & _ & _ & Hu2 & _).
  destruct (UtilsFacts.parse_float_spec (F := Q) [50; 46; 52; 160; 71; 72; 122]%N)
    as (_ & _ & Hs3 & _).
  destruct (UtilsFacts.parse_float_spec (F := Q) (PyUnicode.of_string "1 2ghz"))
    as (_ & _ & _ & _ & Hex).
  refine (conj _ (conj _ (conj _ (conj _ (conj _ (conj _ _)))))).
  - rewrite (Hs (PyUnicode.of_string "f=")
               {| Tokens.t_sign := None; Tokens.t_int := PyUnicode.of_string "2";
                  Tokens.t_frac := Some (PyUnicode.of_string "4");
                  Tokens.t_exp := None |}
               (PyUnicode.of_string " ") (PyUnicode.of_string "GHz")
               (PyUnicode.of_string ";") (of_decimal false 1 9));
      [reflexivity | reflexivity | reflexivity | reflexivity | reflexivity
      | reflexivity | simpl; tauto].
  - rewrite (Hu []
               {| Tokens.t_sign := Some true; Tokens.t_int := PyUnicode.of_string "45";
                  Tokens.t_frac := Some (PyUnicode.of_string "123");
                  Tokens.t_exp := None |}
               (PyUnicode.of_string " dBm"));
      [reflexivity | reflexivity | reflexivity | reflexivity | reflexivity |].
    simpl. intros [E|[E|[E|[E|[]]]]]; discriminate E.
  - apply Hn. reflexivity.
  - rewrite (Hs2 (PyUnicode.of_string "-")
               {| Tokens.t_sign := Some true; Tokens.t_int := PyUnicode.of_string "5";
                  Tokens.t_frac := None; Tokens.t_exp := None |}
               [] (PyUnicode.of_string "ghz") [] (of_decimal false 1 9));
      [reflexivity | reflexivity | reflexivity | reflexivity | reflexivity
      | reflexivity | simpl; tauto].
  - rewrite (Hu2 (PyUnicode.of_string "approx.")
               {| Tokens.t_sign := Some true; Tokens.t_int := PyUnicode.of_string "45";
                  Tokens.t_frac := Some (PyUnicode.of_string "2");
                  Tokens.t_exp := None |}
               (PyUnicode.of_string " dBm"));
      [reflexivity | reflexivity | reflexivity | reflexivity | reflexivity |].
    simpl. intros [E|[E|[E|[E|[]]]]]; discriminate E.
  - rewrite (Hs3 []
               {| Tokens.t_sign := None; Tokens.t_int := PyUnicode.of_string "2";
                  Tokens.t_frac := Some (PyUnicode.of_string "4");
                  Tokens.t_exp := None |}
               [160%N] (PyUnicode.of_string "GHz") [] (of_decimal false 1 9));
      [reflexivity | reflexivity | reflexivity | reflexivity | reflexivity
      | reflexivity | simpl; tauto].
  - apply Hex. reflexivity.
Defined.


(** ** The peak and the polling loop *)

Lemma exact_gt (x y : Q) : fgt x y = true <-> (y < x)%Q.
Proof.
  simpl. rewrite negb_true_iff, <- not_true_iff_false, Qle_bool_iff.
  split; [apply Qnot_le_lt | apply Qlt_not_le].
Qed.

#[global] Instance exact_order : PyFloatOrder Q.
Proof.
  split.
  - intros x. apply not_true_iff_false. rewrite exact_gt. apply Qlt_irrefl.
  - intros x y z. rewrite !exact_gt. intros Hxy Hyz. now apply (Qlt_trans z y x).
Qed.

Module AppFacts.
Import App.
Local Open Scope list_scope.

Section WithFloat.
Context {F : Type} `{PyFloatOrder F}.









End WithFloat.

(** The readings -45.0, -42.0 and -48.0 from the simulator, then a zero
    and a fourth reading. *)
Example peak_of_three :
  let w := replay ["-45.000"; "-42.000"; "-48.000"; "-47.000"] in
  let s0 := snd (on_connect_try (F := Q) w "FAKE" (new, [])) in
  let s3 := snd (polls w 3 s0) in
  let s4 := snd (on_zero w s3) in
  let s5 := snd (polls w 1 s4) in
  peak_value (fst s3) = Some (-42 # 1)%Q
  /\ readings (read_queue (fst s3)) = [(-45 # 1); (-42 # 1); (-48 # 1)]%Q
  /\ peak_value (fst s4) = None
  /\ peak_value (fst s5) = Some (-47 # 1)%Q.
Proof. vm_compute. repeat split. Qed.




End AppFacts.


(** ** The threads *)

Module ThreadsFacts.
Import Threads.
Local Open Scope nat_scope.
Local Open Scope list_scope.

Section WithFloat.
Context {F : Type} `{PyFloat F}.
Variable latency : nat.
Variable w : World.

(** A worker that has left its loop takes no further step and puts
    nothing, whatever the other threads do. *)
Lemma exited_step (tid : nat) (a : action) (s s' : sys) :
  workers s !! tid = Some Exited ->
  step latency w a s = Some s' ->
  quiet_since tid s s'.
Proof.
  intros Hex Hstep. unfold quiet_since.
  assert (Hnone : workers s !! tid = Some Exited
                  /\ exists new, seen s = seen s ++ new /\ ~ In (Put tid) new).
  { split; [exact Hex|]. exists []. rewrite app_nil_r. auto. }
  assert (Hret : forall o res (s0 : sys (F := F)),
             workers s0 !! tid = Some Exited ->
             (exists new, seen s0 = seen s ++ new /\ ~ In (Put tid) new) ->
             workers (stop_return o res s0) !! tid = Some Exited
             /\ exists new, seen (stop_return o res s0) = seen s ++ new
                            /\ ~ In (Put tid) new).
  { intros o res s0 Hex0 (new & Hs0 & Hn0). split; [exact Hex0|].
    exists (new ++ [StopReturned o]). simpl. rewrite Hs0, <- app_assoc.
    split; [reflexivity|]. intros [?|[[=]|[]]]%in_app_or. auto. }
  destruct a; simpl in Hstep.
  - (* a second passes *)
    unfold tick in Hstep.
    destruct (existsb can_step (workers s) || main_can_step s)%bool; [discriminate|].
    injection Hstep as <-. simpl. rewrite list_lookup_fmap, Hex.
    split; [reflexivity|]. exists []. rewrite app_nil_r. auto.
  - (* a worker *)
    unfold worker_step in Hstep.
    destruct (decide (tid0 = tid)) as [->|Hne].
    { rewrite Hex in Hstep. discriminate. }
    destruct (workers s !! tid0) as [[| [|n] | [|n] |]|]; try discriminate.
    + destruct (App.stop_flag (app s).1); injection Hstep as <-; simpl;
        (rewrite list_lookup_insert_ne by exact Hne);
        (split; [exact Hex|]); exists []; rewrite app_nil_r; auto.
    + injection Hstep as <-. simpl.
      rewrite list_lookup_insert_ne by exact Hne. split; [exact Hex|].
      exists [Put tid0]. split; [reflexivity|].
      intros [[= E]|[]]. congruence.
    + injection Hstep as <-. simpl.
      rewrite list_lookup_insert_ne by exact Hne. split; [exact Hex|].
      exists []. rewrite app_nil_r. auto.
  - (* on_connect and the start of _stop_polling *)
    unfold on_connect in Hstep. destruct (mainpc s); try discriminate.
    destruct (App.on_connect_entry text (app s).1) as [| |res];
      injection Hstep as <-; try exact Hnone.
    unfold _stop_polling. cbn.
    destruct (App.poll_thread _) as [t|]; [destruct (alive _ t)|];
      try (apply Hret; [exact Hex | apply Hnone]).
    exact Hnone.
  - (* the join returns *)
    unfold join_return in Hstep.
    destruct (mainpc s) as [|t secs res|]; try discriminate.
    destruct (negb (alive (workers s) t) || Nat.eqb secs 0)%bool; [|discriminate].
    injection Hstep as <-. apply Hret; [exact Hex | apply Hnone].
  - (* the try block of on_connect, with _start_polling *)
    unfold connect_try in Hstep. destruct (mainpc s) as [| |res]; try discriminate.
    destruct (lock_free s); [|discriminate].
    destruct (App.on_connect_try w res (app s)) as [[[|]|e] a] eqn:E;
      injection Hstep as <-; try exact Hnone.
    simpl. split.
    + rewrite lookup_app_l; [exact Hex|]. now apply lookup_lt_Some in Hex.
    + exists [Started (length (workers s))]. split; [reflexivity|].
      intros [[=]|[]].
  - (* on_zero *)
    unfold on_zero in Hstep. destruct (mainpc s); try discriminate.
    destruct (lock_free s); [|discriminate].
    injection Hstep as <-. exact Hnone.
Qed.

Lemma exited_run (tid : nat) (sched : list action) :
  forall s s' : sys,
  workers s !! tid = Some Exited ->
  run latency w sched s = Some s' ->
  quiet_since tid s s'.
Proof.
  induction sched as [|a sched IH]; intros s s' Hex Hrun; simpl in Hrun.
  - injection Hrun as <-. split; [exact Hex|]. exists []. rewrite app_nil_r. auto.
  - destruct (step latency w a s) as [s1|] eqn:Hstep; [|discriminate].
    destruct (exited_step tid a s s1 Hex Hstep) as (Hex1 & new1 & Hs1 & Hn1).
    destruct (IH s1 s' Hex1 Hrun) as (Hex' & new & Hs' & Hn).
    split; [exact Hex'|]. exists (new1 ++ new).
    split; [now rewrite Hs', Hs1, <- app_assoc|].
    intros [?|?]%in_app_or; auto.
Qed.

End WithFloat.

(** C3 on two runs. In the first the reply of a silent instrument comes
    in after [_stop_polling] gave up waiting and returned, and the worker
    puts it on the queue. In the second the worker sleeps through the
    stop, the restart clears the flag before it wakes up, and it polls
    on next to the new worker. In both the stopped worker puts an item on
    the queue after the return of the [_stop_polling] that was to stop
    it. *)
Theorem put_after_stop_returned :
  (exists s,
     run (F := Q) 5 silent late_reply initial = Some s
     /\ seen s = [StopReturned None; Started 0; StopReturned (Some 0); Put 0]
     /\ put_after_stop 0 false (seen s) = true
     /\ App.read_queue (fst (app s)) = [App.ItemErr "VI_ERROR_TMO"])
  /\ (exists s,
        run (F := Q) 0 bench restart initial = Some s
        /\ seen s = [StopReturned None; Started 0; Put 0; StopReturned (Some 0);
                     Started 1; Put 1; Put 0]
        /\ put_after_stop 0 false (seen s) = true
        /\ workers s = [Sleeping 5; Sleeping 3]).
Proof.
  split; eexists; (split; [vm_compute; reflexivity|]); repeat split.
Qed.

End ThreadsFacts.


(** ** The sessions of the real driver *)

Module SessionFacts.
Import VisaMeter.
Local Open Scope list_scope.

Lemma close_unlocked_events (w : World) (self : t) (h : trace) :
  _close_unlocked w (self, h) = (Ok tt, (closed self, h ++ Calls.closing w self h)).
Proof.
  unfold _close_unlocked, Calls.closing. run. destruct (inst self) as [s|]; cbn.
  - destruct (close_session w h (s_be s) (s_addr s)) eqn:E; cbn; reflexivity.
  - now rewrite app_nil_r.
Qed.

(** One attempt: it either goes through with the whole handshake, or
    raises having closed nothing and leaving only the manager and the
    session fields touched. *)
Lemma open_with_events (w : World) (be res : string) (tmo : Z) (self : t) (h : trace) :
  exists r self' seg,
    open_with w be res tmo (self, h) = (r, (self', h ++ seg))
    /\ seg <> []
    /\ forallb (fun ev => negb (Calls.is_close ev)) seg = true
    /\ match r with
       | Ok _ =>
           exists rc, seg = Calls.handshake be res tmo (read_term self) (write_term self) rc
           /\ self' = set_resource (Some res)
                        (set_backend_in_use (Some (backend_name be))
                           (set_inst (Some {| s_be := be; s_addr := res |})
                              (set_rm (Some be) self)))
       | Raise e =>
           Trace.last_error seg = Some e
           /\ set_inst None (set_rm None self') = set_inst None (set_rm None self)
       end.
Proof.
  unfold open_with. run.
  destruct (resource_manager w h be) as [e|] eqn:E1.
  { exists (Raise e), self, [EvManager be (Some e)]. repeat split. discriminate. }
  cbn.
  repeat match goal with
  | |- context [match ?o with Some _ => _ | None => _ end] =>
      lazymatch o with
      | context [set_attr] => idtac | context [open_resource] => idtac | context [clear] => idtac
      end;
      let E := fresh "E" in destruct o eqn:E; cbn
  end.
  all: unfold record; rewrite <- ?app_assoc; cbn [app].
  all: eexists _, _, _; (split; [reflexivity|]).
  all: (split; [discriminate|]); (split; [reflexivity|]).
  all: try reflexivity.
  all: eexists; split; reflexivity.
Qed.

Lemma same_but_session (s s' : t) :
  set_inst None (set_rm None s) = set_inst None (set_rm None s') ->
  read_term s = read_term s' /\ write_term s = write_term s'
  /\ forall i r, set_inst i (set_rm r s) = set_inst i (set_rm r s').
Proof.
  destruct s, s'. cbn. intros [= -> -> -> -> ->]. repeat split.
Qed.

Lemma try_backends_events (w : World) (res : string) (tmo : Z) (bes : list string) :
  forall (self : t) (h : trace) (last : option exn),
  exists r self' evs,
    try_backends w bes res tmo last (self, h) = (r, (self', h ++ evs))
    /\ forallb (fun ev => negb (Calls.is_close ev)) evs = true
    /\ match r with
       | Ok _ =>
           exists pre be rc,
             In be bes
             /\ evs = pre ++ Calls.handshake be res tmo (read_term self) (write_term self) rc
             /\ self' = set_resource (Some res)
                          (set_backend_in_use (Some (backend_name be))
                             (set_inst (Some {| s_be := be; s_addr := res |})
                                (set_rm (Some be) self)))
       | Raise e =>
           match bes with
           | [] => self' = self /\ evs = []
           | _ :: _ => self' = set_inst None (set_rm None self)
           end
       end.
Proof.
  induction bes as [|be rest IH]; intros self h last.
  - exists (Raise (from_option id default_error last)), self, [].
    rewrite app_nil_r. simpl. unfold raise. destruct last; repeat split.
  - simpl.
    destruct (open_with_events w be res tmo self h)
      as (r1 & self1 & seg & Hrun & Hne & Hnc & Hr1).
    rewrite Hrun. destruct r1 as [[]|e1].
    + destruct Hr1 as (rc & -> & ->).
      exists (Ok tt). eexists. eexists. split; [reflexivity|]. split; [reflexivity|].
      exists [], be, rc. repeat split. now left.
    + destruct Hr1 as (_ & Hst). run.
      destruct (same_but_session _ _ Hst) as (Hrt & Hwt & Hsame).
      destruct (IH (set_inst None (set_rm None self1)) (h ++ seg) (Some e1))
        as (r & self' & evs & Hrun' & Hnc' & Hr).
      rewrite Hrun'. exists r, self', (seg ++ evs).
      split; [now rewrite <- app_assoc|].
      split; [now rewrite forallb_app, Hnc, Hnc'|].
      destruct r as [[]|e].
      * destruct Hr as (pre & b & rc & Hin & -> & ->).
        exists (seg ++ pre), b, rc. split; [now right|].
        split; [cbn; rewrite Hrt, Hwt; now rewrite <- app_assoc|].
        cbn. rewrite <- (Hsame (Some {| s_be := b; s_addr := res |}) (Some b)).
        reflexivity.
      * destruct rest as [|b rest'].
        -- destruct Hr as [-> _]. exact Hst.
        -- rewrite Hr, Hst. reflexivity.
Qed.

Lemma connect_events (w : World) (self : t) (res : string) (tmo : Z) (h : trace) :
  is_connected_to self res = false ->
  exists r self' attempts,
    connect w res tmo (self, h)
    = (r, (self', h ++ Calls.closing w self h ++ attempts))
    /\ forallb (fun ev => negb (Calls.is_close ev)) attempts = true
    /\ match r with
       | Ok _ =>
           exists pre be rc,
             In be (backend_order self)
             /\ attempts = pre ++ Calls.handshake be res tmo (read_term self)
                                   (write_term self) rc
             /\ self' = {| backend_order := backend_order self; rm := Some be;
                           inst := Some {| s_be := be; s_addr := res |};
                           resource := Some res;
                           backend_in_use := Some (backend_name be);
                           read_term := read_term self;
                           write_term := write_term self |}
       | Raise _ => self' = closed self
       end.
Proof.
  intros Hnc. unfold connect. run. rewrite Hnc.
  pose proof (close_unlocked_events w self h) as Hclose. run. rewrite Hclose.
  destruct (try_backends_events w res tmo (backend_order self) (closed self)
              (h ++ Calls.closing w self h) None)
    as (r & self' & evs & Hrun & Hncl & Hr).
  change (backend_order (closed self)) with (backend_order self).
  rewrite Hrun. exists r, self', evs.
  split; [now rewrite app_assoc|]. split; [exact Hncl|].
  destruct r as [[]|e].
  - destruct Hr as (pre & be & rc & Hin & -> & ->).
    exists pre, be, rc. repeat split. exact Hin.
  - destruct (backend_order self); [apply Hr | rewrite Hr; reflexivity].
Qed.


(** X1. A [connect] of the Real Driver that has to open and goes through
    ends with the handshake of the backend now in use, which is one of
    the configured ones: resource manager, [open_resource], then the
    timeout, the read termination and the write termination in this
    order, then the buffer clear, whose outcome does not matter. The
    driver then holds that manager and session, the address as given and
    the name of the backend; its configuration is unchanged. *)
Theorem connect_handshake (w : World) (self self' : t) (res : string) (tmo : Z)
    (h h' : trace) :
  is_connected_to self res = false ->
  connect w res tmo (self, h) = (Ok tt, (self', h')) ->
  exists before be cleared,
    In be (backend_order self)
    /\ h' = h ++ before ++ Calls.handshake be res tmo (read_term self)
                              (write_term self) cleared
    /\ rm self' = Some be
    /\ inst self' = Some {| s_be := be; s_addr := res |}
    /\ resource self' = Some res
    /\ backend_in_use self' = Some (backend_name be)
    /\ backend_order self' = backend_order self
    /\ read_term self' = read_term self
    /\ write_term self' = write_term self.
Proof.
  intros Hnc Hrun.
  destruct (connect_events w self res tmo h Hnc) as (r & s1 & att & Hc & _ & Hr).
  rewrite Hc in Hrun. injection Hrun as -> -> <-.
  destruct Hr as (pre & be & rc & Hin & -> & ->).
  exists (Calls.closing w self h ++ pre), be, rc.
  split; [exact Hin|]. split; [now rewrite <- !app_assoc|]. repeat split.
Qed.

(** On the bench the handshake is the one of the system backend, and the
    clear it ends with has raised. *)
Lemma connect_handshake_witness :
  exists before be cleared,
    In be ["@py"; ""; "@sim"]%string
    /\ snd (snd (connect bench bench_address 5000 (fresh ["@py"; ""; "@sim"]%string, [])))
       = [] ++ before ++ Calls.handshake be bench_address 5000 READ_TERM WRITE_TERM cleared
    /\ be = ""%string
    /\ cleared = Some (LibraryError "VI_ERROR_NSUP_OPER").
Proof.
  destruct (connect_handshake bench (fresh ["@py"; ""; "@sim"]%string) _ bench_address
              5000 [] _ eq_refl eq_refl)
    as (before & be & cleared & Hin & Hh & Hrm & _).
  exists before, be, cleared. injection Hrm as <-.
  refine (conj Hin (conj Hh (conj eq_refl _))).
  apply (f_equal (@last event)) in Hh. rewrite !last_app in Hh. cbn in Hh.
  now injection Hh as <-.
Defined.

(** X2. The only session [connect] of the Real Driver ever closes is the
    one it holds on entry: when it has to open, that session is closed
    first, before any backend is asked, and no call made for the
    attempts that follow is a close, so that a session opened by an
    attempt that then fails is dropped without being closed. When the
    driver is already on the address nothing is called at all. A connect
    that raises leaves the driver closed: no session, manager, address
    or backend. *)
Theorem connect_closes_once (w : World) (self : t) (res : string) (tmo : Z)
    (h : trace) :
  exists r self' attempts,
    connect w res tmo (self, h)
    = (r, (self', h ++ (if is_connected_to self res then []
                        else Calls.closing w self h ++ attempts)))
    /\ forallb (fun ev => negb (Calls.is_close ev)) attempts = true
    /\ (is_connected_to self res = false -> is_ok r = false -> self' = closed self).
Proof.
  destruct (is_connected_to self res) eqn:Hc.
  - exists (Ok tt), self, []. unfold connect. run. rewrite Hc, app_nil_r.
    repeat split. discriminate.
  - destruct (connect_events w self res tmo h Hc) as (r & s1 & att & Hrun & Hncl & Hr).
    exists r, s1, att. split; [exact Hrun|]. split; [exact Hncl|].
    intros _ Hr'. destruct r; [discriminate | exact Hr].
Qed.

(** The pure-Python backend opens the sensor and fails on its timeout;
    the session it opened is never closed, and the system backend opens
    a second one. *)
Example connect_half_open :
  snd (snd (connect half_open bench_address 5000 (fresh DEFAULT_BACKENDS, [])))
  = [ EvManager "@py" None; EvOpen "@py" bench_address None;
      EvSetAttr "@py" bench_address (Timeout 5000)
        (Some (LibraryError "VI_ERROR_NSUP_ATTR")) ]
    ++ Calls.handshake "" bench_address 5000 READ_TERM WRITE_TERM None.
Proof. reflexivity. Qed.

(** X3. [connect] of the Real Driver is idempotent, as its docstring
    says: after a connect that went through the driver is on that
    address, and a further connect to it, with any timeout, returns
    at once, changing neither the driver nor the trace. *)
Theorem driver_connect_idempotent (w : World) (self : t) (res : string)
    (tmo tmo' : Z) (h : trace) (s1 : St) :
  connect w res tmo (self, h) = (Ok tt, s1) ->
  is_connected_to (fst s1) res = true /\ connect w res tmo' s1 = (Ok tt, s1).
Proof.
  intros Hrun.
  assert (Hc : is_connected_to (fst s1) res = true).
  { destruct (is_connected_to self res) eqn:Hc.
    - unfold connect in Hrun. run. rewrite Hc in Hrun. now injection Hrun as <-.
    - destruct (connect_events w self res tmo h Hc) as (r & v & att & Hev & _ & Hr).
      rewrite Hev in Hrun. injection Hrun as -> <-.
      destruct Hr as (_ & be & _ & _ & _ & ->).
      unfold is_connected_to. cbn. apply String.eqb_refl. }
  split; [exact Hc|]. destruct s1 as [self' h']. unfold connect. run.
  cbn in Hc. now rewrite Hc.
Qed.

Lemma driver_connect_idempotent_witness :
  let s1 := snd (connect bench bench_address 5000 (fresh DEFAULT_BACKENDS, [])) in
  is_connected_to (fst s1) bench_address = true
  /\ connect bench bench_address 100 s1 = (Ok tt, s1).
Proof.
  exact (driver_connect_idempotent bench (fresh DEFAULT_BACKENDS) bench_address
           5000 100 [] _ eq_refl).
Defined.

(** X4. [close] of the Real Driver never raises, whatever closing the
    session does. It makes one call, the close of the session it holds,
    and none when it holds no session. Afterwards the driver is on no
    address, [query] and [write] raise the not-connected error without
    calling anything, [idn] returns the empty text, and a second [close]
    does nothing. *)
Theorem close_disconnects (w : World) (self : t) (h : trace) :
  close w (self, h) = (Ok tt, (closed self, h ++ Calls.closing w self h))
  /\ (forall a, is_connected_to (closed self) a = false)
  /\ (forall cmd h2, query w cmd (closed self, h2)
                     = (Raise (RuntimeError "Нет соединения"), (closed self, h2)))
  /\ (forall cmd h2, write w cmd (closed self, h2)
                     = (Raise (RuntimeError "Нет соединения"), (closed self, h2)))
  /\ (forall h2, idn w (closed self, h2) = (Ok ""%string, (closed self, h2)))
  /\ (forall h2, close w (closed self, h2) = (Ok tt, (closed self, h2))).
Proof.
  split; [apply close_unlocked_events|]. repeat split.
Qed.

End SessionFacts.


(** ** The facade, call by call *)

Module FacadeFacts.
Import Meter.
Local Open Scope list_scope.

Lemma close_events (w : World) (self : t) (h : trace) :
  close w (self, h) = (Ok tt, (disconnected self, h ++ Calls.facade_closing w self h)).
Proof.
  unfold close, Calls.facade_closing. run. destruct (_impl self) as [[m|v]|]; cbn.
  - now rewrite app_nil_r.
  - unfold VisaMeter.close. rewrite SessionFacts.close_unlocked_events. reflexivity.
  - now rewrite app_nil_r.
Qed.

(** What a [connect] that has to open does, case by case. *)
Lemma connect_run (w : World) (self : t) (res : string) (tmo : Z) (h : trace) :
  is_connected_to self res = false ->
  let h0 := h ++ Calls.facade_closing w self h in
  connect w res tmo (self, h)
  = if String.eqb (PyStr.upper (PyStr.strip res)) "FAKE" then
      (Ok tt, (Calls.on_simulator (backend_order self), h0 ++ [EvSimulator]))
    else if HAS_VISA w then
      match VisaMeter.connect w res tmo (VisaMeter.fresh (backend_order self), h0) with
      | (Ok _, (v, h1)) =>
          (Ok tt, ({| backend_order := backend_order self;
                      backend_in_use := VisaMeter.backend_in_use v;
                      _impl := Some (Visa v); resource := Some res |}, h1))
      | (Raise e, (_, h1)) => (Raise e, (disconnected self, h1))
      end
    else (Raise (RuntimeError "PyVISA не установлен"), (disconnected self, h0)).
Proof.
  intros Hnc h0. unfold connect. run. rewrite Hnc.
  pose proof (close_events w self h) as Hcl. run. rewrite Hcl. fold h0.
  destruct (String.eqb (PyStr.upper (PyStr.strip res)) "FAKE"); [reflexivity|].
  unfold VisaMeter.new. destruct (HAS_VISA w); [|reflexivity]. cbn.
  change {| VisaMeter.backend_order := backend_order self; VisaMeter.rm := None;
            VisaMeter.inst := None; VisaMeter.resource := None;
            VisaMeter.backend_in_use := None; VisaMeter.read_term := READ_TERM;
            VisaMeter.write_term := WRITE_TERM |}
    with (VisaMeter.fresh (backend_order self)).
  destruct (VisaMeter.connect w res tmo (VisaMeter.fresh (backend_order self), h0))
    as [[[]|e] [v h1]]; reflexivity.
Qed.

(** The same with the Real Driver's part spelt out. *)
Lemma connect_visa_run (w : World) (self : t) (res : string) (tmo : Z) (h : trace) :
  HAS_VISA w = true ->
  PyStr.upper (PyStr.strip res) <> "FAKE"%string ->
  is_connected_to self res = false ->
  exists r self' attempts,
    connect w res tmo (self, h)
    = (r, (self', h ++ Calls.facade_closing w self h ++ attempts))
    /\ forallb (fun ev => negb (Calls.is_close ev)) attempts = true
    /\ match r with
       | Ok _ =>
           exists before be cleared,
             In be (backend_order self)
             /\ attempts = before ++ Calls.handshake be res tmo READ_TERM WRITE_TERM cleared
             /\ self' = Calls.on_instrument (backend_order self) be res
       | Raise _ => self' = disconnected self
       end.
Proof.
  intros Hv Hf Hnc. rewrite connect_run by exact Hnc. cbv zeta.
  apply String.eqb_neq in Hf. rewrite Hf, Hv.
  destruct (SessionFacts.connect_events w (VisaMeter.fresh (backend_order self)) res tmo
              (h ++ Calls.facade_closing w self h) eq_refl)
    as (r & v' & att & Hrun & Hncl & Hr).
  cbn in Hrun, Hr. rewrite Hrun.
  exists r. destruct r as [[]|e].
  - destruct Hr as (pre & be & rc & Hin & -> & ->).
    eexists. exists (pre ++ Calls.handshake be res tmo READ_TERM WRITE_TERM rc).
    split; [rewrite <- app_assoc; reflexivity|]. split; [exact Hncl|].
    exists pre, be, rc. repeat split. exact Hin.
  - eexists. exists att. split; [rewrite <- app_assoc; reflexivity|].
    split; [exact Hncl | reflexivity].
Qed.

(** A [connect] that raises leaves the facade disconnected; [idn] never
    raises. *)
Lemma connect_raises (w : World) (self self' : t) (res : string) (tmo : Z)
    (h h' : trace) (e : exn) :
  connect w res tmo (self, h) = (Raise e, (self', h')) -> self' = disconnected self.
Proof.
  intros Hc. destruct (is_connected_to self res) eqn:Hn.
  { rewrite MeterFacts.connect_again in Hc by exact Hn. discriminate. }
  rewrite connect_run in Hc by exact Hn. cbv zeta in Hc.
  destruct (String.eqb (PyStr.upper (PyStr.strip res)) "FAKE"); [discriminate|].
  destruct (HAS_VISA w); [|now injection Hc as _ <- _].
  destruct (VisaMeter.connect w res tmo _) as [[[]|e1] [v h1]];
    [discriminate | now injection Hc as _ <- _].
Qed.

Lemma idn_returns (w : World) (s : St) : exists text s', idn w s = (Ok text, s').
Proof.
  destruct s as [self h]. unfold idn, mbind, M_bind, bind, self_, ret. cbv beta iota.
  destruct (_impl self) as [[f|v]|]; try (eexists _, _; reflexivity).
  unfold on_impl_visa, VisaMeter.idn, try_except.
  destruct (VisaMeter.query w "*IDN?" (v, h)) as [[a|e] [v' h']];
    eexists _, _; reflexivity.
Qed.







Lemma set_impl_same (self : t) (i : impl) :
  _impl self = Some i -> set_impl (Some i) self = self.
Proof. destruct self. cbn. now intros ->. Qed.

(** X8. Over an open session the facade passes [query] and [write]
    straight to the instrument: one call on the session the Real Driver
    holds, with the command as given, and the answer or the exception
    comes back unchanged. [idn] sends the identification query and turns
    an exception into the empty text. None of the three changes the
    facade, so an instrument that fails to answer stays connected. *)
Theorem io_on_session (w : World) (self : t) (v : VisaMeter.t)
    (s : VisaMeter.session) (cmd : string) (h : trace) :
  _impl self = Some (Visa v) ->
  VisaMeter.inst v = Some s ->
  let be := VisaMeter.s_be s in
  let addr := VisaMeter.s_addr s in
  query w cmd (self, h)
  = (inst_query w h be addr cmd,
     (self, h ++ [EvQuery be addr cmd (inst_query w h be addr cmd)]))
  /\ write w cmd (self, h)
     = (match inst_write w h be addr cmd with None => Ok tt | Some e => Raise e end,
        (self, h ++ [EvWrite be addr cmd (inst_write w h be addr cmd)]))
  /\ idn w (self, h)
     = (Ok (match inst_query w h be addr "*IDN?" with
            | Ok a => a
            | Raise _ => ""%string
            end),
        (self, h ++ [EvQuery be addr "*IDN?" (inst_query w h be addr "*IDN?")])).
Proof.
  intros Hi Hs be addr. unfold query, write, idn, VisaMeter.idn. run.
  rewrite Hi. unfold VisaMeter.query, VisaMeter.write. run. rewrite Hs.
  fold be addr. repeat split.
  - now rewrite (set_impl_same self _ Hi).
  - destruct (inst_write w h be addr cmd); cbn; now rewrite (set_impl_same self _ Hi).
  - destruct (inst_query w h be addr "*IDN?"); cbn; now rewrite (set_impl_same self _ Hi).
Qed.


(** The bench sensor answers; the silent one times out and is still
    connected. *)
Lemma io_on_session_witness :
  let self := Calls.on_instrument DEFAULT_BACKENDS "" bench_address in
  query bench "MEAS:POW?" (self, [])
  = (Ok "-42.5 dBm"%string,
     (self, [] ++ [EvQuery "" bench_address "MEAS:POW?" (Ok "-42.5 dBm"%string)]))
  /\ query Threads.silent "MEAS:POW?" (self, [])
     = (Raise (LibraryError "VI_ERROR_TMO"),
        (self, [] ++ [EvQuery "" bench_address "MEAS:POW?"
                        (Raise (LibraryError "VI_ERROR_TMO"))])).
Proof.
  intros self. split.
  - exact (proj1 (io_on_session bench self _ _ "MEAS:POW?" [] eq_refl eq_refl)).
  - exact (proj1 (io_on_session Threads.silent self _ _ "MEAS:POW?" [] eq_refl eq_refl)).
Defined.

(** X9. [close] of the facade never raises, whatever closing the session
    does. It calls the close of the session of its Real Driver when that
    driver holds one, and nothing otherwise; afterwards the facade is
    connected to no address, and a second [close] does nothing. *)
Theorem close_never_raises (w : World) (self : t) (h : trace) :
  close w (self, h) = (Ok tt, (disconnected self, h ++ Calls.facade_closing w self h))
  /\ (forall a, is_connected_to (disconnected self) a = false)
  /\ (forall h2, close w (disconnected self, h2) = (Ok tt, (disconnected self, h2))).
Proof.
  split; [apply close_events|]. split; [reflexivity|]. intros h2.
  rewrite close_events. cbn. now rewrite app_nil_r.
Qed.


Lemma same_refl (a : option string) : Usage.same a a = true.
Proof. destruct a; [apply String.eqb_refl | reflexivity]. Qed.

Lemma driver_io_state (w : World) (v : VisaMeter.t) (h : trace) (cmd : string) :
  fst (snd (VisaMeter.query w cmd (v, h))) = v
  /\ fst (snd (VisaMeter.write w cmd (v, h))) = v
  /\ fst (snd (VisaMeter.idn w (v, h))) = v.
Proof.
  unfold VisaMeter.idn, VisaMeter.query, VisaMeter.write. run.
  destruct (VisaMeter.inst v) as [s|]; cbn; [|repeat split].
  destruct (inst_write w h _ _ cmd), (inst_query w h _ _ "*IDN?"); repeat split.
Qed.

Lemma on_impl_visa_state {A} (self : t) (v : VisaMeter.t) (c : M VisaMeter.St A)
    (h : trace) :
  _impl self = Some (Visa v) ->
  fst (snd (c (v, h))) = v ->
  fst (snd (on_impl_visa v c (self, h))) = self.
Proof.
  intros Hi Hc. unfold on_impl_visa. destruct (c (v, h)) as [r [v' h']].
  cbn [fst snd] in *. subst v'. now apply set_impl_same.
Qed.

Lemma perform_consistent (w : World) (c : Usage.call) (self : t) (h : trace) :
  Usage.consistent self = true ->
  Usage.consistent (fst (Usage.perform w c (self, h))) = true.
Proof.
  intros Hc. destruct c as [res tmo| |cmd|cmd|]; unfold Usage.perform.
  - destruct (is_connected_to self res) eqn:Hn.
    { rewrite MeterFacts.connect_again by exact Hn. exact Hc. }
    destruct (String.eqb_spec (PyStr.upper (PyStr.strip res)) "FAKE") as [Hf|Hf].
    { rewrite connect_run by exact Hn. cbv zeta. rewrite Hf. reflexivity. }
    destruct (HAS_VISA w) eqn:Hv.
    + destruct (connect_visa_run w self res tmo h Hv Hf Hn)
        as (r & self' & att & -> & _ & Hr).
      destruct r as [[]|e]; cbn.
      * destruct Hr as (pre & be & rc & _ & _ & ->). unfold Usage.consistent. cbn.
        unfold Usage.driver_consistent. cbn. now rewrite !String.eqb_refl.
      * now rewrite Hr.
    + rewrite connect_run by exact Hn. cbv zeta.
      apply String.eqb_neq in Hf. rewrite Hf, Hv. reflexivity.
  - rewrite close_events. reflexivity.
  - unfold query, mbind, M_bind, bind, self_, raise, on_trace. cbv beta iota.
    destruct (_impl self) as [[f|v]|] eqn:Hi; try exact Hc.
    + destruct (FakeMeter.query w f cmd h). exact Hc.
    + rewrite on_impl_visa_state; [exact Hc | exact Hi | apply driver_io_state].
  - unfold write, mbind, M_bind, bind, self_, raise. cbv beta iota.
    destruct (_impl self) as [[f|v]|] eqn:Hi; try exact Hc.
    + unfold Usage.consistent in Hc. rewrite Hi in Hc.
      unfold FakeMeter.write, update, now_.
      repeat match goal with
      | |- context [if ?b then _ else _] => destruct b
      | |- context [match ?o with Some _ => _ | None => _ end] => destruct o
      end; cbn; unfold Usage.consistent; cbn; exact Hc.
    + rewrite on_impl_visa_state; [exact Hc | exact Hi | apply driver_io_state].
  - unfold idn, mbind, M_bind, bind, self_, ret. cbv beta iota.
    destruct (_impl self) as [[f|v]|] eqn:Hi; try exact Hc.
    rewrite on_impl_visa_state; [exact Hc | exact Hi | apply (driver_io_state w v h "")].
Qed.


(** X10. Whatever calls are made on a new facade, in whatever world and
    however they end, its attributes keep describing its driver: without
    a driver there is no resource and no backend; over a simulator, which
    is then open, both are "FAKE"; over a Real Driver, which then holds a
    session, they are the address of that session and the name of its
    backend, and the driver holds the manager of that backend. *)
Theorem facade_consistent (w : World) (order : list string) (cs : list Usage.call) :
  Usage.consistent (fst (Usage.performs w cs (new order, []))) = true.
Proof.
  unfold Usage.performs.
  assert (Hgen : forall s, Usage.consistent (fst s) = true ->
            Usage.consistent (fst (fold_left (fun s c => Usage.perform w c s) cs s)) = true).
  { induction cs as [|c cs IH]; intros s Hs; [exact Hs|]. cbn. apply IH.
    destruct s as [m h]. now apply perform_consistent. }
  now apply Hgen.
Qed.





End FacadeFacts.


(** ** The simulator, opened and closed *)

Module SimulatorFacts.
Import FakeMeter.

Lemma write_returns (m : t) (cmd : string) : fst (write m cmd) = Ok tt.
Proof.
  unfold write.
  repeat match goal with
  | |- context [if ?b then _ else _] => destruct b
  | |- context [match ?o with Some _ => _ | None => _ end] => destruct o
  end; reflexivity.
Qed.

(** The facade over a simulator hands [query] and [write] to it. *)
Lemma facade_query (w : World) (self : Meter.t) (f : t) (cmd : string) (h : trace) :
  Meter._impl self = Some (Meter.Fake f) ->
  Meter.query w cmd (self, h)
  = (fst (query w f cmd h), (self, snd (query w f cmd h))).
Proof.
  intros Hi. unfold Meter.query, mbind, M_bind, bind, self_, on_trace. cbv beta iota.
  rewrite Hi. now destruct (query w f cmd h).
Qed.

Lemma facade_write (w : World) (self : Meter.t) (f : t) (cmd : string) (h : trace) :
  Meter._impl self = Some (Meter.Fake f) ->
  Meter.write w cmd (self, h)
  = (Ok tt, (Meter.set_impl (Some (Meter.Fake (snd (write f cmd)))) self, h)).
Proof.
  intros Hi. unfold Meter.write, mbind, M_bind, bind, self_, update, now_.
  cbv beta iota. rewrite Hi.
  pose proof (write_returns f cmd) as Hr. destruct (write f cmd) as [r f'].
  cbn in *. now subst r.
Qed.

(** X12. A simulator is on an address exactly when the address reads
    FAKE in upper case, blanks not being trimmed, and only until it is
    closed: a closed simulator is on no address, and [connect], which
    returns normally for the same spellings and raises for all others,
    does not open it again. Closing changes nothing else: a closed
    simulator answers queries and takes writes as before. *)
Theorem closed_stays_closed (w : World) (m : t) :
  (forall a, is_connected_to new a = true <-> PyStr.upper a = "FAKE")
  /\ (forall a, is_connected_to (close m) a = false)
  /\ (forall a tmo, connect (close m) a tmo = Ok tt <-> PyStr.upper a = "FAKE")
  /\ (forall cmd h, query w (close m) cmd h = query w m cmd h)
  /\ (forall cmd, write (close m) cmd = (fst (write m cmd), close (snd (write m cmd)))).
Proof.
  split; [|split; [|split; [|split]]].
  - intros a. unfold is_connected_to. cbn. apply String.eqb_eq.
  - reflexivity.
  - intros a tmo. unfold connect.
    destruct (String.eqb_spec (PyStr.upper a) "FAKE") as [E|E]; cbn.
    + split; auto.
    + split; [discriminate | contradiction].
  - reflexivity.
  - intros cmd. unfold write.
    repeat match goal with
    | |- context [if ?b then _ else _] => destruct b
    | |- context [match ?o with Some _ => _ | None => _ end] => destruct o
    end; reflexivity.
Qed.

End SimulatorFacts.

(** ** The identification reply *)

Module IdnFacts.
Import PyUnicode Idn.
Local Open Scope list_scope.

Lemma split_on_nonempty sep s : split_on sep s <> [].
Proof.
  destruct s as [|c s]; simpl; [discriminate|].
  destruct (N.eqb c sep); [discriminate|].
  destruct (split_on sep s); discriminate.
Qed.

Lemma split_on_plain s : no_comma s = true -> split_on comma s = [s].
Proof.
  induction s as [|c s IH]; simpl; [reflexivity|].
  intros [Hc Hs]%andb_prop. apply negb_true_iff in Hc. rewrite Hc, (IH Hs). reflexivity.
Qed.

Lemma split_on_field f rest :
  no_comma f = true ->
  split_on comma (f ++ comma :: rest) = f :: split_on comma rest.
Proof.
  induction f as [|c f IH]; intros Hf.
  - cbn [app split_on]. now rewrite N.eqb_refl.
  - simpl in Hf. apply andb_prop in Hf as [Hc Hf]. apply negb_true_iff in Hc.
    cbn [app split_on]. rewrite Hc, (IH Hf). reflexivity.
Qed.

(** Splitting undoes joining when no field holds a comma. *)
Lemma split_join fields :
  fields <> [] -> forallb no_comma fields = true ->
  split_on comma (join comma fields) = fields.
Proof.
  induction fields as [|f rest IH]; [congruence|]. intros _ Hall.
  simpl in Hall. apply andb_prop in Hall as [Hf Hrest].
  destruct rest as [|g rest]; [now apply split_on_plain|].
  change (join comma (f :: g :: rest)) with (f ++ comma :: join comma (g :: rest)).
  rewrite split_on_field by exact Hf. f_equal. apply IH; [discriminate | exact Hrest].
Qed.

Lemma pad_first_four (parts : list text) :
  parts <> [] ->
  firstn 4 (pad parts) = [nth 0 parts []; nth 1 parts []; nth 2 parts []; nth 3 parts []].
Proof.
  intros Hne. unfold pad.
  destruct parts as [|a [|b [|c [|d rest]]]]; [congruence|reflexivity..].
Qed.

Lemma nth_map_strip k (fields : list text) :
  nth k (List.map strip fields) [] = field k fields.
Proof.
  unfold field. change (@nil N) with (strip []) at 1. apply map_nth.
Qed.

Lemma join_empty (fields : list text) :
  join comma fields = [] -> fields = [] \/ fields = [[]].
Proof.
  destruct fields as [|f [|g rest]]; [now left | |].
  - simpl. intros ->. now right.
  - change (join comma (f :: g :: rest)) with (f ++ comma :: join comma (g :: rest)).
    destruct f; discriminate.
Qed.

Lemma split_on_no_comma (s : text) : forallb no_comma (split_on comma s) = true.
Proof.
  induction s as [|c s IH]; [reflexivity|]. simpl.
  destruct (N.eqb c comma) eqn:Hc; [exact IH|].
  destruct (split_on comma s) as [|p ps]; cbn [forallb] in *.
  - unfold no_comma. cbn [forallb]. now rewrite Hc.
  - apply andb_prop in IH as [Hp Hps]. unfold no_comma in *. cbn [forallb].
    now rewrite Hc, Hp, Hps.
Qed.

Lemma join_split (s : text) : join comma (split_on comma s) = s.
Proof.
  induction s as [|c s IH]; [reflexivity|]. simpl.
  destruct (N.eqb_spec c comma) as [->|Hc].
  - pose proof (split_on_nonempty comma s) as Hne.
    destruct (split_on comma s) as [|p ps]; [congruence|].
    change (join comma ([] :: p :: ps)) with (comma :: join comma (p :: ps)).
    now rewrite IH.
  - pose proof (split_on_nonempty comma s) as Hne.
    destruct (split_on comma s) as [|p [|q ps]]; [congruence| |].
    + simpl in *. now rewrite IH.
    + change (join comma ((c :: p) :: q :: ps))
        with (c :: (p ++ comma :: join comma (q :: ps))).
      change (join comma (p :: q :: ps)) with (p ++ comma :: join comma (q :: ps)) in IH.
      now rewrite IH.
Qed.

Lemma parse_idn_join (fields : list text) :
  forallb no_comma fields = true ->
  parse_idn (join comma fields)
  = Ok {| vendor := field 0 fields; model := field 1 fields;
          serial := field 2 fields; firmware := field 3 fields |}.
Proof.
  intros Hall. unfold parse_idn, _parse_idn_local.
  destruct (is_empty (join comma fields)) eqn:He.
  - apply ReFacts.is_empty_true, join_empty in He. destruct He as [-> | ->]; reflexivity.
  - assert (Hf : fields <> []) by (intros ->; discriminate).
    rewrite split_join by assumption.
    rewrite pad_first_four by (destruct fields; [congruence | discriminate]).
    now rewrite !nth_map_strip.
Qed.

(** X13. The local parser of the identification reply never raises.
    It takes the reply as fields separated by commas and returns the
    first four of them, each stripped of the blanks around it, as
    vendor, model, serial and firmware; fields that are not there are
    blank, so an empty reply gives four blanks, and fields after the
    fourth are dropped. Every text is such a list of fields. *)
Theorem parse_idn_fields :
  (forall fields, forallb no_comma fields = true ->
     parse_idn (join comma fields)
     = Ok {| vendor := field 0 fields; model := field 1 fields;
             serial := field 2 fields; firmware := field 3 fields |})
  /\ (forall idn, exists fields,
        forallb no_comma fields = true /\ join comma fields = idn)
  /\ (forall idn, exists i, parse_idn idn = Ok i).
Proof.
  split; [exact parse_idn_join|]. split.
  - intros idn. exists (split_on comma idn).
    split; [apply split_on_no_comma | apply join_split].
  - intros idn. rewrite <- (join_split idn), parse_idn_join by apply split_on_no_comma.
    eexists. reflexivity.
Qed.

Example parse_idn_bench :
  parse_idn (of_string " ACME , U2000,MY1 ,1.0,extra")
  = Ok {| vendor := of_string "ACME"; model := of_string "U2000";
          serial := of_string "MY1"; firmware := of_string "1.0" |}
  /\ parse_idn (of_string "ACME,U2000")
     = Ok {| vendor := of_string "ACME"; model := of_string "U2000";
             serial := []; firmware := [] |}
  /\ parse_idn []
     = Ok {| vendor := []; model := []; serial := []; firmware := [] |}.
Proof. repeat split. Qed.

Lemma parse_idn_fields_witness :
  parse_idn (of_string " ACME , U2000,MY1 ,1.0,extra")
  = Ok {| vendor := of_string "ACME"; model := of_string "U2000";
          serial := of_string "MY1"; firmware := of_string "1.0" |}.
Proof.
  destruct parse_idn_fields as (Hf & _).
  exact (Hf [of_string " ACME "; of_string " U2000"; of_string "MY1 ";
             of_string "1.0"; of_string "extra"] eq_refl).
Defined.

End IdnFacts.

(** ** Printed integers, read back as floats *)

Module NumberFacts.
Import PyUnicode Utils Tokens Numbers.
Local Open Scope list_scope.

(** An ASCII character stands for itself. *)
Lemma of_string_ascii (c : ascii) (s : string) :
  (N_of_ascii c < 128)%N ->
  of_string (String c s) = N_of_ascii c :: of_string s.
Proof.
  intros Hc. unfold of_string. cbn [list_ascii_of_string List.map decode].
  destruct (N.ltb_spec (N_of_ascii c) 128) as [_|Hge]; [reflexivity | lia].
Qed.

Lemma of_string_uint (d : uint) :
  of_string (NilEmpty.string_of_uint d) = uint_text d.
Proof.
  induction d; cbn [NilEmpty.string_of_uint uint_text]; [reflexivity|..];
    rewrite of_string_ascii by (vm_compute; reflexivity); now rewrite IHd.
Qed.

Lemma uint_text_digits (d : uint) : digits (uint_text d) = true.
Proof.
  unfold digits. induction d; cbn [uint_text forallb]; [reflexivity|..];
    rewrite IHd; reflexivity.
Qed.

Lemma digits_value_acc (d : uint) :
  forall acc : positive,
    digits_value (Zpos acc) (uint_text d) = Zpos (Pos.of_uint_acc d acc).
Proof.
  induction d; intros acc; cbn [uint_text Pos.of_uint_acc digits_value];
    [reflexivity|..];
    rewrite <- IHd; f_equal;
    match goal with
    | |- context [default 0 (decimal ?c)] =>
        let v := eval vm_compute in (default 0 (decimal c)) in
        change (default 0 (decimal c)) with v
    end; lia.
Qed.

Lemma digits_value_uint (d : uint) :
  digits_value 0 (uint_text d) = Z.of_N (Pos.of_uint d).
Proof.
  induction d; cbn [uint_text Pos.of_uint digits_value];
    [reflexivity | exact IHd | ..];
    cbn [Z.of_N]; rewrite <- digits_value_acc; reflexivity.
Qed.

Lemma digits_value_pos (p : positive) :
  digits_value 0 (uint_text (Pos.to_uint p)) = Zpos p.
Proof.
  rewrite digits_value_uint, DecimalPos.Unsigned.of_to. reflexivity.
Qed.

Lemma str_of_pos (p : positive) :
  PyStr.str_of_int (Zpos p) = NilEmpty.string_of_uint (Pos.to_uint p)
  /\ PyStr.str_of_int (Zneg p) = String "-" (NilEmpty.string_of_uint (Pos.to_uint p)).
Proof.
  unfold PyStr.str_of_int, NilZero.string_of_int. cbn [Z.to_int].
  pose proof (DecimalPos.Unsigned.to_uint_nonnil p) as Hnn.
  unfold NilZero.string_of_uint.
  destruct (Pos.to_uint p); try congruence; split; reflexivity.
Qed.

Lemma int_token_wf neg p : wf (int_token neg p) = true.
Proof.
  unfold wf, int_token. cbn. rewrite uint_text_digits. cbn.
  pose proof (DecimalPos.Unsigned.to_uint_nonnil p) as Hnn.
  destruct (Pos.to_uint p); try congruence; reflexivity.
Qed.

Section WithFloat.
Context {F : Type} `{PyFloat F}.

(** [parse_float(str(n))] is the float of [n]. *)
Lemma parse_float_int (n : Z) :
  parse_float (of_string (PyStr.str_of_int n))
  = Ok (Some (of_decimal (n <? 0) (Z.abs n) 0)).
Proof.
  destruct n as [|p|p]; [reflexivity|..].
  - destruct (str_of_pos p) as [-> _]. rewrite of_string_uint.
    rewrite (UtilsFacts.parse_float_token _ [] (int_token false p) []).
    + cbn. unfold value, int_token. cbn. rewrite app_nil_r.
      now rewrite digits_value_pos.
    + unfold text_of, int_token.
      cbn [t_sign t_int t_frac t_exp sign_text frac_text exp_text app].
      rewrite !app_nil_r.
      apply UtilsFacts.text_strip_not_space.
      eapply UtilsFacts.forallb_impl; [apply UtilsFacts.digit_not_space|].
      apply uint_text_digits.
    + reflexivity.
    + apply int_token_wf.
    + reflexivity.
  - destruct (str_of_pos p) as [_ ->].
    rewrite of_string_ascii by (vm_compute; reflexivity). rewrite of_string_uint.
    change (N_of_ascii "-") with 45%N.
    rewrite (UtilsFacts.parse_float_token _ [] (int_token true p) []).
    + cbn. unfold value, int_token. cbn. rewrite app_nil_r.
      now rewrite digits_value_pos.
    + unfold text_of, int_token.
      cbn [t_sign t_int t_frac t_exp sign_text frac_text exp_text app].
      rewrite !app_nil_r.
      apply UtilsFacts.text_strip_not_space. cbn [forallb].
      change (not_space 45) with true. cbn [andb].
      eapply UtilsFacts.forallb_impl; [apply UtilsFacts.digit_not_space|].
      apply uint_text_digits.
    + reflexivity.
    + apply int_token_wf.
    + reflexivity.
Qed.

End WithFloat.

End NumberFacts.

(** ** The controller *)

Module ControllerFacts.
Import Controller.
Local Open Scope list_scope.

(** X14. When [connect] of the controller raises, the facade has been
    left disconnected but the controller keeps the resource it had, since
    the assignment comes after the call that raised. [is_connected]
    therefore answers as before the attempt, and after an earlier
    connect that went through it still answers true while reading the
    power raises the not-connected error. *)
Theorem failed_connect_keeps_resource {F : Type} `{PyFloat F} (w : World)
    (self self' : t) (m : Meter.t) (res : string) (h h' : trace) (e : exn) :
  meter self = Some m ->
  connect w res (self, h) = (Raises e, (self', h')) ->
  resource self' = resource self
  /\ meter self' = Some (Meter.disconnected m)
  /\ is_connected self' = is_connected self
  /\ read_power (F := F) w (self', h') = (Raises Meter.NotConnected, (self', h')).
Proof.
  intros Hm Hc. unfold connect, on_meter in Hc. rewrite Hm in Hc.
  destruct (Meter.connect w res 5000 (m, h)) as [[[]|e1] [m1 h1]] eqn:Hmc.
  - cbn in Hc.
    destruct (FacadeFacts.idn_returns w (m1, h1)) as (text & [m2 h2] & Hidn).
    rewrite Hidn in Hc. discriminate.
  - injection Hc as <- <- <-.
    apply FacadeFacts.connect_raises in Hmc. subst m1.
    assert (Hself : set_meter (Some (Meter.disconnected m)) self
                    = {| meter := Some (Meter.disconnected m);
                         resource := resource self |}) by reflexivity.
    split; [reflexivity|]. split; [reflexivity|].
    split; [unfold is_connected; cbn; now rewrite Hm|].
    unfold read_power, on_meter. cbn. reflexivity.
Qed.

(** The bench sensor is connected, then an address nobody answers is
    tried. *)
Lemma failed_connect_keeps_resource_witness :
  let s1 := snd (connect bench bench_address (new, [])) in
  let r2 := connect bench "USB0::9::9::INSTR" s1 in
  fst r2 = Raises (LibraryError "VI_ERROR_RSRC_NFOUND")
  /\ resource (fst (snd r2)) = Some bench_address
  /\ is_connected (fst (snd r2)) = true
  /\ fst (read_power (F := Q) bench (snd r2)) = Raises Meter.NotConnected.
Proof.
  intros s1 r2.
  destruct (failed_connect_keeps_resource (F := Q) bench (fst s1) (fst (snd r2))
              (Calls.on_instrument DEFAULT_BACKENDS "" bench_address)
              "USB0::9::9::INSTR" (snd s1) (snd (snd r2))
              (LibraryError "VI_ERROR_RSRC_NFOUND") eq_refl eq_refl)
    as (Hres & _ & Hic & Hrp).
  split; [reflexivity|]. split; [exact Hres|]. split; [exact Hic|].
  change (snd r2) with (fst (snd r2), snd (snd r2)). now rewrite Hrp.
Defined.

Section WithFloat.
Context {F : Type} `{PyFloat F} `{PyFloatInt F}.

(** X15. On the simulator the frequency set through the controller
    is the one read back: when the text of the argument of [set_freq]
    parses to a float whose integer part is [k], the simulator is sent
    [k], and [get_freq] then returns [k], provided [k] is printed (it
    has at most 4300 digits) and itself goes through a float unchanged.
    For an integer argument [n] that does, this is [n]. Neither call
    touches anything outside the program. *)
Theorem set_then_get_freq (w : World) (self : t) (m : Meter.t) (f : FakeMeter.t)
    (hz : hz_arg) (text : string) (x : F) (k : Z) (h : trace) :
  meter self = Some m ->
  Meter._impl m = Some (Meter.Fake f) ->
  str_of_hz hz = Ok text ->
  Utils.parse_float (PyUnicode.of_string text) = Ok (Some x) ->
  to_int x = Ok k ->
  (Z.abs k < 10 ^ 4300)%Z ->
  to_int (of_decimal (k <? 0) (Z.abs k) 0) = Ok k ->
  let self1 := set_meter (Some (Meter.set_impl
                                  (Some (Meter.Fake (FakeMeter.set_freq f k))) m)) self in
  set_freq w hz (self, h) = (Returns tt, (self1, h))
  /\ get_freq w (self1, h) = (Returns k, (self1, h))
  /\ (forall n, hz = HzInt n -> to_int (of_decimal (n <? 0) (Z.abs n) 0) = Ok n -> k = n).
Proof.
  intros Hm Hi Hs Hp Hx Hb Hk self1.
  apply PyStrFacts.str_allowed_spec in Hb.
  assert (Hstr : str k = Ok (PyStr.str_of_int k)) by (unfold str; now rewrite Hb).
  split; [|split].
  - unfold set_freq, on_meter. rewrite Hm.
    unfold mbind, M_bind, bind, now_. rewrite Hs, Hp, Hx.
    unfold SCPI_SET_FREQ. rewrite Hstr.
    rewrite (SimulatorFacts.facade_write w m f _ h Hi).
    rewrite FakeMeterFacts.write_sens_freq, Hb. reflexivity.
  - unfold get_freq, on_meter. cbn [meter self1 set_meter].
    unfold mbind, M_bind, bind, now_.
    rewrite (SimulatorFacts.facade_query w
               (Meter.set_impl (Some (Meter.Fake (FakeMeter.set_freq f k))) m)
               (FakeMeter.set_freq f k) _ h eq_refl).
    rewrite FakeMeterFacts.query_freq. cbn [fst snd FakeMeter._freq_hz FakeMeter.set_freq].
    rewrite Hstr, NumberFacts.parse_float_int, Hk.
    unfold self1, set_meter. cbn. destruct m. cbn. reflexivity.
  - intros n -> Hn. cbn in Hs. unfold str in Hs.
    destruct (PyStr.str_allowed n); [|discriminate]. injection Hs as <-.
    rewrite NumberFacts.parse_float_int in Hp.
    injection Hp as <-. rewrite Hn in Hx. now injection Hx.
Qed.

End WithFloat.

Lemma set_then_get_freq_witness :
  let s0 : St := ({| meter := Some (Calls.on_simulator DEFAULT_BACKENDS);
                     resource := Some "FAKE"%string |}, []) in
  let s1 := snd (set_freq (F := Q) bench (HzStr "2.4 GHz") s0) in
  get_freq (F := Q) bench s1 = (Returns 2400000000, s1)
  /\ fst (get_freq (F := Q) bench (snd (set_freq (F := Q) bench (HzInt 915000000) s0)))
     = Returns 915000000.
Proof.
  intros s0 s1.
  assert (Hp : Utils.parse_float (F := Q) (PyUnicode.of_string "2.4 GHz")
               = Ok (Some (2400000000 # 1)))
    by (vm_compute; reflexivity).
  assert (Hn : Utils.parse_float (F := Q) (PyUnicode.of_string "915000000")
               = Ok (Some (915000000 # 1))) by (vm_compute; reflexivity).
  assert (Hi1 : to_int (2400000000 # 1)%Q = Ok 2400000000) by (vm_compute; reflexivity).
  assert (Hi2 : to_int (915000000 # 1)%Q = Ok 915000000) by (vm_compute; reflexivity).
  assert (Hk1 : to_int (of_decimal (F := Q) (2400000000 <? 0) (Z.abs 2400000000) 0)
                = Ok 2400000000) by (vm_compute; reflexivity).
  assert (Hk2 : to_int (of_decimal (F := Q) (915000000 <? 0) (Z.abs 915000000) 0)
                = Ok 915000000) by (vm_compute; reflexivity).
  assert (Hb1 : (Z.abs 2400000000 < 10 ^ 4300)%Z) by (vm_compute; reflexivity).
  assert (Hb2 : (Z.abs 915000000 < 10 ^ 4300)%Z) by (vm_compute; reflexivity).
  split.
  - destruct (set_then_get_freq (F := Q) bench (fst s0)
                (Calls.on_simulator DEFAULT_BACKENDS) FakeMeter.new
                (HzStr "2.4 GHz") "2.4 GHz" (2400000000 # 1) 2400000000 []
                eq_refl eq_refl eq_refl Hp Hi1 Hb1 Hk1)
      as (H1 & H2 & _).
    unfold s1. change s0 with (fst s0, @nil event). rewrite H1. exact H2.
  - destruct (set_then_get_freq (F := Q) bench (fst s0)
                (Calls.on_simulator DEFAULT_BACKENDS) FakeMeter.new
                (HzInt 915000000) "915000000" (915000000 # 1) 915000000 []
                eq_refl eq_refl eq_refl Hn Hi2 Hb2 Hk2)
      as (H1 & H2 & _).
    change s0 with (fst s0, @nil event). rewrite H1. cbn [snd]. now rewrite H2.
Defined.

(** X16. Outside a connection the controller gives nothing away. Before
    any connect it is not connected, its backend in use is the empty
    text, and reading the power, reading the frequency and zeroing raise
    the not-connected error of the facade. [close]
    never raises; it drops the facade and the resource, after which the
    controller is not connected, a second [close] does nothing, and every
    other method ends in an [AttributeError], the facade being gone. *)
Theorem outside_a_connection {F : Type} `{PyFloat F} `{PyFloatInt F} (w : World) :
  (is_connected new = false
   /\ backend_in_use new = Returns ""%string
   /\ forall h,
        fst (read_power (F := F) w (new, h)) = Raises Meter.NotConnected
        /\ fst (get_freq (F := F) w (new, h)) = Raises Meter.NotConnected
        /\ fst (zero w (new, h)) = Raises Meter.NotConnected)
  /\ forall h,
       let gone := {| meter := None; resource := None |} in
       (forall self m, meter self = Some m ->
          close w (self, h) = (Returns tt, (gone, h ++ Calls.facade_closing w m h)))
       /\ is_connected gone = false
       /\ close w (gone, h) = (Returns tt, (gone, h))
       /\ connect w "FAKE" (gone, h)
          = (AttributeError (no_attribute "connect"), (gone, h))
       /\ backend_in_use gone = AttributeError (no_attribute "backend_in_use")
       /\ read_power (F := F) w (gone, h)
          = (AttributeError (no_attribute "query"), (gone, h))
       /\ get_freq (F := F) w (gone, h)
          = (AttributeError (no_attribute "query"), (gone, h))
       /\ zero w (gone, h) = (AttributeError (no_attribute "write"), (gone, h))
       /\ forall hz, set_freq (F := F) w hz (gone, h)
                     = (AttributeError (no_attribute "write"), (gone, h)).
Proof.
  split.
  - split; [reflexivity|]. split; [reflexivity|]. intros h.
    split; [reflexivity|]. split; reflexivity.
  - intros h gone. split; [|repeat split].
    intros self m Hm. unfold close, on_meter. rewrite Hm.
    now rewrite FacadeFacts.close_events.
Qed.

End ControllerFacts.
